(** * Data Cleaning Bot: a shallow embedding of the cleaning pipeline

    The development follows [backend/utils.py], [backend/cleaning_logic.py]
    and [backend/ai_report.py].  A pandas cell is a tagged value (absent,
    number, text); a Series is a named list of cells with a storage kind; a
    DataFrame is a row count with its ordered columns.  Numbers are exact
    rationals: float64 arithmetic is idealised, and the integer-versus-float
    thresholds ([> len * 0.8], [> 0.7], [< 0.5]) are compared exactly, which
    is what the float comparison yields for every column that fits in memory.

    The pandas parsers are library code and are parameters of the model.
    Those of the classifier ([pd.to_numeric] on text, [pd.to_datetime] on
    text and on numbers) are applied cell by cell.  The conversion of
    [fix_dates] is a parameter per column: it may raise, and it may return a
    Series without the [.dt] accessor; either failure is swallowed by the
    [try] block of the loop. *)

From Stdlib Require Import QArith Qabs Qround ZArith List String Ascii Bool Lia Lqa ZifyNat
  Sorted DecimalString.
From stdpp Require Import gmap strings.
Import ListNotations.

Local Open Scope string_scope.
Local Open Scope list_scope.
Local Open Scope nat_scope.

(** ** Cells *)

Inductive value : Type :=
  | VNull                (* NaN / None / NaT *)
  | VNum (q : Q)         (* int or float *)
  | VStr (s : string).   (* str *)

Definition isna (v : value) : bool :=
  match v with VNull => true | _ => false end.

Definition notna (v : value) : bool := negb (isna v).

Definition isinstance_str (v : value) : bool :=
  match v with VStr _ => true | _ => false end.

(** Equality of contents, as [unique] and [duplicated] hash cells: absent
    equals absent, and numbers are compared by value. *)
Definition value_eqb (a b : value) : bool :=
  match a, b with
  | VNull, VNull => true
  | VNum p, VNum q => Qeq_bool p q
  | VStr s, VStr t => String.eqb s t
  | _, _ => false
  end.

(** [.sum()] of a boolean mask. *)
Fixpoint mask_sum (m : list bool) : nat :=
  match m with
  | [] => 0
  | b :: r => (if b then 1 else 0) + mask_sum r
  end.

Definition is_Some_b {A} (o : option A) : bool :=
  match o with Some _ => true | None => false end.

Definition dropna (l : list value) : list value := List.filter notna l.

Definition Qltb (a b : Q) : bool := negb (Qle_bool b a).

Definition Qnat (n : nat) : Q := inject_Z (Z.of_nat n).

(** ** utils.py: clean_string *)

Module Str.

(** [str.isspace] on the code points below 128. *)
Definition is_space (c : ascii) : bool :=
  let n := nat_of_ascii c in
  ((9 <=? n) && (n <=? 13)) || ((28 <=? n) && (n <=? 32)).

Definition lower_char (c : ascii) : ascii :=
  let n := nat_of_ascii c in
  if (65 <=? n) && (n <=? 90) then ascii_of_nat (n + 32) else c.

Fixpoint lstrip (s : string) : string :=
  match s with
  | EmptyString => EmptyString
  | String c r => if is_space c then lstrip r else s
  end.

Fixpoint rstrip (s : string) : string :=
  match s with
  | EmptyString => EmptyString
  | String c r =>
      match rstrip r with
      | EmptyString => if is_space c then EmptyString else String c EmptyString
      | r' => String c r'
      end
  end.

Definition strip (s : string) : string := rstrip (lstrip s).

Fixpoint lower (s : string) : string :=
  match s with
  | EmptyString => EmptyString
  | String c r => String (lower_char c) (lower r)
  end.

End Str.

(** [clean_string(value)]: non-text is returned as it is; text is stripped,
    then lowercased. *)
Definition clean_string (v : value) : value :=
  match v with
  | VStr s => VStr (Str.lower (Str.strip s))
  | _ => v
  end.

(** ** Calendar dates and [strftime('%Y-%m-%d')] *)

Record datetime : Type := { dt_year : nat; dt_month : nat; dt_day : nat }.

Definition decimal (n : nat) : string := NilZero.string_of_uint (Nat.to_uint n).

(** [str(i)] of a Python int. *)
Definition str_int (z : Z) : string := NilZero.string_of_int (Z.to_int z).

Fixpoint zeros (k : nat) : string :=
  match k with
  | 0 => EmptyString
  | S k' => String "0" (zeros k')
  end.

Definition zfill (w : nat) (s : string) : string :=
  zeros (w - String.length s) +:+ s.

Definition strftime (d : datetime) : string :=
  zfill 4 (decimal (dt_year d)) +:+ "-" +:+ zfill 2 (decimal (dt_month d))
    +:+ "-" +:+ zfill 2 (decimal (dt_day d)).

(** ** utils.py: detect_column_type *)

Inductive column_type : Type :=
  | Numeric | Date | Categorical | String_ | Unknown.

Definition column_type_eqb (a b : column_type) : bool :=
  match a, b with
  | Numeric, Numeric | Date, Date | Categorical, Categorical
  | String_, String_ | Unknown, Unknown => true
  | _, _ => false
  end.

(** [non_null.unique()]: the distinct cells, first occurrences kept. *)
Fixpoint unique_from (seen l : list value) : list value :=
  match l with
  | [] => []
  | v :: r =>
      if existsb (value_eqb v) seen then unique_from seen r
      else v :: unique_from (v :: seen) r
  end.

Definition unique (l : list value) : list value := unique_from [] l.

(** ** Series and DataFrame *)

(** Storage kind of a column: [object], or a numeric dtype (int64, float64). *)
Inductive dtype : Type := DObject | DNumber.

Definition is_numeric_dtype (d : dtype) : bool :=
  match d with DNumber => true | DObject => false end.

Record Series : Type :=
  { s_name : string; s_dtype : dtype; s_values : list value }.

Record DataFrame : Type :=
  { nrows : nat; columns : list Series }.

(** [len(df)] and [len(df.columns)]. *)
Definition len (df : DataFrame) : nat := nrows df.
Definition ncols (df : DataFrame) : nat := length (columns df).

(** Every column has one cell per row. *)
Definition rectangular (df : DataFrame) : Prop :=
  Forall (fun c => length (s_values c) = nrows df) (columns df).

(** Two versions of a column with the same number of cells. *)
Definition same_height (c c' : Series) : Prop :=
  length (s_values c') = length (s_values c).

Definition set_values (c : Series) (d : dtype) (vs : list value) : Series :=
  {| s_name := s_name c; s_dtype := d; s_values := vs |}.

Definition isna_sum (vs : list value) : nat := mask_sum (map isna vs).

Definition fillna (x : value) (vs : list value) : list value :=
  map (fun v => if isna v then x else v) vs.

(** [fillna(method="ffill")]: the nearest preceding present cell. *)
Fixpoint ffill_from (last : value) (vs : list value) : list value :=
  match vs with
  | [] => []
  | v :: r => if isna v then last :: ffill_from last r else v :: ffill_from v r
  end.

Definition ffill (vs : list value) : list value := ffill_from VNull vs.

(** [fillna(method="bfill")]: the nearest following present cell. *)
Fixpoint bfill (vs : list value) : list value :=
  match vs with
  | [] => []
  | v :: r => let r' := bfill r in (if isna v then hd VNull r' else v) :: r'
  end.

(** ** Order statistics *)

Fixpoint insert_sorted {A} (leb : A -> A -> bool) (x : A) (l : list A) : list A :=
  match l with
  | [] => [x]
  | y :: r => if leb x y then x :: l else y :: insert_sorted leb x r
  end.

Fixpoint sort {A} (leb : A -> A -> bool) (l : list A) : list A :=
  match l with
  | [] => []
  | x :: r => insert_sorted leb x (sort leb r)
  end.

(** The numbers of a column, absent cells skipped. *)
Fixpoint numbers (vs : list value) : list Q :=
  match vs with
  | [] => []
  | VNum q :: r => q :: numbers r
  | _ :: r => numbers r
  end.

(** [Series.median()]; [None] is NaN. *)
Definition median (vs : list value) : option Q :=
  let s := sort Qle_bool (numbers vs) in
  let n := length s in
  if n =? 0 then None
  else if Nat.odd n then Some (Qred (nth (n / 2) s 0%Q))
  else Some (Qred ((nth (n / 2 - 1) s 0 + nth (n / 2) s 0) / 2)%Q).

(** [Series.quantile(q)] with the default linear interpolation: position
    [(n - 1) * q] in the sorted present numbers. *)
Definition quantile (vs : list value) (q : Q) : option Q :=
  let s := sort Qle_bool (numbers vs) in
  let n := length s in
  if n =? 0 then None
  else
    let h := (Qnat (n - 1) * q)%Q in
    let lo := Z.to_nat (Qfloor h) in
    let a := nth lo s 0%Q in
    let b := nth (Nat.min (lo + 1) (n - 1)) s 0%Q in
    Some (Qred (a + (b - a) * (h - inject_Z (Qfloor h)))%Q).

(** Order used when [mode()] sorts its result: numbers before text. *)
Definition value_leb (a b : value) : bool :=
  match a, b with
  | VNull, _ => true
  | _, VNull => false
  | VNum p, VNum q => Qle_bool p q
  | VNum _, VStr _ => true
  | VStr _, VNum _ => false
  | VStr s, VStr t => String.leb s t
  end.

Definition count_of (v : value) (vs : list value) : nat :=
  mask_sum (map (value_eqb v) vs).

(** [Series.mode()]: the most frequent present values, sorted. *)
Definition mode (vs : list value) : list value :=
  let non_null := dropna vs in
  let u := unique non_null in
  let top := fold_right Nat.max 0 (map (fun v => count_of v non_null) u) in
  sort value_leb (List.filter (fun v => count_of v non_null =? top) u).

(** What the imputer leaves of a column [c]: a column [c'] with no absent
    cell, or [c] itself when it held no present cell to draw a fill from. *)
Definition filled_or_blank (c c' : Series) : Prop :=
  Forall (fun v => isna v = false) (s_values c') \/
  (Forall (fun v => isna v = true) (s_values c) /\ c' = c).

(** ** The steps log and the pipeline object *)

Record step : Type := { step_name : string; description : string }.

Record DataCleaningPipeline : Type :=
  { cleaning_steps : list step;
    original_df : option DataFrame;
    cleaned_df : option DataFrame;
    summary : gmap string Z }.

Definition counter (n : nat) : Z := Z.of_nat n.

(** [DataCleaningPipeline.__init__] *)
Definition init : DataCleaningPipeline :=
  {| cleaning_steps := [];
     original_df := None;
     cleaned_df := None;
     summary :=
       <["original_rows" := 0%Z]> (<["cleaned_rows" := 0%Z]> (<["rows_removed" := 0%Z]>
       (<["columns" := 0%Z]> (<["missing_values_handled" := 0%Z]>
       (<["outliers_replaced" := 0%Z]> (<["date_columns_fixed" := 0%Z]>
       (<["duplicates_removed" := 0%Z]> ∅))))))) |}.

(** [summary.get(key, default)] *)
Definition get (summary : gmap string Z) (key : string) (dflt : Z) : Z :=
  default dflt (summary !! key).

(** [load_csv]: [pd.read_csv] is outside the model; the frame it returns is
    the argument. *)
Definition load_csv (df : DataFrame) (self : DataCleaningPipeline) : DataCleaningPipeline :=
  {| cleaning_steps :=
       cleaning_steps self ++
       [{| step_name := "load_csv";
           description := "Loaded CSV with " +:+ decimal (len df) +:+ " rows and "
                            +:+ decimal (ncols df) +:+ " columns" |}];
     original_df := Some df;
     cleaned_df := Some df;
     summary := <["columns" := counter (ncols df)]>
                  (<["original_rows" := counter (len df)]> (summary self)) |}.

(** *** Step 1: trim_and_normalize_strings *)

(** Elementwise [!=] of two object Series: a NaN on either side compares
    unequal. *)
Definition cell_ne (x y : value) : bool :=
  isna x || isna y || negb (value_eqb x y).

Fixpoint series_ne (a b : list value) : list bool :=
  match a, b with
  | x :: a', y :: b' => cell_ne x y :: series_ne a' b'
  | _, _ => []
  end.

(** [lambda x: clean_string(x) if isinstance(x, str) else x] *)
Definition normalize_cell (x : value) : value :=
  if isinstance_str x then clean_string x else x.

(** The loop over the object columns, in column order; [apply] returns an
    object column. *)
Fixpoint trim_loop (cols : list Series) (trimmed_count : nat) : list Series * nat :=
  match cols with
  | [] => ([], trimmed_count)
  | c :: rest =>
      match s_dtype c with
      | DObject =>
          let original := s_values c in
          let cleaned := map normalize_cell original in
          let changes := mask_sum (series_ne original cleaned) in
          let trimmed_count' :=
            if 0 <? changes then trimmed_count + changes else trimmed_count in
          let (rest', total) := trim_loop rest trimmed_count' in
          (set_values c DObject cleaned :: rest', total)
      | DNumber =>
          let (rest', total) := trim_loop rest trimmed_count in
          (c :: rest', total)
      end
  end.

Definition trim_frame (df : DataFrame) : DataFrame * nat :=
  let (cols, trimmed_count) := trim_loop (columns df) 0 in
  ({| nrows := nrows df; columns := cols |}, trimmed_count).

Definition trim_and_normalize_strings (self : DataCleaningPipeline)
  : option DataCleaningPipeline :=
  match cleaned_df self with
  | None => None
  | Some df0 =>
      let (df, trimmed_count) := trim_frame df0 in
      Some {| cleaning_steps :=
                cleaning_steps self ++
                [{| step_name := "trim_and_normalize";
                    description := "Trimmed and normalized " +:+ decimal trimmed_count
                                     +:+ " string values" |}];
              original_df := original_df self;
              cleaned_df := Some df;
              summary := summary self |}
  end.

(** Cells whose content differs between two versions of a column (an absent
    cell that stays absent has not changed). *)
Fixpoint changed_cells (a b : list value) : nat :=
  match a, b with
  | x :: a', y :: b' => (if value_eqb x y then 0 else 1) + changed_cells a' b'
  | _, _ => 0
  end.

Definition changed_in_text (c : Series) : nat :=
  match s_dtype c with
  | DObject => changed_cells (s_values c) (map normalize_cell (s_values c))
  | DNumber => 0
  end.

Definition absent_in_text (c : Series) : nat :=
  match s_dtype c with
  | DObject => isna_sum (s_values c)
  | DNumber => 0
  end.

(** *** Step 4: remove_duplicates *)

Fixpoint row_eqb (r1 r2 : list value) : bool :=
  match r1, r2 with
  | [], [] => true
  | x :: r1', y :: r2' => value_eqb x y && row_eqb r1' r2'
  | _, _ => false
  end.

Definition row_at (cols : list Series) (i : nat) : list value :=
  map (fun c => nth i (s_values c) VNull) cols.

Definition rows (df : DataFrame) : list (list value) :=
  map (row_at (columns df)) (seq 0 (nrows df)).

(** [DataFrame.duplicated(keep='first')] *)
Fixpoint duplicated_from (seen rs : list (list value)) : list bool :=
  match rs with
  | [] => []
  | r :: rest =>
      if existsb (row_eqb r) seen then true :: duplicated_from seen rest
      else false :: duplicated_from (r :: seen) rest
  end.

Definition duplicated (df : DataFrame) : list bool := duplicated_from [] (rows df).

(** Boolean indexing [s[mask]]. *)
Fixpoint select {A} (mask : list bool) (l : list A) : list A :=
  match mask, l with
  | b :: m, x :: r => if b then x :: select m r else select m r
  | _, _ => []
  end.

(** [DataFrame.empty] *)
Definition frame_empty (df : DataFrame) : bool := (nrows df =? 0) || (ncols df =? 0).

(** [df.drop_duplicates(keep='first')]: an empty frame is copied, otherwise
    [df[~df.duplicated()]]. *)
Definition drop_duplicates (df : DataFrame) : DataFrame :=
  if frame_empty df then df
  else
    let keep := map negb (duplicated df) in
    {| nrows := mask_sum keep;
       columns := map (fun c => set_values c (s_dtype c) (select keep (s_values c)))
                      (columns df) |}.

Definition remove_duplicates (self : DataCleaningPipeline) : option DataCleaningPipeline :=
  match cleaned_df self with
  | None => None
  | Some df0 =>
      let initial_rows := len df0 in
      let df := drop_duplicates df0 in
      let duplicates_removed := (counter initial_rows - counter (len df))%Z in
      Some {| cleaning_steps :=
                cleaning_steps self ++
                [{| step_name := "remove_duplicates";
                    description := "Removed " +:+ str_int duplicates_removed
                                     +:+ " duplicate rows" |}];
              original_df := original_df self;
              cleaned_df := Some df;
              summary := <["duplicates_removed" := duplicates_removed]> (summary self) |}
  end.

(** *** Step 5: detect_and_replace_outliers *)

Definition outlier_cell (lower_bound upper_bound : Q) (v : value) : bool :=
  match v with
  | VNum x => Qltb x lower_bound || Qltb upper_bound x
  | _ => false
  end.

(** [lower_bound] and [upper_bound]; [None] when the quartiles are NaN. *)
Definition iqr_bounds (vs : list value) : option (Q * Q) :=
  match quantile vs 0.25, quantile vs 0.75 with
  | Some Q1, Some Q3 =>
      let IQR := (Q3 - Q1)%Q in
      let lower_bound := (Q1 - 1.5 * IQR)%Q in
      let upper_bound := (Q3 + 1.5 * IQR)%Q in
      Some (lower_bound, upper_bound)
  | _, _ => None
  end.

(** [(df[col] < lower_bound) | (df[col] > upper_bound)]; with NaN bounds
    every comparison is false. *)
Definition outlier_mask (vs : list value) : list bool :=
  match iqr_bounds vs with
  | Some (lower_bound, upper_bound) => map (outlier_cell lower_bound upper_bound) vs
  | None => map (fun _ => false) vs
  end.

(** [df.loc[mask, col] = x] *)
Fixpoint assign_where (mask : list bool) (x : value) (vs : list value) : list value :=
  match mask, vs with
  | b :: m, v :: r => (if b then x else v) :: assign_where m x r
  | _, _ => vs
  end.

Definition median_value (vs : list value) : value :=
  match median vs with Some m => VNum m | None => VNull end.

(** The loop over the numeric columns.  Numbers are exact: the float64
    rounding of the quartiles and of the median is not modelled, nor is the
    cast of an int64 column to float64 that [df.loc[mask, col] = median_val]
    performs when the median is not an integer.  That cast leaves every
    integer of magnitude up to 2^53 as it is. *)
Fixpoint outlier_loop (cols : list Series) (outliers_replaced : nat) : list Series * nat :=
  match cols with
  | [] => ([], outliers_replaced)
  | c :: rest =>
      match s_dtype c with
      | DNumber =>
          let mask := outlier_mask (s_values c) in
          let outlier_count := mask_sum mask in
          if 0 <? outlier_count then
            let median_val := median_value (s_values c) in
            let (rest', total) := outlier_loop rest (outliers_replaced + outlier_count) in
            (set_values c DNumber (assign_where mask median_val (s_values c)) :: rest', total)
          else
            let (rest', total) := outlier_loop rest outliers_replaced in
            (c :: rest', total)
      | DObject =>
          let (rest', total) := outlier_loop rest outliers_replaced in
          (c :: rest', total)
      end
  end.

Definition outlier_frame (df : DataFrame) : DataFrame * nat :=
  let (cols, outliers_replaced) := outlier_loop (columns df) 0 in
  ({| nrows := nrows df; columns := cols |}, outliers_replaced).

Definition detect_and_replace_outliers (self : DataCleaningPipeline)
  : option DataCleaningPipeline :=
  match cleaned_df self with
  | None => None
  | Some df0 =>
      let (df, outliers_replaced) := outlier_frame df0 in
      Some {| cleaning_steps :=
                cleaning_steps self ++
                [{| step_name := "detect_outliers";
                    description := "Detected and replaced " +:+ decimal outliers_replaced
                                     +:+ " outliers using IQR method" |}];
              original_df := original_df self;
              cleaned_df := Some df;
              summary := <["outliers_replaced" := counter outliers_replaced]> (summary self) |}
  end.

(** *** finalize *)

Definition finalize (self : DataCleaningPipeline) : option DataCleaningPipeline :=
  match cleaned_df self with
  | None => None
  | Some df =>
      let s1 := <["cleaned_rows" := counter (len df)]> (summary self) in
      original_rows ← s1 !! "original_rows";
      cleaned_rows ← s1 !! "cleaned_rows";
      Some {| cleaning_steps := cleaning_steps self;
              original_df := original_df self;
              cleaned_df := Some df;
              summary := <["rows_removed" := (original_rows - cleaned_rows)%Z]> s1 |}
  end.

(** What [pd.to_datetime(df[col], errors='coerce', infer_datetime_format=True)]
    makes of a column.  The call raises, or it returns a Series that holds
    for each cell its parse under the format inferred for this column
    (absent where the cell does not parse).  That Series is datetime-like,
    or of object dtype (as with mixed UTC offsets), on which [.dt] raises. *)
Inductive conversion : Type :=
  | ConversionRaised
  | Converted (datetimelike : bool) (parse : value -> option datetime).

(** [converted.dt.strftime('%Y-%m-%d')] on one cell; NaT gives NaN. *)
Definition strftime_cell (d : option datetime) : value :=
  match d with
  | Some t => VStr (strftime t)
  | None => VNull
  end.

Section Parsers.

(** What [pd.to_numeric(errors='coerce')] makes of a text cell, what
    [pd.to_datetime(errors='coerce')] makes of a text cell and of a number
    in the classifier, and what the conversion of [fix_dates] makes of a
    column. *)
Variable numeric_of_text : string -> option Q.
Variable datetime_of_text : string -> option datetime.
Variable datetime_of_number : Q -> option datetime.
Variable datetime_of_column : list value -> conversion.

Definition to_numeric (v : value) : value :=
  match v with
  | VNull => VNull
  | VNum q => VNum q
  | VStr s => match numeric_of_text s with Some q => VNum q | None => VNull end
  end.

Definition to_datetime (v : value) : option datetime :=
  match v with
  | VNull => None
  | VNum q => datetime_of_number q
  | VStr s => datetime_of_text s
  end.

Definition numeric_hits (series : list value) : nat :=
  mask_sum (map (fun v => notna (to_numeric v)) series).

Definition datetime_hits (series : list value) : nat :=
  mask_sum (map (fun v => is_Some_b (to_datetime v)) series).

Definition unique_ratio (non_null : list value) : Q :=
  (Qnat (length (unique non_null)) / Qnat (length non_null))%Q.

Definition detect_column_type (series : list value) : column_type :=
  let non_null := dropna series in
  if length non_null =? 0 then Unknown
  else if Qltb (Qnat (length non_null) * 0.8) (Qnat (numeric_hits series)) then Numeric
  else if Qltb (Qnat (length non_null) * 0.8) (Qnat (datetime_hits series)) then Date
  else if Qltb (unique_ratio non_null) 0.5 then Categorical
  else String_.

(** The two parse tests of the classifier, named for the statements below. *)
Definition numeric_test (series : list value) : bool :=
  Qltb (Qnat (length (dropna series)) * 0.8) (Qnat (numeric_hits series)).

Definition date_test (series : list value) : bool :=
  Qltb (Qnat (length (dropna series)) * 0.8) (Qnat (datetime_hits series)).

(** *** Step 2: fix_dates *)

(** The [try] block of the loop on one column: the column it leaves, and
    whether [date_columns_fixed] was incremented.  An exception raised by
    the conversion or by [.dt] is swallowed ([except: pass]): the column
    stays as it is and is not counted. *)
Definition fix_date_column (n : nat) (c : Series) : Series * bool :=
  match datetime_of_column (s_values c) with
  | ConversionRaised => (c, false)
  | Converted datetimelike parse =>
      let converted := map parse (s_values c) in
      let success_rate := (Qnat (mask_sum (map is_Some_b converted)) / Qnat n)%Q in
      if Qltb 0.7 success_rate then
        if datetimelike then (set_values c DObject (map strftime_cell converted), true)
        else (c, false)
      else (c, false)
  end.

Fixpoint fix_dates_loop (n : nat) (cols : list Series) (date_columns_fixed : nat)
  : list Series * nat :=
  match cols with
  | [] => ([], date_columns_fixed)
  | c :: rest =>
      if column_type_eqb (detect_column_type (s_values c)) Date then
        let (c', fixed) := fix_date_column n c in
        let (rest', total) :=
          fix_dates_loop n rest (if fixed then date_columns_fixed + 1
                                 else date_columns_fixed) in
        (c' :: rest', total)
      else
        let (rest', total) := fix_dates_loop n rest date_columns_fixed in
        (c :: rest', total)
  end.

Definition fix_dates_frame (df : DataFrame) : DataFrame * nat :=
  let (cols, date_columns_fixed) := fix_dates_loop (len df) (columns df) 0 in
  ({| nrows := nrows df; columns := cols |}, date_columns_fixed).

Definition fix_dates (self : DataCleaningPipeline) : option DataCleaningPipeline :=
  match cleaned_df self with
  | None => None
  | Some df0 =>
      let (df, date_columns_fixed) := fix_dates_frame df0 in
      Some {| cleaning_steps :=
                cleaning_steps self ++
                [{| step_name := "fix_dates";
                    description := "Fixed " +:+ decimal date_columns_fixed
                                     +:+ " date columns to YYYY-MM-DD format" |}];
              original_df := original_df self;
              cleaned_df := Some df;
              summary := <["date_columns_fixed" := counter date_columns_fixed]> (summary self) |}
  end.

(** *** Step 3: handle_missing_values *)

(** One pass of the loop body on a column that has absent cells: the new
    column, and whether [missing_count] was added to the running total.
    [df[col].fillna(x, inplace=True)] writes through to the frame, as it does
    in the pandas versions that accept [fillna(method=...)]. *)
Definition impute_column (c : Series) : Series * bool :=
  if is_numeric_dtype (s_dtype c) then
    let numeric_series := map to_numeric (s_values c) in
    match median numeric_series with
    | Some median_val =>
        (set_values c DNumber (fillna (VNum median_val) numeric_series), true)
    | None =>
        match mode (s_values c) with
        | m :: _ => (set_values c (s_dtype c) (fillna m (s_values c)), true)
        | [] => (c, false)
        end
    end
  else
    if column_type_eqb (detect_column_type (s_values c)) Date then
      (set_values c (s_dtype c) (bfill (ffill (s_values c))), true)
    else
      match mode (s_values c) with
      | m :: _ => (set_values c (s_dtype c) (fillna m (s_values c)), true)
      | [] => (set_values c (s_dtype c) (fillna (VStr EmptyString) (s_values c)), true)
      end.

Fixpoint missing_loop (cols : list Series) (missing_handled : nat) : list Series * nat :=
  match cols with
  | [] => ([], missing_handled)
  | c :: rest =>
      let missing_count := isna_sum (s_values c) in
      if missing_count =? 0 then
        let (rest', total) := missing_loop rest missing_handled in
        (c :: rest', total)
      else
        let (c', counted) := impute_column c in
        let (rest', total) :=
          missing_loop rest (if counted then missing_handled + missing_count
                             else missing_handled) in
        (c' :: rest', total)
  end.

Definition missing_frame (df : DataFrame) : DataFrame * nat :=
  let (cols, missing_handled) := missing_loop (columns df) 0 in
  ({| nrows := nrows df; columns := cols |}, missing_handled).

Definition handle_missing_values (self : DataCleaningPipeline)
  : option DataCleaningPipeline :=
  match cleaned_df self with
  | None => None
  | Some df0 =>
      let (df, missing_handled) := missing_frame df0 in
      Some {| cleaning_steps :=
                cleaning_steps self ++
                [{| step_name := "handle_missing";
                    description := "Handled " +:+ decimal missing_handled
                                     +:+ " missing values" |}];
              original_df := original_df self;
              cleaned_df := Some df;
              summary := <["missing_values_handled" := counter missing_handled]> (summary self) |}
  end.

(** A column is rewritten when the classifier calls it a date and the [try]
    block runs to its end: the conversion returns a datetime-like Series in
    which more than 0.7 of the [n] rows parsed. *)
Definition date_converted (n : nat) (c : Series) : bool :=
  column_type_eqb (detect_column_type (s_values c)) Date && snd (fix_date_column n c).

(** The frames between the stages of [run_pipeline], named for the
    statements below. *)
Definition after_dates (df : DataFrame) : DataFrame :=
  fst (fix_dates_frame (fst (trim_frame df))).

Definition after_missing (df : DataFrame) : DataFrame :=
  fst (missing_frame (after_dates df)).

Definition after_duplicates (df : DataFrame) : DataFrame :=
  drop_duplicates (after_missing df).

Definition clean_frame (df : DataFrame) : DataFrame :=
  fst (outlier_frame (after_duplicates df)).

(** *** run_pipeline *)

Definition run_pipeline (df : DataFrame) : option DataCleaningPipeline :=
  let self := load_csv df init in
  self ← trim_and_normalize_strings self;
  self ← fix_dates self;
  self ← handle_missing_values self;
  self ← remove_duplicates self;
  self ← detect_and_replace_outliers self;
  finalize self.

(** Running the pipeline again on the frame a first run has cleaned. *)
Definition run_twice (df : DataFrame)
  : option (DataCleaningPipeline * DataCleaningPipeline) :=
  first ← run_pipeline df;
  cleaned ← cleaned_df first;
  second ← run_pipeline cleaned;
  Some (first, second).

(** The cleaned frame is a fixed point: the second run removes no duplicate,
    replaces no outlier and keeps the row and column counts. *)
Definition second_run_is_fixed_point (df : DataFrame) : Prop :=
  exists (first second : DataCleaningPipeline) (d1 d2 : DataFrame),
    run_twice df = Some (first, second) /\
    cleaned_df first = Some d1 /\
    cleaned_df second = Some d2 /\
    summary second !! "duplicates_removed" = Some 0%Z /\
    summary second !! "outliers_replaced" = Some 0%Z /\
    len d2 = len d1 /\
    ncols d2 = ncols d1.

End Parsers.

(** ** generate_python_script *)

Module Script.

Definition dq : string := String (ascii_of_nat 34) EmptyString.
Definition newline : string := String (ascii_of_nat 10) EmptyString.

(** The lines of the script template, one string per line of the literal. *)
Definition script_lines : list string :=
  [ dq +:+ dq +:+ dq;
    "Auto-generated Data Cleaning Script";
    "Generated by Data Cleaning Bot";
    "This script replicates all the cleaning operations performed.";
    dq +:+ dq +:+ dq;
    EmptyString;
    "import pandas as pd";
    "import numpy as np";
    "import re";
    "from datetime import datetime";
    EmptyString;
    EmptyString;
    "def clean_string(value):";
    "    " +:+ dq +:+ dq +:+ dq +:+ "Trim and normalize string values." +:+ dq +:+ dq +:+ dq;
    "    if not isinstance(value, str):";
    "        return value";
    "    value = value.strip().lower()";
    "    return value";
    EmptyString;
    EmptyString;
    "def detect_column_type(series):";
    "    " +:+ dq +:+ dq +:+ dq +:+ "Detect if a column is numeric, categorical, or date." +:+ dq +:+ dq +:+ dq;
    "    non_null = series.dropna()";
    "    if len(non_null) == 0:";
    "        return 'unknown'";
    "    ";
    "    try:";
    "        pd.to_numeric(series, errors='coerce')";
    "        if pd.to_numeric(series, errors='coerce').notna().sum() > len(non_null) * 0.8:";
    "            return 'numeric'";
    "    except:";
    "        pass";
    "    ";
    "    try:";
    "        pd.to_datetime(series, errors='coerce')";
    "        if pd.to_datetime(series, errors='coerce').notna().sum() > len(non_null) * 0.8:";
    "            return 'date'";
    "    except:";
    "        pass";
    "    ";
    "    unique_ratio = len(non_null.unique()) / len(non_null)";
    "    if unique_ratio < 0.5:";
    "        return 'categorical'";
    "    return 'string'";
    EmptyString;
    EmptyString;
    "def clean_data(input_csv, output_csv='cleaned_data.csv'):";
    "    " +:+ dq +:+ dq +:+ dq;
    "    Main cleaning function that applies all operations.";
    "    " +:+ dq +:+ dq +:+ dq;
    "    print(" +:+ dq +:+ "Loading CSV..." +:+ dq +:+ ")";
    "    df = pd.read_csv(input_csv)";
    "    original_rows = len(df)";
    "    ";
    "    # Step 1: Trim and normalize strings";
    "    print(" +:+ dq +:+ "Step 1: Trimming and normalizing strings..." +:+ dq +:+ ")";
    "    string_columns = df.select_dtypes(include=['object']).columns";
    "    for col in string_columns:";
    "        df[col] = df[col].apply(";
    "            lambda x: clean_string(x) if isinstance(x, str) else x";
    "        )";
    "    ";
    "    # Step 2: Fix dates";
    "    print(" +:+ dq +:+ "Step 2: Fixing date formats..." +:+ dq +:+ ")";
    "    for col in df.columns:";
    "        if detect_column_type(df[col]) == 'date':";
    "            try:";
    "                converted = pd.to_datetime(df[col], errors='coerce', infer_datetime_format=True)";
    "                success_rate = converted.notna().sum() / len(df)";
    "                if success_rate > 0.7:";
    "                    df[col] = converted.dt.strftime('%Y-%m-%d')";
    "            except:";
    "                pass";
    "    ";
    "    # Step 3: Handle missing values";
    "    print(" +:+ dq +:+ "Step 3: Handling missing values..." +:+ dq +:+ ")";
    "    for col in df.columns:";
    "        missing_count = df[col].isna().sum()";
    "        if missing_count > 0:";
    "            col_type = detect_column_type(df[col])";
    "            if col_type == 'numeric':";
    "                median_val = df[col].median()";
    "                if not pd.isna(median_val):";
    "                    df[col].fillna(median_val, inplace=True)";
    "            elif col_type == 'categorical':";
    "                mode_val = df[col].mode()";
    "                if len(mode_val) > 0:";
    "                    df[col].fillna(mode_val[0], inplace=True)";
    "    ";
    "    # Step 4: Remove duplicates";
    "    print(" +:+ dq +:+ "Step 4: Removing duplicates..." +:+ dq +:+ ")";
    "    duplicates_before = len(df)";
    "    df = df.drop_duplicates(keep='first')";
    "    print(f" +:+ dq +:+ "Removed {duplicates_before - len(df)} duplicates" +:+ dq +:+ ")";
    "    ";
    "    # Step 5: Detect and replace outliers";
    "    print(" +:+ dq +:+ "Step 5: Handling outliers (IQR method)..." +:+ dq +:+ ")";
    "    numeric_columns = df.select_dtypes(include=[np.number]).columns";
    "    for col in numeric_columns:";
    "        Q1 = df[col].quantile(0.25)";
    "        Q3 = df[col].quantile(0.75)";
    "        IQR = Q3 - Q1";
    "        lower_bound = Q1 - 1.5 * IQR";
    "        upper_bound = Q3 + 1.5 * IQR";
    "        outlier_mask = (df[col] < lower_bound) | (df[col] > upper_bound)";
    "        if outlier_mask.sum() > 0:";
    "            median_val = df[col].median()";
    "            df.loc[outlier_mask, col] = median_val";
    "    ";
    "    # Save cleaned CSV";
    "    print(f" +:+ dq +:+ "Saving cleaned data to {output_csv}..." +:+ dq +:+ ")";
    "    df.to_csv(output_csv, index=False)";
    "    ";
    "    print(f" +:+ dq +:+ "\nCleaning Summary:" +:+ dq +:+ ")";
    "    print(f" +:+ dq +:+ "  Original rows: {original_rows}" +:+ dq +:+ ")";
    "    print(f" +:+ dq +:+ "  Cleaned rows: {len(df)}" +:+ dq +:+ ")";
    "    print(f" +:+ dq +:+ "  Rows removed: {original_rows - len(df)}" +:+ dq +:+ ")";
    "    print(f" +:+ dq +:+ "  Columns: {len(df.columns)}" +:+ dq +:+ ")";
    EmptyString;
    EmptyString;
    "if __name__ == " +:+ dq +:+ "__main__" +:+ dq +:+ ":";
    "    # Usage: python clean_data.py <input_csv> [output_csv]";
    "    import sys";
    "    if len(sys.argv) < 2:";
    "        print(" +:+ dq +:+ "Usage: python clean_data.py <input_csv> [output_csv]" +:+ dq +:+ ")";
    "        sys.exit(1)";
    "    ";
    "    input_file = sys.argv[1]";
    "    output_file = sys.argv[2] if len(sys.argv) > 2 else 'cleaned_data.csv'";
    "    ";
    "    clean_data(input_file, output_file)" ].

Definition text : string :=
  fold_right (fun l acc => l +:+ newline +:+ acc) EmptyString script_lines.

(** *** What the emitted script does: [clean_data] and its helpers *)

Definition clean_string (v : value) : value :=
  if negb (isinstance_str v) then v
  else match v with
       | VStr s => VStr (Str.lower (Str.strip s))
       | _ => v
       end.

Section Parsers.

Variable numeric_of_text : string -> option Q.
Variable datetime_of_text : string -> option datetime.
Variable datetime_of_number : Q -> option datetime.
Variable datetime_of_column : list value -> conversion.

Definition detect_column_type (series : list value) : column_type :=
  let non_null := dropna series in
  if length non_null =? 0 then Unknown
  else if Qltb (Qnat (length non_null) * 0.8)
               (Qnat (mask_sum (map (fun v => notna (to_numeric numeric_of_text v)) series)))
  then Numeric
  else if Qltb (Qnat (length non_null) * 0.8)
               (Qnat (mask_sum (map (fun v => is_Some_b
                        (to_datetime datetime_of_text datetime_of_number v)) series)))
  then Date
  else if Qltb (Qnat (length (unique non_null)) / Qnat (length non_null)) 0.5
  then Categorical
  else String_.

(** Step 1 *)
Definition step1_column (c : Series) : Series :=
  match s_dtype c with
  | DObject =>
      set_values c DObject
        (map (fun x => if isinstance_str x then clean_string x else x) (s_values c))
  | DNumber => c
  end.

(** Step 2; an exception in the [try] block leaves the column as it is. *)
Definition step2_column (n : nat) (c : Series) : Series :=
  if column_type_eqb (detect_column_type (s_values c)) Date then
    match datetime_of_column (s_values c) with
    | ConversionRaised => c
    | Converted datetimelike parse =>
        let converted := map parse (s_values c) in
        let success_rate := (Qnat (mask_sum (map is_Some_b converted)) / Qnat n)%Q in
        if Qltb 0.7 success_rate then
          if datetimelike then
            set_values c DObject
              (map (fun d => match d with Some t => VStr (strftime t) | None => VNull end)
                   converted)
          else c
        else c
    end
  else c.

(** Step 3.  [Series.median()] of a column that holds text raises
    [TypeError]: the result is [None]. *)
Definition step3_column (c : Series) : option Series :=
  let missing_count := isna_sum (s_values c) in
  if 0 <? missing_count then
    match detect_column_type (s_values c) with
    | Numeric =>
        if existsb isinstance_str (s_values c) then None
        else
          match median (s_values c) with
          | Some median_val =>
              Some (set_values c (s_dtype c) (fillna (VNum median_val) (s_values c)))
          | None => Some c
          end
    | Categorical =>
        match mode (s_values c) with
        | m :: _ => Some (set_values c (s_dtype c) (fillna m (s_values c)))
        | [] => Some c
        end
    | _ => Some c
    end
  else Some c.

(** Step 5 *)
Definition step5_column (c : Series) : Series :=
  match s_dtype c with
  | DNumber =>
      let mask := outlier_mask (s_values c) in
      if 0 <? mask_sum mask then
        set_values c DNumber (assign_where mask (median_value (s_values c)) (s_values c))
      else c
  | DObject => c
  end.

(** [clean_data(input_csv, output_csv)]: from the frame read to the frame
    written. *)
Definition clean_data (df : DataFrame) : option DataFrame :=
  let df := {| nrows := nrows df; columns := map step1_column (columns df) |} in
  let df := {| nrows := nrows df; columns := map (step2_column (len df)) (columns df) |} in
  cols ← mapM step3_column (columns df);
  let df := {| nrows := nrows df; columns := cols |} in
  let df := drop_duplicates df in
  Some {| nrows := nrows df; columns := map step5_column (columns df) |}.

End Parsers.

End Script.

(** [generate_python_script(cleaning_steps, original_columns)] *)
Definition generate_python_script (cleaning_steps : list step)
  (original_columns : list string) : string :=
  let script := Script.text in
  script.

(** ** ai_report.py *)

Module AiReport.

(** Outcome of a call to an external report generator. *)
Inductive outcome : Type :=
  | Returned (text : string)
  | Raised (error : string).

Section Providers.

(** The two API calls, the rendering of the prompt f-string and the
    [:.1f] float format are outside the model. *)
Variable _call_openai : string -> outcome.
Variable _call_groq : string -> outcome.
Variable render_prompt :
  DataFrame -> DataFrame -> list step -> gmap string Z -> string.
Variable format_1f : Q -> string.

(** [summary.get('rows_removed', 0) / max(summary.get('original_rows', 1), 1) * 100] *)
Definition percent_removed (summary : gmap string Z) : Q :=
  (inject_Z (get summary "rows_removed" 0)
     / inject_Z (Z.max (get summary "original_rows" 1) 1) * 100)%Q.

Definition _fallback_report (summary : gmap string Z) : string :=
  let report :=
    Script.newline +:+
    "## Data Cleaning Report" +:+ Script.newline +:+
    Script.newline +:+
    "### Summary of Operations" +:+ Script.newline +:+
    "- **Original Records:** " +:+ str_int (get summary "original_rows" 0)
      +:+ Script.newline +:+
    "- **Cleaned Records:** " +:+ str_int (get summary "cleaned_rows" 0)
      +:+ Script.newline +:+
    "- **Records Removed:** " +:+ str_int (get summary "rows_removed" 0)
      +:+ " (" +:+ format_1f (percent_removed summary) +:+ "%)" +:+ Script.newline +:+
    Script.newline +:+
    "### Data Quality Improvements" +:+ Script.newline +:+
    "- **Duplicate Rows Removed:** " +:+ str_int (get summary "duplicates_removed" 0)
      +:+ Script.newline +:+
    "- **Missing Values Fixed:** " +:+ str_int (get summary "missing_values_handled" 0)
      +:+ Script.newline +:+
    "- **Outliers Replaced:** " +:+ str_int (get summary "outliers_replaced" 0)
      +:+ Script.newline +:+
    "- **Date Formats Fixed:** " +:+ str_int (get summary "date_columns_fixed" 0)
      +:+ Script.newline +:+
    Script.newline +:+
    "### Recommendations" +:+ Script.newline +:+
    "1. **Review the cleaned data** to ensure quality meets your requirements"
      +:+ Script.newline +:+
    "2. **Validate date conversions** to confirm accuracy" +:+ Script.newline +:+
    "3. **Check categorical values** for consistency" +:+ Script.newline +:+
    "4. **Consider domain-specific rules** that may need additional cleaning"
      +:+ Script.newline in
  Str.strip report.

Definition generate_ai_report (original_df cleaned_df : DataFrame)
  (cleaning_steps : list step) (summary : gmap string Z) (ai_provider : string)
  : string :=
  let prompt := render_prompt original_df cleaned_df cleaning_steps summary in
  if String.eqb (Str.lower ai_provider) "openai" then
    match _call_openai prompt with
    | Returned text => text
    | Raised _ => _fallback_report summary
    end
  else if String.eqb (Str.lower ai_provider) "groq" then
    match _call_groq prompt with
    | Returned text => text
    | Raised _ => _fallback_report summary
    end
  else _fallback_report summary.

(** The generator selected by [ai_provider] was called and raised. *)
Definition generator_failed (prompt ai_provider : string) : Prop :=
  (Str.lower ai_provider = "openai" /\ exists e, _call_openai prompt = Raised e) \/
  (Str.lower ai_provider = "groq" /\ exists e, _call_groq prompt = Raised e).

End Providers.

End AiReport.

(** ** utils.py: normalize_special_characters *)

Definition is_lower_ascii (c : ascii) : bool :=
  let n := nat_of_ascii c in (97 <=? n) && (n <=? 122).

Definition is_digit_ascii (c : ascii) : bool :=
  let n := nat_of_ascii c in (48 <=? n) && (n <=? 57).

(** The characters outside the class [[^a-z0-9\s\-._]]. *)
Definition kept_char (c : ascii) : bool :=
  is_lower_ascii c || is_digit_ascii c || Str.is_space c
  || Ascii.eqb c "-" || Ascii.eqb c "." || Ascii.eqb c "_".

(** [re.sub(r'[^a-z0-9\s\-._]', '', value)] *)
Fixpoint remove_special (s : string) : string :=
  match s with
  | EmptyString => EmptyString
  | String c r => if kept_char c then String c (remove_special r) else remove_special r
  end.

(** [re.sub(r'\s+', ' ', value)]: each maximal run of whitespace becomes one
    space (emitted at the last character of the run). *)
Fixpoint collapse_spaces (s : string) : string :=
  match s with
  | EmptyString => EmptyString
  | String c r =>
      if Str.is_space c then
        match r with
        | String c' _ => if Str.is_space c' then collapse_spaces r
                         else String " " (collapse_spaces r)
        | EmptyString => String " " EmptyString
        end
      else String c (collapse_spaces r)
  end.

Definition normalize_special_characters (v : value) : value :=
  match v with
  | VStr s => VStr (Str.strip (collapse_spaces (remove_special s)))
  | _ => v
  end.

(** Every character of [s] satisfies [f]. *)
Fixpoint all_chars (f : ascii -> bool) (s : string) : bool :=
  match s with
  | EmptyString => true
  | String c r => f c && all_chars f r
  end.

(** No whitespace character of [s] is followed by another one. *)
Fixpoint single_spaced (s : string) : bool :=
  match s with
  | String c ((String c' _) as r) => negb (Str.is_space c && Str.is_space c') && single_spaced r
  | _ => true
  end.

(** [s] neither starts nor ends with whitespace. *)
Definition trimmed (s : string) : Prop := Str.strip s = s.

(** The alphabet of a normalized text: a-z, 0-9, [-], [.], [_] and the space. *)
Definition plain_char (c : ascii) : bool :=
  is_lower_ascii c || is_digit_ascii c
  || Ascii.eqb c "-" || Ascii.eqb c "." || Ascii.eqb c "_" || Ascii.eqb c " ".

(** ** utils.py: safe_numeric_conversion *)

(** ['.' in value] *)
Fixpoint contains_dot (s : string) : bool :=
  match s with
  | EmptyString => false
  | String c r => Ascii.eqb c "." || contains_dot r
  end.

Section Builtins.

(** [int(text)] and [float(text)]; [None] is [ValueError]. *)
Variable int_of_text : string -> option Q.
Variable float_of_text : string -> option Q.

(** [None] is returned as the absent cell. *)
Definition safe_numeric_conversion (v : value) : value :=
  match v with
  | VNull => VNull
  | VNum q => VNum q
  | VStr s =>
      let s' := Str.strip s in
      if contains_dot s' then
        match float_of_text s' with Some q => VNum q | None => VNull end
      else
        match int_of_text s' with Some q => VNum q | None => VNull end
  end.

End Builtins.

(** ** utils.py: format_report_summary *)

(** [key in summary] *)
Definition has_key (summary : gmap string Z) (key : string) : bool :=
  match summary !! key with Some _ => true | None => false end.

Definition report_lines (summary : gmap string Z) : list string :=
  let lines :=
    [ "**Original Rows:** " +:+ str_int (default 0%Z (summary !! "original_rows"));
      "**Cleaned Rows:** " +:+ str_int (default 0%Z (summary !! "cleaned_rows"));
      "**Rows Removed:** " +:+ str_int (default 0%Z (summary !! "rows_removed"));
      "**Columns:** " +:+ str_int (default 0%Z (summary !! "columns")) ] in
  let lines :=
    match summary !! "missing_values_handled" with
    | Some n => lines ++ [ "**Missing Values Fixed:** " +:+ str_int n ]
    | None => lines
    end in
  let lines :=
    match summary !! "outliers_replaced" with
    | Some n => lines ++ [ "**Outliers Replaced:** " +:+ str_int n ]
    | None => lines
    end in
  let lines :=
    match summary !! "date_columns_fixed" with
    | Some n => lines ++ [ "**Date Columns Fixed:** " +:+ str_int n ]
    | None => lines
    end in
  lines.

Definition format_report_summary (summary : gmap string Z) : string :=
  String.concat (String (ascii_of_nat 10) EmptyString) (report_lines summary).

(** ** Python string methods used by ai_report.py *)

Module PyStr.

Fixpoint drop (n : nat) (s : string) : string :=
  match n, s with
  | 0, _ => s
  | S k, String _ r => drop k r
  | S _, EmptyString => EmptyString
  end.

(** [s.replace(old, new)] for a non-empty [old]: occurrences are found from
    the left and do not overlap.  The fuel is the length of [s]. *)
Fixpoint replace_fuel (fuel : nat) (old new s : string) : string :=
  match fuel with
  | 0 => s
  | S f =>
      match s with
      | EmptyString => EmptyString
      | String c r =>
          if String.prefix old s
          then new +:+ replace_fuel f old new (drop (String.length old) s)
          else String c (replace_fuel f old new r)
      end
  end.

Definition replace (old new s : string) : string :=
  replace_fuel (String.length s) old new s.

(** [s.split(sep)] for a non-empty [sep]; [piece] is the text read since the
    last separator. *)
Fixpoint split_fuel (fuel : nat) (sep s piece : string) : list string :=
  match fuel with
  | 0 => [piece +:+ s]
  | S f =>
      match s with
      | EmptyString => [piece]
      | String c r =>
          if String.prefix sep s
          then piece :: split_fuel f sep (drop (String.length sep) s) EmptyString
          else split_fuel f sep r (piece +:+ String c EmptyString)
      end
  end.

Definition split (sep s : string) : list string :=
  split_fuel (String.length s) sep s EmptyString.

(** [old] occurs in [s] at some position. *)
Fixpoint occurs (old s : string) : bool :=
  String.prefix old s
  || match s with
     | EmptyString => false
     | String _ r => occurs old r
     end.

End PyStr.

(** ** ai_report.py: format_ai_report_html *)

(** [''.join([f"<p>{p}</p>" for p in paragraphs if p.strip()])] *)
Fixpoint wrap_paragraphs (paragraphs : list string) : string :=
  match paragraphs with
  | [] => EmptyString
  | p :: rest =>
      match Str.strip p with
      | EmptyString => wrap_paragraphs rest
      | _ => "<p>" +:+ p +:+ "</p>" +:+ wrap_paragraphs rest
      end
  end.

Definition format_ai_report_html (report : string) : string :=
  let html := report in
  let html := PyStr.replace "### " "<h3>" (PyStr.replace "## " "<h2>" html) in
  let html := PyStr.replace "**" "</strong>" (PyStr.replace "**" "<strong>" html) in
  let paragraphs :=
    PyStr.split (String (ascii_of_nat 10) (String (ascii_of_nat 10) EmptyString)) html in
  wrap_paragraphs paragraphs.

(** ** Well-typed frames *)

(** A column of numeric dtype holds numbers and absent cells only. *)
Definition well_typed_column (c : Series) : Prop :=
  s_dtype c = DNumber -> Forall (fun v => isinstance_str v = false) (s_values c).

Definition well_typed (df : DataFrame) : Prop :=
  Forall well_typed_column (columns df).

(** ** Notions used to state the properties of the stages *)

(** A text that is empty or starts with a character that is not whitespace. *)
Definition starts_clean (s : string) : Prop :=
  match s with
  | EmptyString => True
  | String c _ => Str.is_space c = false
  end.

(** [df.isna().sum().sum()] *)
Definition absent_cells (df : DataFrame) : nat :=
  list_sum (map (fun c => isna_sum (s_values c)) (columns df)).

(** A present cell [v] is found again as [v']. *)
Definition kept_cell (v v' : value) : Prop := isna v = false -> v' = v.

(** One column through the String Normalizer. *)
Definition trim_column (c : Series) : Series :=
  match s_dtype c with
  | DObject => set_values c DObject (map normalize_cell (s_values c))
  | DNumber => c
  end.

(** The rows of a matrix given by its columns. *)
Definition rows_of (n : nat) (vss : list (list value)) : list (list value) :=
  map (fun i => map (fun vs => nth i vs VNull) vss) (seq 0 n).

(** What the Outlier Replacer leaves of a column [c]: where [c] is numeric
    and has bounds, a column with no cell outside the bounds of [c];
    otherwise [c] itself. *)
Definition inside_or_same (c c' : Series) : Prop :=
  s_name c' = s_name c /\
  match s_dtype c, iqr_bounds (s_values c) with
  | DNumber, Some (lower_bound, upper_bound) =>
      Forall (fun v => outlier_cell lower_bound upper_bound v = false) (s_values c')
  | _, _ => c' = c
  end.

(** Every number of the frame has magnitude at most 2^53, so that the cast
    of an int64 column to float64 changes none of them. *)
Definition float_exact_cell (v : value) : Prop :=
  match v with
  | VNum q => (Qabs q <= inject_Z (2 ^ 53))%Q
  | _ => True
  end.

Definition float_exact (df : DataFrame) : Prop :=
  Forall (fun c => Forall float_exact_cell (s_values c)) (columns df).

(** The cells whose content differs between two lists of columns. *)
Fixpoint frame_changes (cols cols' : list Series) : nat :=
  match cols, cols' with
  | c :: r, c' :: r' => changed_cells (s_values c) (s_values c') + frame_changes r r'
  | _, _ => 0
  end.

(** The counters of the five stages of [run_pipeline] on [df]. *)
Definition stage_counts (numeric_of_text : string -> option Q)
  (datetime_of_text : string -> option datetime) (datetime_of_number : Q -> option datetime)
  (datetime_of_column : list value -> conversion)
  (df : DataFrame) : nat * nat * nat * Z * nat :=
  (snd (trim_frame df),
   snd (fix_dates_frame numeric_of_text datetime_of_text datetime_of_number datetime_of_column
          (fst (trim_frame df))),
   snd (missing_frame numeric_of_text datetime_of_text datetime_of_number
          (after_dates numeric_of_text datetime_of_text datetime_of_number datetime_of_column df)),
   (counter (len (after_missing numeric_of_text datetime_of_text datetime_of_number
       datetime_of_column df))
    - counter (len (after_duplicates numeric_of_text datetime_of_text datetime_of_number
        datetime_of_column df)))%Z,
   snd (outlier_frame (after_duplicates numeric_of_text datetime_of_text datetime_of_number
       datetime_of_column df))).

(** ** Sample parsers and frames, used to evaluate the model *)

(** Parsers that recognise no text at all: they agree with pandas on words
    such as ["alice"], which are neither numbers nor dates. *)
Definition no_number : string -> option Q := fun _ => None.
Definition no_date : string -> option datetime := fun _ => None.
Definition no_date_q : Q -> option datetime := fun _ => None.

(** A conversion that always raises; it is never called on a frame without
    a date column. *)
Definition no_conversion : list value -> conversion := fun _ => ConversionRaised.

Definition num (z : Z) : value := VNum (inject_Z z).

Definition numeric_column (name : string) (zs : list Z) : Series :=
  {| s_name := name; s_dtype := DNumber; s_values := map num zs |}.

Definition text_column (name : string) (vs : list value) : Series :=
  {| s_name := name; s_dtype := DObject; s_values := vs |}.

(** Five distinct rows; the value 10 of [x] is an outlier. *)
Definition frame_a : DataFrame :=
  {| nrows := 5;
     columns := [ numeric_column "id" [1; 2; 3; 4; 5];
                  numeric_column "x" [0; 0; 0; 1; 10] ]%Z |}.

(** Five distinct rows of one column; the value 100 is an outlier. *)
Definition frame_b : DataFrame :=
  {| nrows := 5; columns := [ numeric_column "x" [0; 1; 2; 3; 100] ]%Z |}.

(** The column of the outlier example. *)
Definition frame_outlier : DataFrame :=
  {| nrows := 5; columns := [ numeric_column "x" [10; 12; 11; 13; 1000] ]%Z |}.

Definition frame_outlier_cleaned : DataFrame :=
  {| nrows := 5; columns := [ numeric_column "x" [10; 12; 11; 13; 12] ]%Z |}.

(** Agreement of two figures to within one half. *)
Definition close_to (x y : Q) : Prop := (Qabs (x - y) < 1 # 2)%Q.

(** Two rows; the second has no name. *)
Definition frame_gap : DataFrame :=
  {| nrows := 2;
     columns := [ numeric_column "id" [1; 2]%Z;
                  text_column "name" [VStr "a"; VNull] ] |}.

(** Three rows; the third has no name, and the two names present differ. *)
Definition frame_names : DataFrame :=
  {| nrows := 3;
     columns := [ numeric_column "id" [1; 2; 3]%Z;
                  text_column "name" [VStr "alice"; VStr "bob"; VNull] ] |}.

Definition frame_names_filled : DataFrame :=
  {| nrows := 3;
     columns := [ numeric_column "id" [1; 2; 3]%Z;
                  text_column "name" [VStr "alice"; VStr "bob"; VStr "alice"] ] |}.

(** A parser that knows the three dates of [frame_dates], all written in
    one format, as pandas does. *)
Definition sample_dates (s : string) : option datetime :=
  if String.eqb s "2023/01/05" then Some {| dt_year := 2023; dt_month := 1; dt_day := 5 |}
  else if String.eqb s "2023/01/06" then Some {| dt_year := 2023; dt_month := 1; dt_day := 6 |}
  else if String.eqb s "2023/01/07" then Some {| dt_year := 2023; dt_month := 1; dt_day := 7 |}
  else None.

(** The conversion of a column of such dates: a datetime-like Series. *)
Definition sample_conversion (vs : list value) : conversion :=
  Converted true (to_datetime sample_dates no_date_q).

(** Two date columns: every row of [when] parses; two rows of [seen] out of
    three do. *)
Definition frame_dates : DataFrame :=
  {| nrows := 3;
     columns := [ text_column "when" [VStr "2023/01/05"; VStr "2023/01/06"; VStr "2023/01/07"];
                  text_column "seen" [VStr "2023/01/05"; VStr "2023/01/07"; VNull] ] |}.

(** One column of two timestamps whose UTC offsets differ. *)
Definition frame_offsets : DataFrame :=
  {| nrows := 2;
     columns := [ text_column "when" [VStr "2023-01-05 10:00:00+01:00";
                                      VStr "2023-01-06 10:00:00+02:00"] ] |}.

(** The parse of the two timestamps of [frame_offsets], as pandas does. *)
Definition offset_dates (s : string) : option datetime :=
  if String.eqb s "2023-01-05 10:00:00+01:00"
  then Some {| dt_year := 2023; dt_month := 1; dt_day := 5 |}
  else if String.eqb s "2023-01-06 10:00:00+02:00"
  then Some {| dt_year := 2023; dt_month := 1; dt_day := 6 |}
  else None.

(** The conversion of a column of such timestamps: every cell parses, but
    with mixed offsets pandas returns a Series of object dtype, which has no
    [.dt] accessor. *)
Definition offset_conversion (vs : list value) : conversion :=
  Converted false (to_datetime offset_dates no_date_q).

(** A numeric column with a gap, a text column with a gap, an empty column. *)
Definition frame_gaps : DataFrame :=
  {| nrows := 3;
     columns := [ {| s_name := "age"; s_dtype := DNumber;
                     s_values := [num 30; VNull; num 40] |};
                  text_column "city" [VStr "paris"; VNull; VStr "paris"];
                  {| s_name := "blank"; s_dtype := DNumber;
                     s_values := [VNull; VNull; VNull] |} ] |}.

(** An external call that fails the way [_call_openai] does without a key. *)
Definition no_api_key (prompt : string) : AiReport.outcome :=
  AiReport.Raised "OPENAI_API_KEY not set".

Definition prompt_stub (original_df cleaned_df : DataFrame) (cleaning_steps : list step)
  (summary : gmap string Z) : string := EmptyString.

Definition format_stub (x : Q) : string := "25.0".

Definition sample_summary : gmap string Z :=
  <["rows_removed" := 1%Z]> (<["original_rows" := 4%Z]> ∅).

(** Three rows; the second repeats the first. *)
Definition frame_repeat : DataFrame :=
  {| nrows := 3;
     columns := [ numeric_column "id" [1; 1; 2]%Z;
                  text_column "name" [VStr "a"; VStr "a"; VStr "b"] ] |}.

(** * Properties *)

(** ** Arithmetic of the thresholds *)

Lemma Qltb_lt (a b : Q) : Qltb a b = true <-> (a < b)%Q.
Proof.
  unfold Qltb. rewrite negb_true_iff. split.
  - intros H. apply Qnot_le_lt. intros Hle. apply Qle_bool_iff in Hle. congruence.
  - intros H. destruct (Qle_bool b a) eqn:E; [|reflexivity].
    apply Qle_bool_iff in E. exfalso. eapply Qlt_not_le; eauto.
Qed.

Lemma Qltb_ge (a b : Q) : Qltb a b = false <-> (b <= a)%Q.
Proof.
  unfold Qltb. rewrite negb_false_iff. apply Qle_bool_iff.
Qed.

(** [hits > n * 0.8] on counts. *)
Lemma threshold_08 (n h : nat) :
  Qltb (Qnat n * 0.8) (Qnat h) = (4 * n <? 5 * h).
Proof.
  destruct (4 * n <? 5 * h) eqn:E.
  - apply Qltb_lt. apply Nat.ltb_lt in E. unfold Qlt, Qnat. cbn. lia.
  - apply Nat.ltb_ge in E. destruct (Qltb _ _) eqn:F; [|reflexivity].
    apply Qltb_lt in F. unfold Qlt, Qnat in F. cbn in F. lia.
Qed.

(** [u / n < 0.5] on counts. *)
Lemma ratio_05 (u n : nat) :
  0 < n -> Qltb (Qnat u / Qnat n) 0.5 = (2 * u <? n).
Proof.
  intros Hn.
  assert (Hq : (Qnat u / Qnat n < 0.5)%Q <-> 2 * u < n).
  { unfold Qnat. destruct n as [|m]; [lia|].
    change (Z.of_nat (S m)) with (Z.pos (Pos.of_succ_nat m)).
    unfold Qdiv, Qinv, Qlt. cbn. lia. }
  destruct (2 * u <? n) eqn:E.
  - apply Qltb_lt, Hq. apply Nat.ltb_lt in E. exact E.
  - apply Nat.ltb_ge in E. destruct (Qltb _ _) eqn:F; [|reflexivity].
    apply Qltb_lt, Hq in F. lia.
Qed.

(** [h / n > 0.7] on counts. *)
Lemma rate_07 (h n : nat) :
  0 < n -> Qltb 0.7 (Qnat h / Qnat n) = (7 * n <? 10 * h).
Proof.
  intros Hn.
  assert (Hq : (0.7 < Qnat h / Qnat n)%Q <-> 7 * n < 10 * h).
  { unfold Qnat. destruct n as [|m]; [lia|].
    change (Z.of_nat (S m)) with (Z.pos (Pos.of_succ_nat m)).
    unfold Qdiv, Qinv, Qlt. cbn. lia. }
  destruct (7 * n <? 10 * h) eqn:E.
  - apply Qltb_lt, Hq. apply Nat.ltb_lt in E. exact E.
  - apply Nat.ltb_ge in E. destruct (Qltb _ _) eqn:F; [|reflexivity].
    apply Qltb_lt, Hq in F. lia.
Qed.

(** ** Cells and masks *)

Lemma value_eqb_refl (v : value) : value_eqb v v = true.
Proof.
  destruct v as [|q|s]; simpl.
  - reflexivity.
  - apply Qeq_bool_iff. reflexivity.
  - apply String.eqb_refl.
Qed.

Lemma mask_sum_le (m : list bool) : mask_sum m <= length m.
Proof.
  induction m as [|b m IH]; simpl; [lia|]. destruct b; lia.
Qed.

Lemma mask_sum_zero (m : list bool) :
  mask_sum m = 0 <-> Forall (fun b => b = false) m.
Proof.
  induction m as [|b m IH]; simpl.
  - split; [constructor | reflexivity].
  - destruct b; simpl.
    + split; [lia | intros H; inversion H; discriminate].
    + rewrite IH. split; [intros H; constructor; auto | intros H; inversion H; auto].
Qed.

Lemma dropna_nil_iff (vs : list value) :
  dropna vs = [] <-> Forall (fun v => isna v = true) vs.
Proof.
  induction vs as [|v vs IH]; simpl.
  - split; [constructor | reflexivity].
  - unfold notna. destruct (isna v) eqn:E; simpl.
    + rewrite IH. split; [intros H; constructor; auto | intros H; inversion H; auto].
    + split; [discriminate | intros H; inversion H; congruence].
Qed.

Lemma mask_sum_map_false {A} (f : A -> bool) (l : list A) :
  (forall x, In x l -> f x = false) -> mask_sum (map f l) = 0.
Proof.
  induction l as [|x l IH]; simpl; intros H; [reflexivity|].
  rewrite (H x (or_introl eq_refl)). simpl. apply IH. intros y Hy. apply H. now right.
Qed.

Lemma in_series_cases (x : value) (series : list value) :
  In x series -> isna x = true \/ In x (dropna series).
Proof.
  intros Hx. destruct (isna x) eqn:E; [now left|right].
  apply filter_In. split; [exact Hx|]. unfold notna. now rewrite E.
Qed.

Lemma unique_from_seen (v : value) (seen l : list value) :
  In v seen -> Forall (fun x => x = v) l -> unique_from seen l = [].
Proof.
  intros Hin Hall. induction Hall as [|x l Hx _ IH]; simpl; [reflexivity|].
  subst x.
  assert (E : existsb (value_eqb v) seen = true).
  { apply existsb_exists. exists v. split; [exact Hin | apply value_eqb_refl]. }
  rewrite E. exact IH.
Qed.

Lemma unique_constant (v : value) (l : list value) :
  l <> [] -> Forall (fun x => x = v) l -> unique l = [v].
Proof.
  intros Hne Hall. destruct Hall as [|x l Hx Hall]; [congruence|].
  subst x. unfold unique. simpl. f_equal.
  apply unique_from_seen with (v := v); [now left | exact Hall].
Qed.

(** ** The Column Type Classifier *)

Section Classifier.

Variable numeric_of_text : string -> option Q.
Variable datetime_of_text : string -> option datetime.
Variable datetime_of_number : Q -> option datetime.

Abbreviation detect := (detect_column_type numeric_of_text datetime_of_text datetime_of_number).
Abbreviation numeric_test' := (numeric_test numeric_of_text).
Abbreviation date_test' := (date_test datetime_of_text datetime_of_number).

Lemma detect_unfold (series : list value) :
  detect series =
    if length (dropna series) =? 0 then Unknown
    else if numeric_test' series then Numeric
    else if date_test' series then Date
    else if Qltb (unique_ratio (dropna series)) 0.5 then Categorical
    else String_.
Proof. reflexivity. Qed.

Lemma detect_unknown_iff (series : list value) :
  detect series = Unknown <-> dropna series = [].
Proof.
  rewrite detect_unfold. destruct (dropna series) as [|v l] eqn:E; simpl.
  - tauto.
  - split; [|discriminate].
    destruct (numeric_test' series), (date_test' series),
      (Qltb (unique_ratio (v :: l)) 0.5); discriminate.
Qed.

Lemma detect_date_present (series : list value) :
  detect series = Date -> dropna series <> [].
Proof.
  intros H E. apply detect_unknown_iff in E. congruence.
Qed.

(** C6.  A column that reaches the cardinality check (some value present,
    numeric test failed, date test failed) is [categorical] exactly when
    distinct / present is strictly below 0.5 and [string] otherwise; with
    four present values of which two are distinct the ratio is exactly 0.5
    and the answer is [string]. *)
Theorem classifier_cardinality_rule (series : list value) :
  dropna series <> [] ->
  numeric_test' series = false ->
  date_test' series = false ->
  (detect series = Categorical <-> (unique_ratio (dropna series) < 0.5)%Q) /\
  (detect series = String_ <-> ~ (unique_ratio (dropna series) < 0.5)%Q) /\
  (length (dropna series) = 4 -> length (unique (dropna series)) = 2 ->
   (unique_ratio (dropna series) == 0.5)%Q /\ detect series = String_).
Proof.
  intros Hne Hnum Hdate.
  assert (Hlen : 0 < length (dropna series)).
  { destruct (dropna series); [congruence | simpl; lia]. }
  assert (Hd : detect series =
               if Qltb (unique_ratio (dropna series)) 0.5 then Categorical else String_).
  { rewrite detect_unfold, Hnum, Hdate.
    destruct (length (dropna series) =? 0) eqn:E; [|reflexivity].
    apply Nat.eqb_eq in E. lia. }
  split; [|split].
  - rewrite Hd. destruct (Qltb _ _) eqn:E.
    + apply Qltb_lt in E. tauto.
    + apply Qltb_ge in E. split; [discriminate|].
      intros Hlt. exfalso. eapply Qlt_not_le; eauto.
  - rewrite Hd. destruct (Qltb _ _) eqn:E.
    + apply Qltb_lt in E. split; [discriminate | tauto].
    + apply Qltb_ge in E. split; [|reflexivity].
      intros _ Hlt. eapply Qlt_not_le; eauto.
  - intros H4 H2. split.
    + unfold unique_ratio. rewrite H4, H2. reflexivity.
    + rewrite Hd. unfold unique_ratio. rewrite ratio_05 by exact Hlen.
      rewrite H4, H2. reflexivity.
Qed.

Lemma hits_of_constant_column (series : list value) (v : value) :
  to_numeric numeric_of_text v = VNull ->
  to_datetime datetime_of_text datetime_of_number v = None ->
  Forall (fun x => x = v) (dropna series) ->
  numeric_hits numeric_of_text series = 0 /\
  datetime_hits datetime_of_text datetime_of_number series = 0.
Proof.
  intros Hn Hd Hall. rewrite List.Forall_forall in Hall.
  split; apply mask_sum_map_false; intros x Hx;
    destruct (in_series_cases x series Hx) as [Hna | Hin].
  - destruct x; simpl in Hna; try discriminate. reflexivity.
  - rewrite (Hall x Hin), Hn. reflexivity.
  - destruct x; simpl in Hna; try discriminate. reflexivity.
  - rewrite (Hall x Hin), Hd. reflexivity.
Qed.

Lemma detect_constant_column (series : list value) (v : value) :
  dropna series <> [] ->
  Forall (fun x => x = v) (dropna series) ->
  to_numeric numeric_of_text v = VNull ->
  to_datetime datetime_of_text datetime_of_number v = None ->
  detect series = if 2 <? length (dropna series) then Categorical else String_.
Proof.
  intros Hne Hall Hn Hd.
  destruct (hits_of_constant_column series v Hn Hd Hall) as [Hnh Hdh].
  assert (Hlen : 0 < length (dropna series)).
  { destruct (dropna series); [congruence | simpl; lia]. }
  rewrite detect_unfold. unfold numeric_test, date_test, unique_ratio.
  rewrite Hnh, Hdh, threshold_08, (unique_constant v _ Hne Hall).
  rewrite ratio_05 by exact Hlen. simpl length.
  destruct (length (dropna series)) as [|[|[|n]]]; try reflexivity. lia.
Qed.

(** C7, as the code has it.  A column whose present values are all one and
    the same value, which parses neither as a number nor as a date, is
    [categorical] when at least three values are present and [string] when
    only one or two are. *)
Theorem identical_values_column (series : list value) (v : value) :
  dropna series <> [] ->
  Forall (fun x => x = v) (dropna series) ->
  to_numeric numeric_of_text v = VNull ->
  to_datetime datetime_of_text datetime_of_number v = None ->
  (3 <= length (dropna series) -> detect series = Categorical) /\
  (length (dropna series) <= 2 -> detect series = String_).
Proof.
  intros Hne Hall Hn Hd.
  rewrite (detect_constant_column series v Hne Hall Hn Hd).
  split; intros Hlen.
  - apply Nat.ltb_lt in Hlen. rewrite Hlen. reflexivity.
  - apply Nat.ltb_ge in Hlen. rewrite Hlen. reflexivity.
Qed.

End Classifier.

Lemma classifier_cardinality_rule_witness :
  let series := [VStr "red"; VStr "red"; VStr "blue"; VStr "blue"] in
  (unique_ratio (dropna series) == 0.5)%Q /\
  detect_column_type no_number no_date no_date_q series = String_.
Proof.
  refine (proj2 (proj2 (classifier_cardinality_rule no_number no_date no_date_q
            [VStr "red"; VStr "red"; VStr "blue"; VStr "blue"] _ _ _)) _ _);
    solve [ discriminate | reflexivity ].
Defined.

Lemma identical_values_column_witness :
  detect_column_type no_number no_date no_date_q [VStr "yes"; VNull; VStr "yes"; VStr "yes"]
  = Categorical.
Proof.
  refine (proj1 (identical_values_column no_number no_date no_date_q
            [VStr "yes"; VNull; VStr "yes"; VStr "yes"] (VStr "yes") _ _ _ _) _).
  - discriminate.
  - repeat constructor.
  - reflexivity.
  - reflexivity.
  - simpl. lia.
Defined.

(** C7 as stated fails: a single present value that parses neither as a number
    nor as a date (all its present values are trivially identical) is
    classified [string], whatever the parsers do with the other texts. *)
Lemma identical_single_value_is_string :
  exists series v,
    dropna series <> [] /\
    Forall (fun x => x = v) (dropna series) /\
    detect_column_type no_number no_date no_date_q series = String_ /\
    forall np dt dn,
      to_numeric np v = VNull ->
      to_datetime dt dn v = None ->
      detect_column_type np dt dn series = String_ /\
      detect_column_type np dt dn series <> Categorical.
Proof.
  exists [VStr "x"], (VStr "x"). split; [discriminate|]. split; [repeat constructor|].
  split; [reflexivity|].
  intros np dt dn Hn Hd.
  rewrite (detect_constant_column np dt dn [VStr "x"] (VStr "x"));
    [ split; [reflexivity | discriminate] | discriminate | repeat constructor | exact Hn | exact Hd ].
Qed.

(** ** generate_python_script *)

(** C10.  The script returned does not depend on the steps log or on the
    column names: any two calls return the same text, the fixed template. *)
Theorem generate_python_script_constant
  (cleaning_steps1 cleaning_steps2 : list step) (original_columns1 original_columns2 : list string) :
  generate_python_script cleaning_steps1 original_columns1
  = generate_python_script cleaning_steps2 original_columns2.
Proof. reflexivity. Qed.

Lemma generate_python_script_text (cleaning_steps : list step) (original_columns : list string) :
  generate_python_script cleaning_steps original_columns = Script.text.
Proof. reflexivity. Qed.

Lemma script_text_length : String.length Script.text = 4244.
Proof. vm_compute. reflexivity. Qed.

(** ** The fallback report *)

Lemma append_assoc (a b c : string) : (a +:+ b) +:+ c = a +:+ (b +:+ c).
Proof.
  induction a as [|x a IH]; [reflexivity|].
  change (String x ((a +:+ b) +:+ c) = String x (a +:+ (b +:+ c))).
  now f_equal.
Qed.

Lemma append_nonempty_r (a b : string) : b <> EmptyString -> a +:+ b <> EmptyString.
Proof.
  intros Hb. destruct a as [|x a]; [exact Hb|].
  change (String x (a +:+ b) <> EmptyString). discriminate.
Qed.

Lemma rstrip_app (a b : string) :
  Str.rstrip b <> EmptyString -> Str.rstrip (a +:+ b) = a +:+ Str.rstrip b.
Proof.
  intros Hb. induction a as [|x a IH]; [reflexivity|].
  change (Str.rstrip (String x (a +:+ b)) = String x (a +:+ Str.rstrip b)).
  simpl. rewrite IH.
  destruct (a +:+ Str.rstrip b) eqn:E; [exfalso | reflexivity].
  revert E. apply append_nonempty_r, Hb.
Qed.

Lemma rstrip_app_nonempty (a b : string) :
  Str.rstrip b <> EmptyString -> Str.rstrip (a +:+ b) <> EmptyString.
Proof.
  intros Hb. rewrite rstrip_app by exact Hb. apply append_nonempty_r, Hb.
Qed.

Ltac rstrip_nonempty :=
  first [ apply rstrip_app_nonempty; rstrip_nonempty
        | solve [ vm_compute; discriminate ] ].

Section ReportFallback.

Variable _call_openai : string -> AiReport.outcome.
Variable _call_groq : string -> AiReport.outcome.
Variable render_prompt : DataFrame -> DataFrame -> list step -> gmap string Z -> string.
Variable format_1f : Q -> string.

Lemma percent_removed_get (summary : gmap string Z) (removed original : Z) :
  summary !! "rows_removed" = Some removed ->
  summary !! "original_rows" = Some original ->
  (AiReport.percent_removed summary
   == inject_Z removed / inject_Z (Z.max original 1) * 100)%Q.
Proof.
  intros Hr Ho. unfold AiReport.percent_removed, get. rewrite Hr, Ho. reflexivity.
Qed.

Lemma fallback_report_shape (summary : gmap string Z) :
  exists before after : string,
    AiReport._fallback_report format_1f summary =
      before +:+ "- **Records Removed:** " +:+ str_int (get summary "rows_removed" 0)
        +:+ " (" +:+ format_1f (AiReport.percent_removed summary) +:+ "%)" +:+ after.
Proof.
  exists ("## Data Cleaning Report" +:+ Script.newline +:+ Script.newline +:+
          "### Summary of Operations" +:+ Script.newline +:+
          "- **Original Records:** " +:+ str_int (get summary "original_rows" 0)
            +:+ Script.newline +:+
          "- **Cleaned Records:** " +:+ str_int (get summary "cleaned_rows" 0)
            +:+ Script.newline).
  eexists.
  unfold AiReport._fallback_report, Str.strip.
  match goal with
  | |- Str.rstrip (Str.lstrip (Script.newline +:+ ?body)) = _ =>
      change (Str.lstrip (Script.newline +:+ body)) with body
  end.
  repeat (rewrite rstrip_app; [ | solve [ rstrip_nonempty ] ]).
  rewrite !append_assoc. reflexivity.
Qed.

(** C9.  When the generator selected by [ai_provider] raises,
    [generate_ai_report] returns [_fallback_report(summary)]: a text that is
    a function of the summary counters only, whose "Records Removed" line
    carries the percentage
    [rows_removed / max(original_rows, 1) * 100]. *)
Theorem fallback_on_generator_failure
  (original_df cleaned_df : DataFrame) (cleaning_steps : list step)
  (summary : gmap string Z) (ai_provider : string) (removed original : Z) :
  AiReport.generator_failed _call_openai _call_groq
    (render_prompt original_df cleaned_df cleaning_steps summary) ai_provider ->
  summary !! "rows_removed" = Some removed ->
  summary !! "original_rows" = Some original ->
  AiReport.generate_ai_report _call_openai _call_groq render_prompt format_1f
    original_df cleaned_df cleaning_steps summary ai_provider
  = AiReport._fallback_report format_1f summary /\
  (AiReport.percent_removed summary
   == inject_Z removed / inject_Z (Z.max original 1) * 100)%Q /\
  exists before after : string,
    AiReport._fallback_report format_1f summary =
      before +:+ "- **Records Removed:** " +:+ str_int removed
        +:+ " (" +:+ format_1f (AiReport.percent_removed summary) +:+ "%)" +:+ after.
Proof.
  intros Hfail Hr Ho. split; [|split].
  - unfold AiReport.generate_ai_report.
    destruct Hfail as [[Hp [e He]] | [Hp [e He]]].
    + rewrite Hp, He. reflexivity.
    + rewrite Hp, He. reflexivity.
  - apply percent_removed_get; assumption.
  - destruct (fallback_report_shape summary) as (b & a & E).
    exists b, a. rewrite E. unfold get. rewrite Hr. reflexivity.
Qed.

End ReportFallback.

Lemma fallback_on_generator_failure_witness :
  AiReport.generate_ai_report no_api_key no_api_key prompt_stub format_stub
    {| nrows := 0; columns := [] |} {| nrows := 0; columns := [] |} []
    sample_summary "OpenAI"
  = AiReport._fallback_report format_stub sample_summary /\
  (AiReport.percent_removed sample_summary == 25)%Q.
Proof.
  destruct (fallback_on_generator_failure no_api_key no_api_key prompt_stub format_stub
              {| nrows := 0; columns := [] |} {| nrows := 0; columns := [] |} []
              sample_summary "OpenAI" 1%Z 4%Z) as (H1 & H2 & _).
  - left. split; [reflexivity | eexists; reflexivity].
  - reflexivity.
  - reflexivity.
  - split; [exact H1 | rewrite H2; reflexivity].
Defined.

(** ** The stages keep the frame rectangular in shape *)

Lemma trim_loop_length (cols : list Series) (k : nat) :
  length (fst (trim_loop cols k)) = length cols.
Proof.
  revert k. induction cols as [|c cols IH]; intros k; simpl; [reflexivity|].
  destruct (s_dtype c).
  - match goal with |- context [trim_loop cols ?k'] =>
      specialize (IH k'); destruct (trim_loop cols k') end.
    simpl in *. now rewrite IH.
  - specialize (IH k). destruct (trim_loop cols k). simpl in *. now rewrite IH.
Qed.

Lemma outlier_loop_length (cols : list Series) (k : nat) :
  length (fst (outlier_loop cols k)) = length cols.
Proof.
  revert k. induction cols as [|c cols IH]; intros k; simpl; [reflexivity|].
  destruct (s_dtype c); [|destruct (0 <? _)];
    match goal with |- context [outlier_loop cols ?k'] =>
      specialize (IH k'); destruct (outlier_loop cols k') end;
    simpl in *; now rewrite IH.
Qed.

Lemma drop_duplicates_ncols (df : DataFrame) : ncols (drop_duplicates df) = ncols df.
Proof.
  unfold drop_duplicates. destruct (frame_empty df); [reflexivity|].
  unfold ncols. simpl. apply length_map.
Qed.

Lemma duplicated_from_length (seen rs : list (list value)) :
  length (duplicated_from seen rs) = length rs.
Proof.
  revert seen. induction rs as [|r rs IH]; intros seen; simpl; [reflexivity|].
  destruct (existsb (row_eqb r) seen); simpl; now rewrite IH.
Qed.

Lemma drop_duplicates_len (df : DataFrame) : len (drop_duplicates df) <= len df.
Proof.
  unfold drop_duplicates. destruct (frame_empty df); [lia|].
  unfold len. simpl. etransitivity; [apply mask_sum_le|].
  rewrite length_map. unfold duplicated, rows.
  rewrite duplicated_from_length, length_map, length_seq. lia.
Qed.

Section Shape.

Variable numeric_of_text : string -> option Q.
Variable datetime_of_text : string -> option datetime.
Variable datetime_of_number : Q -> option datetime.
Variable datetime_of_column : list value -> conversion.

Abbreviation fix_dates_loop' :=
  (fix_dates_loop numeric_of_text datetime_of_text datetime_of_number datetime_of_column).
Abbreviation missing_loop' :=
  (missing_loop numeric_of_text datetime_of_text datetime_of_number).

Lemma fix_dates_loop_length (n : nat) (cols : list Series) (k : nat) :
  length (fst (fix_dates_loop' n cols k)) = length cols.
Proof.
  revert k. induction cols as [|c cols IH]; intros k; cbn [fix_dates_loop];
    [reflexivity|].
  destruct (column_type_eqb _ _); [destruct (fix_date_column _ n c) as [c' fixed]|];
    match goal with |- context [fix_dates_loop' n cols ?k'] =>
      specialize (IH k'); destruct (fix_dates_loop' n cols k') end;
    simpl in *; now rewrite IH.
Qed.

Lemma missing_loop_length (cols : list Series) (k : nat) :
  length (fst (missing_loop' cols k)) = length cols.
Proof.
  revert k. induction cols as [|c cols IH]; intros k; simpl; [reflexivity|].
  destruct (isna_sum (s_values c) =? 0).
  - specialize (IH k). destruct (missing_loop' cols k). simpl in *. now rewrite IH.
  - destruct (impute_column _ _ _ c) as [c' counted].
    match goal with |- context [missing_loop' cols ?k'] =>
      specialize (IH k'); destruct (missing_loop' cols k') end.
    simpl in *. now rewrite IH.
Qed.

Abbreviation after_dates' := (after_dates numeric_of_text datetime_of_text datetime_of_number
    datetime_of_column).
Abbreviation after_missing' := (after_missing numeric_of_text datetime_of_text datetime_of_number
    datetime_of_column).
Abbreviation after_duplicates' :=
  (after_duplicates numeric_of_text datetime_of_text datetime_of_number datetime_of_column).
Abbreviation clean_frame' := (clean_frame numeric_of_text datetime_of_text datetime_of_number
    datetime_of_column).
Abbreviation run_pipeline' := (run_pipeline numeric_of_text datetime_of_text datetime_of_number
    datetime_of_column).

Lemma trim_frame_shape (df : DataFrame) :
  len (fst (trim_frame df)) = len df /\ ncols (fst (trim_frame df)) = ncols df.
Proof.
  unfold trim_frame, ncols. pose proof (trim_loop_length (columns df) 0) as H.
  destruct (trim_loop (columns df) 0). simpl in *. auto.
Qed.

Lemma fix_dates_frame_shape (df : DataFrame) :
  len (fst (fix_dates_frame numeric_of_text datetime_of_text datetime_of_number
      datetime_of_column df)) = len df /\
  ncols (fst (fix_dates_frame numeric_of_text datetime_of_text datetime_of_number
      datetime_of_column df)) = ncols df.
Proof.
  unfold fix_dates_frame, ncols.
  pose proof (fix_dates_loop_length (len df) (columns df) 0) as H.
  destruct (fix_dates_loop' (len df) (columns df) 0). simpl in *. auto.
Qed.

Lemma missing_frame_shape (df : DataFrame) :
  len (fst (missing_frame numeric_of_text datetime_of_text datetime_of_number df)) = len df /\
  ncols (fst (missing_frame numeric_of_text datetime_of_text datetime_of_number df)) = ncols df.
Proof.
  unfold missing_frame, ncols.
  pose proof (missing_loop_length (columns df) 0) as H.
  destruct (missing_loop' (columns df) 0). simpl in *. auto.
Qed.

Lemma outlier_frame_shape (df : DataFrame) :
  len (fst (outlier_frame df)) = len df /\ ncols (fst (outlier_frame df)) = ncols df.
Proof.
  unfold outlier_frame, ncols. pose proof (outlier_loop_length (columns df) 0) as H.
  destruct (outlier_loop (columns df) 0). simpl in *. auto.
Qed.

Lemma after_missing_shape (df : DataFrame) :
  len (after_missing' df) = len df /\ ncols (after_missing' df) = ncols df.
Proof.
  unfold after_missing, after_dates.
  destruct (missing_frame_shape
              (fst (fix_dates_frame numeric_of_text datetime_of_text datetime_of_number
                  datetime_of_column
                      (fst (trim_frame df))))) as [H1 H2].
  destruct (fix_dates_frame_shape (fst (trim_frame df))) as [H3 H4].
  destruct (trim_frame_shape df) as [H5 H6].
  split; congruence.
Qed.

Lemma run_pipeline_result (df : DataFrame) :
  exists p : DataCleaningPipeline,
    run_pipeline' df = Some p /\
    original_df p = Some df /\
    cleaned_df p = Some (clean_frame' df) /\
    summary p !! "original_rows" = Some (counter (len df)) /\
    summary p !! "columns" = Some (counter (ncols df)) /\
    summary p !! "cleaned_rows" = Some (counter (len (clean_frame' df))) /\
    summary p !! "rows_removed"
      = Some (counter (len df) - counter (len (clean_frame' df)))%Z /\
    summary p !! "duplicates_removed"
      = Some (counter (len (after_missing' df)) - counter (len (after_duplicates' df)))%Z /\
    summary p !! "outliers_replaced"
      = Some (counter (snd (outlier_frame (after_duplicates' df)))).
Proof.
  unfold run_pipeline, clean_frame, after_duplicates, after_missing, after_dates.
  unfold trim_and_normalize_strings, load_csv. cbn [cleaned_df].
  destruct (trim_frame df) as [d1 c1].
  cbn [mbind option_bind fst snd].
  unfold fix_dates. cbn [cleaned_df].
  destruct (fix_dates_frame _ _ _ _ d1) as [d2 c2].
  cbn [mbind option_bind fst snd].
  unfold handle_missing_values. cbn [cleaned_df].
  destruct (missing_frame _ _ _ d2) as [d3 c3].
  cbn [mbind option_bind fst snd].
  unfold remove_duplicates. cbn [cleaned_df mbind option_bind].
  unfold detect_and_replace_outliers. cbn [cleaned_df].
  destruct (outlier_frame (drop_duplicates d3)) as [d5 c5].
  cbn [mbind option_bind fst snd].
  unfold finalize. cbn [cleaned_df summary cleaning_steps original_df].
  assert (Ho : forall m : gmap string Z,
    <["cleaned_rows":=counter (len d5)]>
      (<["outliers_replaced":=counter c5]>
         (<["duplicates_removed":=(counter (len d3) - counter (len (drop_duplicates d3)))%Z]>
            (<["missing_values_handled":=counter c3]>
               (<["date_columns_fixed":=counter c2]>
                  (<["columns":=counter (ncols df)]>
                     (<["original_rows":=counter (len df)]> m)))))) !! "original_rows"
    = Some (counter (len df))).
  { intros m. rewrite !lookup_insert_ne by done. apply lookup_insert_eq. }
  rewrite Ho, lookup_insert_eq. cbn [mbind option_bind].
  eexists. split; [reflexivity|]. cbn [original_df cleaned_df summary].
  repeat split; rewrite ?lookup_insert_ne by done; apply lookup_insert_eq.
Qed.

Lemma clean_frame_shape (df : DataFrame) :
  len (clean_frame' df) = len (after_duplicates' df) /\
  len (after_duplicates' df) <= len df /\
  ncols (clean_frame' df) = ncols df.
Proof.
  unfold clean_frame, after_duplicates.
  destruct (outlier_frame_shape (drop_duplicates (after_missing' df))) as [H1 H2].
  destruct (after_missing_shape df) as [H3 H4].
  pose proof (drop_duplicates_len (after_missing' df)) as H5.
  pose proof (drop_duplicates_ncols (after_missing' df)) as H6.
  split; [congruence | split; [lia | congruence]].
Qed.

(** C2, as the code has it.  A second run on the cleaned frame returns, keeps
    the column count, never adds a row, and removes rows only as
    duplicates: its [rows_removed] equals its [duplicates_removed], the
    difference of the two row counts. *)
Theorem second_run_keeps_shape (df : DataFrame) :
  exists (first second : DataCleaningPipeline) (d1 d2 : DataFrame),
    run_twice numeric_of_text datetime_of_text datetime_of_number datetime_of_column df
      = Some (first, second) /\
    cleaned_df first = Some d1 /\
    cleaned_df second = Some d2 /\
    ncols d2 = ncols d1 /\
    summary second !! "columns" = summary first !! "columns" /\
    len d2 <= len d1 /\
    summary second !! "rows_removed" = Some (counter (len d1) - counter (len d2))%Z /\
    summary second !! "duplicates_removed" = summary second !! "rows_removed".
Proof.
  destruct (run_pipeline_result df) as (p1 & Hr1 & _ & Hc1 & _ & Hk1 & _).
  destruct (run_pipeline_result (clean_frame' df))
    as (p2 & Hr2 & _ & Hc2 & _ & Hk2 & _ & Hrem & Hdup & _).
  destruct (clean_frame_shape df) as (_ & _ & Hn1).
  destruct (clean_frame_shape (clean_frame' df)) as (Hl2 & Hle2 & Hn2).
  destruct (after_missing_shape (clean_frame' df)) as [Hm _].
  exists p1, p2, (clean_frame' df), (clean_frame' (clean_frame' df)).
  unfold run_twice. rewrite Hr1. cbn [mbind option_bind]. rewrite Hc1.
  cbn [mbind option_bind]. rewrite Hr2. cbn [mbind option_bind].
  repeat split; try assumption.
  - rewrite Hk1, Hk2. congruence.
  - lia.
  - rewrite Hdup, Hrem, Hm, Hl2. reflexivity.
Qed.

End Shape.

(** C2 as stated fails.  On [frame_a] the median that replaces the outlier 10
    narrows the quartiles, so that the second run replaces one more value; on
    [frame_b] the median that replaces the outlier 100 repeats an existing
    row, which the second run removes as a duplicate (5 rows become 4). *)
Lemma second_run_is_not_a_fixed_point :
  (forall np dt dn dc, ~ second_run_is_fixed_point np dt dn dc frame_a) /\
  (forall np dt dn dc, ~ second_run_is_fixed_point np dt dn dc frame_b).
Proof.
  split; intros np dt dn dc (p1 & p2 & d1 & d2 & Hrun & Hc1 & Hc2 & Hdup & Hout & Hlen & _).
  - assert (E : option_map (fun pp => summary (snd pp) !! "outliers_replaced")
                  (run_twice np dt dn dc frame_a) = Some (Some 1%Z))
      by (vm_compute; reflexivity).
    rewrite Hrun in E. simpl in E. congruence.
  - assert (E : option_map (fun pp => summary (snd pp) !! "duplicates_removed")
                  (run_twice np dt dn dc frame_b) = Some (Some 1%Z))
      by (vm_compute; reflexivity).
    rewrite Hrun in E. simpl in E. congruence.
Qed.

(** ** Filling absent cells *)

Lemma fillna_no_absent (x : value) (vs : list value) :
  notna x = true -> isna_sum (fillna x vs) = 0.
Proof.
  intros Hx. unfold isna_sum, fillna. rewrite map_map.
  apply mask_sum_map_false. intros v _.
  destruct (isna v) eqn:E; [|exact E].
  unfold notna in Hx. now apply negb_true_iff in Hx.
Qed.

Lemma in_insert_sorted {A} (leb : A -> A -> bool) (x y : A) (l : list A) :
  In y (insert_sorted leb x l) <-> y = x \/ In y l.
Proof.
  induction l as [|z l IH]; simpl.
  - intuition.
  - destruct (leb x z); simpl; [intuition | rewrite IH; intuition].
Qed.

Lemma in_sort {A} (leb : A -> A -> bool) (y : A) (l : list A) :
  In y (sort leb l) <-> In y l.
Proof.
  induction l as [|x l IH]; simpl; [tauto|].
  rewrite in_insert_sorted, IH. intuition.
Qed.

Lemma in_unique_from (y : value) (seen l : list value) :
  In y (unique_from seen l) -> In y l.
Proof.
  revert seen. induction l as [|x l IH]; intros seen; simpl; [tauto|].
  destruct (existsb (value_eqb x) seen); simpl.
  - intros H. right. eapply IH, H.
  - intros [H | H]; [now left | right; eapply IH, H].
Qed.

Lemma mode_present (vs : list value) (m : value) :
  In m (mode vs) -> notna m = true.
Proof.
  unfold mode. rewrite in_sort. intros H.
  apply filter_In in H. destruct H as [H _].
  apply in_unique_from in H. apply filter_In in H. tauto.
Qed.

Lemma max_attained {A} (f : A -> nat) (l : list A) :
  l <> [] -> exists x, In x l /\ f x = fold_right Nat.max 0 (map f l).
Proof.
  induction l as [|a l IH]; [congruence|]. intros _.
  destruct l as [|b l].
  - exists a. simpl. split; [now left | lia].
  - destruct IH as (x & Hx & E); [discriminate|].
    destruct (Nat.le_ge_cases (f a) (fold_right Nat.max 0 (map f (b :: l)))) as [Hle | Hge].
    + exists x. split; [now right|].
      change (f x = Nat.max (f a) (fold_right Nat.max 0 (map f (b :: l)))). lia.
    + exists a. split; [now left|].
      change (f a = Nat.max (f a) (fold_right Nat.max 0 (map f (b :: l)))). lia.
Qed.

Lemma mode_nil (vs : list value) : mode vs = [] -> dropna vs = [].
Proof.
  unfold mode. intros H.
  destruct (dropna vs) as [|v l] eqn:E; [reflexivity|]. exfalso.
  destruct (max_attained (fun x => count_of x (v :: l)) (unique (v :: l))) as (x & Hx & Hmax).
  { unfold unique. simpl. discriminate. }
  assert (Hin : In x (sort value_leb
            (List.filter (fun y => count_of y (v :: l) =?
               fold_right Nat.max 0 (map (fun y0 => count_of y0 (v :: l)) (unique (v :: l))))
               (unique (v :: l))))).
  { apply in_sort, filter_In. split; [exact Hx | now apply Nat.eqb_eq]. }
  rewrite H in Hin. destruct Hin.
Qed.

Lemma ffill_from_present (last : value) (vs : list value) :
  notna last = true -> Forall (fun v => notna v = true) (ffill_from last vs).
Proof.
  revert last. induction vs as [|v vs IH]; intros last Hl; simpl; [constructor|].
  destruct (isna v) eqn:E.
  - constructor; [exact Hl | now apply IH].
  - constructor; [unfold notna; now rewrite E | apply IH; unfold notna; now rewrite E].
Qed.

Lemma bfill_present (vs : list value) :
  Forall (fun v => notna v = true) vs -> bfill vs = vs.
Proof.
  induction 1 as [|v vs Hv _ IH]; simpl; [reflexivity|].
  rewrite IH. unfold notna in Hv. apply negb_true_iff in Hv. now rewrite Hv.
Qed.

Lemma bfill_length (vs : list value) : length (bfill vs) = length vs.
Proof. induction vs as [|v vs IH]; simpl; [reflexivity | now rewrite IH]. Qed.

Lemma bfill_ffill_present (vs : list value) :
  dropna vs <> [] -> Forall (fun v => notna v = true) (bfill (ffill vs)).
Proof.
  unfold ffill. induction vs as [|v vs IH]; simpl; [congruence|].
  unfold notna at 1. destruct (isna v) eqn:E; simpl.
  - intros Hne. specialize (IH Hne).
    destruct (bfill (ffill_from VNull vs)) as [|w ws] eqn:B.
    + exfalso. apply (f_equal (@length value)) in B. rewrite bfill_length in B.
      destruct vs; [simpl in Hne; congruence|].
      simpl in B. destruct (isna v0); simpl in B; discriminate.
    + simpl. inversion IH as [|? ? Hw Hws]; subst.
      assert (Ew : isna w = false) by (unfold notna in Hw; now apply negb_true_iff in Hw).
      constructor; [exact Hw | constructor; assumption].
  - intros _. rewrite E.
    assert (Hv : notna v = true) by (unfold notna; now rewrite E).
    assert (Hall : Forall (fun x => notna x = true) (v :: ffill_from v vs)).
    { constructor; [exact Hv | now apply ffill_from_present]. }
    inversion Hall as [|? ? _ Ht]; subst.
    rewrite (bfill_present _ Ht). constructor; assumption.
Qed.

Lemma present_no_absent (vs : list value) :
  Forall (fun v => notna v = true) vs -> isna_sum vs = 0.
Proof.
  intros H. unfold isna_sum. apply mask_sum_map_false.
  rewrite List.Forall_forall in H. intros v Hv. specialize (H v Hv).
  unfold notna in H. now apply negb_true_iff in H.
Qed.

Lemma no_absent_forall (vs : list value) :
  isna_sum vs = 0 <-> Forall (fun v => isna v = false) vs.
Proof.
  unfold isna_sum. rewrite mask_sum_zero, List.Forall_map. reflexivity.
Qed.

Lemma filled_or_blank_intro (c c' : Series) :
  isna_sum (s_values c') = 0 \/ (dropna (s_values c) = [] /\ c' = c) ->
  filled_or_blank c c'.
Proof.
  intros [H | [H1 H2]]; [left; now apply no_absent_forall | right].
  split; [now apply dropna_nil_iff | exact H2].
Qed.

Lemma column_type_eqb_eq (a b : column_type) : column_type_eqb a b = true <-> a = b.
Proof. destruct a, b; simpl; split; congruence. Qed.

Section Stages.

Variable numeric_of_text : string -> option Q.
Variable datetime_of_text : string -> option datetime.
Variable datetime_of_number : Q -> option datetime.
Variable datetime_of_column : list value -> conversion.

Abbreviation detect := (detect_column_type numeric_of_text datetime_of_text datetime_of_number).
Abbreviation fix_date_column' := (fix_date_column datetime_of_column).
Abbreviation converted := (date_converted numeric_of_text datetime_of_text datetime_of_number
    datetime_of_column).
Abbreviation fix_dates_loop' :=
  (fix_dates_loop numeric_of_text datetime_of_text datetime_of_number datetime_of_column).
Abbreviation impute_column' :=
  (impute_column numeric_of_text datetime_of_text datetime_of_number).
Abbreviation missing_loop' :=
  (missing_loop numeric_of_text datetime_of_text datetime_of_number).

(** *** The Date Normalizer *)

(** The [try] block either leaves the column and does not count it, or the
    conversion returned a datetime-like Series with more than 0.7 of the
    rows parsed and every cell is rendered. *)
Lemma fix_date_column_cases (n : nat) (c : Series) :
  fix_date_column' n c = (c, false) \/
  exists parse : value -> option datetime,
    datetime_of_column (s_values c) = Converted true parse /\
    Qltb 0.7 (Qnat (mask_sum (map is_Some_b (map parse (s_values c)))) / Qnat n) = true /\
    fix_date_column' n c
    = (set_values c DObject (map strftime_cell (map parse (s_values c))), true).
Proof.
  unfold fix_date_column.
  destruct (datetime_of_column (s_values c)) as [|datetimelike parse]; [now left|].
  cbv zeta. destruct (Qltb 0.7 _) eqn:E; [|now left].
  destruct datetimelike; [|now left].
  right. exists parse. repeat split. exact E.
Qed.

Lemma fix_dates_loop_spec (n : nat) (cols : list Series) (k : nat) :
  Forall2 (fun c c' => c' = if converted n c then fst (fix_date_column' n c) else c)
          cols (fst (fix_dates_loop' n cols k)) /\
  snd (fix_dates_loop' n cols k) = k + length (List.filter (converted n) cols).
Proof.
  revert k. induction cols as [|c cols IH]; intros k; cbn [fix_dates_loop List.filter].
  - split; [constructor | simpl; lia].
  - assert (Hc : converted n c
                 = column_type_eqb (detect (s_values c)) Date && snd (fix_date_column' n c))
      by reflexivity.
    destruct (column_type_eqb (detect (s_values c)) Date).
    + destruct (fix_date_column_cases n c) as [E | (parse & _ & _ & E)];
        rewrite E in Hc |- *; cbn [andb snd] in Hc; rewrite Hc;
        match goal with |- context [fix_dates_loop' n cols ?k'] =>
          destruct (IH k') as [IH1 IH2]; destruct (fix_dates_loop' n cols k') end;
        cbn [fst snd length] in *;
        (split; [constructor; [rewrite Hc, ?E; reflexivity | exact IH1] | lia]).
    + cbn [andb] in Hc. rewrite Hc.
      destruct (IH k) as [IH1 IH2]. destruct (fix_dates_loop' n cols k).
      cbn [fst snd] in *.
      split; [constructor; [rewrite Hc; reflexivity | exact IH1] | exact IH2].
Qed.

(** A column that [fix_dates] passes through is left as it was, or becomes
    a text column of renderings and absent cells. *)
Lemma fix_dates_loop_columns (n : nat) (cols : list Series) (k : nat) :
  Forall2 (fun c c' =>
             c' = c \/
             exists parse : value -> option datetime,
               c' = set_values c DObject (map strftime_cell (map parse (s_values c))))
          cols (fst (fix_dates_loop' n cols k)).
Proof.
  eapply Forall2_impl; [apply fix_dates_loop_spec|].
  intros c c' ->. destruct (converted n c); [|now left].
  destruct (fix_date_column_cases n c) as [E | (parse & _ & _ & E)]; rewrite E;
    [now left | right; now exists parse].
Qed.

(** C4, as the code has it.  [fix_dates] returns; for every column that the
    classifier calls a date: when the conversion returns a datetime-like
    Series and the share of rows that parsed (absent cells count as rows)
    exceeds 0.7, each cell becomes the [YYYY-MM-DD] text of its date, a cell
    that did not parse becomes absent, and the column is counted; when the
    share does not exceed 0.7, or the conversion raises, or its result has
    no [.dt] accessor, the column is left as it was and is not counted.
    [date_columns_fixed] is the number of counted columns. *)
Theorem fix_dates_all_or_nothing (self : DataCleaningPipeline) (df : DataFrame) :
  cleaned_df self = Some df ->
  exists (self' : DataCleaningPipeline) (df' : DataFrame),
    fix_dates numeric_of_text datetime_of_text datetime_of_number datetime_of_column self
      = Some self' /\
    cleaned_df self' = Some df' /\
    Forall2 (fun c c' =>
               detect (s_values c) = Date ->
               match datetime_of_column (s_values c) with
               | Converted true parse =>
                   let success_rate :=
                     (Qnat (mask_sum (map (fun v => is_Some_b (parse v)) (s_values c)))
                      / Qnat (len df))%Q in
                   ((0.7 < success_rate)%Q ->
                    s_name c' = s_name c /\
                    s_values c' = map (fun v => match parse v with
                                                | Some d => VStr (strftime d)
                                                | None => VNull
                                                end) (s_values c) /\
                    converted (len df) c = true) /\
                   (~ (0.7 < success_rate)%Q -> c' = c /\ converted (len df) c = false)
               | _ => c' = c /\ converted (len df) c = false
               end)
            (columns df) (columns df') /\
    summary self' !! "date_columns_fixed"
      = Some (counter (length (List.filter (converted (len df)) (columns df)))).
Proof.
  intros Hdf. unfold fix_dates. rewrite Hdf. unfold fix_dates_frame.
  destruct (fix_dates_loop_spec (len df) (columns df) 0) as [Hcols Hcount].
  destruct (fix_dates_loop' (len df) (columns df) 0) as [cols total]. simpl in *.
  eexists _, _. split; [reflexivity|]. cbn [cleaned_df summary columns].
  split; [reflexivity|]. split.
  - eapply Forall2_impl; [exact Hcols|]. intros c c' -> Hdate.
    unfold date_converted, fix_date_column. rewrite Hdate. cbn [column_type_eqb andb].
    destruct (datetime_of_column (s_values c)) as [|datetimelike parse];
      [split; reflexivity|].
    cbv zeta. rewrite List.map_map.
    destruct datetimelike.
    + destruct (Qltb 0.7 _) eqn:E; cbn [fst snd].
      * split; [intros _; split; [reflexivity | split; [|reflexivity]]|].
        -- cbn [set_values s_values]. rewrite List.map_map. reflexivity.
        -- intros Hn. exfalso. apply Hn. now apply Qltb_lt.
      * split; [|split; reflexivity]. intros Hlt. apply Qltb_lt in Hlt. congruence.
    + destruct (Qltb 0.7 _); split; reflexivity.
  - rewrite lookup_insert_eq. now subst total.
Qed.

(** *** The Missing Value Imputer *)

Lemma impute_column_fills (c : Series) : filled_or_blank c (fst (impute_column' c)).
Proof.
  apply filled_or_blank_intro. unfold impute_column.
  destruct (is_numeric_dtype (s_dtype c)).
  - destruct (median _) as [m|].
    + left. simpl. now apply fillna_no_absent.
    + destruct (mode (s_values c)) as [|m ms] eqn:Em; simpl.
      * right. split; [now apply mode_nil | reflexivity].
      * left. apply fillna_no_absent, (mode_present (s_values c)).
        rewrite Em. now left.
  - destruct (column_type_eqb (detect (s_values c)) Date) eqn:Ed; simpl.
    + left. apply present_no_absent, bfill_ffill_present.
      apply column_type_eqb_eq in Ed.
      eapply detect_date_present, Ed.
    + destruct (mode (s_values c)) as [|m ms] eqn:Em; simpl.
      * left. now apply fillna_no_absent.
      * left. apply fillna_no_absent, (mode_present (s_values c)).
        rewrite Em. now left.
Qed.

Lemma missing_loop_fills (cols : list Series) (k : nat) :
  Forall2 filled_or_blank cols (fst (missing_loop' cols k)).
Proof.
  revert k. induction cols as [|c cols IH]; intros k; simpl; [constructor|].
  destruct (isna_sum (s_values c) =? 0) eqn:E.
  - specialize (IH k). destruct (missing_loop' cols k). simpl in *.
    constructor; [|exact IH]. apply filled_or_blank_intro. left. now apply Nat.eqb_eq.
  - pose proof (impute_column_fills c) as Hc.
    destruct (impute_column' c) as [c' counted].
    match goal with |- context [missing_loop' cols ?k'] =>
      specialize (IH k'); destruct (missing_loop' cols k') end.
    simpl in *. constructor; assumption.
Qed.

(** C3.  [handle_missing_values] returns; column by column, the column it
    leaves has no absent cell, unless the column had no present cell at all
    and no fill was applied, in which case it is left as it was. *)
Theorem imputer_leaves_no_absent (self : DataCleaningPipeline) (df : DataFrame) :
  cleaned_df self = Some df ->
  exists (self' : DataCleaningPipeline) (df' : DataFrame),
    handle_missing_values numeric_of_text datetime_of_text datetime_of_number self
      = Some self' /\
    cleaned_df self' = Some df' /\
    Forall2 (fun c c' =>
               Forall (fun v => isna v = false) (s_values c') \/
               (Forall (fun v => isna v = true) (s_values c) /\ c' = c))
            (columns df) (columns df').
Proof.
  intros Hdf. unfold handle_missing_values. rewrite Hdf. unfold missing_frame.
  pose proof (missing_loop_fills (columns df) 0) as Hcols.
  destruct (missing_loop' (columns df) 0) as [cols total]. simpl in *.
  eexists _, _. split; [reflexivity|]. cbn [cleaned_df columns].
  split; [reflexivity | exact Hcols].
Qed.

End Stages.

Lemma fix_dates_all_or_nothing_witness :
  exists (self' : DataCleaningPipeline) (df' : DataFrame),
    fix_dates no_number sample_dates no_date_q sample_conversion
      (load_csv frame_dates init) = Some self' /\
    cleaned_df self' = Some df' /\
    summary self' !! "date_columns_fixed" = Some 1%Z.
Proof.
  destruct (fix_dates_all_or_nothing no_number sample_dates no_date_q sample_conversion
              (load_csv frame_dates init) frame_dates eq_refl)
    as (self' & df' & Hrun & Hdf & _ & Hcount).
  exists self', df'. split; [exact Hrun|]. split; [exact Hdf|].
  rewrite Hcount. reflexivity.
Defined.

(** C4 as stated fails.  The column of [frame_offsets] is a date for the
    classifier and both of its rows parse, so the share of parsed rows is 1;
    but the converted Series is of object dtype, [.dt.strftime] raises, the
    exception is swallowed, and the column is left as it was: no cell is
    rendered and [date_columns_fixed] stays 0. *)
Lemma fix_dates_skips_failed_conversion :
  exists (self' : DataCleaningPipeline) (c : Series),
    fix_dates no_number offset_dates no_date_q offset_conversion
      (load_csv frame_offsets init) = Some self' /\
    columns frame_offsets = [c] /\
    detect_column_type no_number offset_dates no_date_q (s_values c) = Date /\
    offset_conversion (s_values c) = Converted false (to_datetime offset_dates no_date_q) /\
    (0.7 < Qnat (datetime_hits offset_dates no_date_q (s_values c))
           / Qnat (len frame_offsets))%Q /\
    cleaned_df self' = Some frame_offsets /\
    s_values c
      <> map (fun v => strftime_cell (to_datetime offset_dates no_date_q v)) (s_values c) /\
    summary self' !! "date_columns_fixed" = Some 0%Z.
Proof.
  eexists _, _. split; [reflexivity|]. split; [reflexivity|].
  split; [vm_compute; reflexivity|]. split; [reflexivity|].
  split; [vm_compute; reflexivity|].
  split; [vm_compute; reflexivity|]. split; [discriminate|].
  vm_compute. reflexivity.
Qed.

Lemma imputer_leaves_no_absent_witness :
  exists (self' : DataCleaningPipeline) (df' : DataFrame),
    handle_missing_values no_number no_date no_date_q (load_csv frame_gaps init)
      = Some self' /\
    cleaned_df self' = Some df' /\
    Forall2 filled_or_blank (columns frame_gaps) (columns df').
Proof.
  exact (imputer_leaves_no_absent no_number no_date no_date_q
           (load_csv frame_gaps init) frame_gaps eq_refl).
Defined.

(** The three policies on [frame_gaps]: median 35, mode ["paris"], and the
    empty numeric column left as it was. *)
Example imputer_on_frame_gaps :
  fst (missing_frame no_number no_date no_date_q frame_gaps)
  = {| nrows := 3;
       columns := [ {| s_name := "age"; s_dtype := DNumber;
                       s_values := [num 30; num 35; num 40] |};
                    text_column "city" [VStr "paris"; VStr "paris"; VStr "paris"];
                    {| s_name := "blank"; s_dtype := DNumber;
                       s_values := [VNull; VNull; VNull] |} ] |}
  /\ snd (missing_frame no_number no_date no_date_q frame_gaps) = 2.
Proof. split; vm_compute; reflexivity. Qed.

(** [when] is rewritten to [YYYY-MM-DD]; [seen], a date column with 2 rows of
    3 parsed, is left as it was. *)
Example fix_dates_on_frame_dates :
  fix_dates_frame no_number sample_dates no_date_q sample_conversion frame_dates
  = ({| nrows := 3;
        columns := [ text_column "when" [VStr "2023-01-05"; VStr "2023-01-06"; VStr "2023-01-07"];
                     text_column "seen" [VStr "2023/01/05"; VStr "2023/01/07"; VNull] ] |}, 1).
Proof. vm_compute. reflexivity. Qed.

(** ** The Outlier Replacer on the column 10, 12, 11, 13, 1000 *)

(** C5 as stated fails: with linear interpolation over the five values the
    third quartile is 13, the interquartile range 2 and the upper bound 16;
    none of them is within one half of 12.5, 1.5 and 14.25. *)
Lemma outlier_example_quartiles_off :
  exists Q1 Q3 lower_bound upper_bound : Q,
    quantile (s_values (numeric_column "x" [10; 12; 11; 13; 1000]%Z)) 0.25 = Some Q1 /\
    quantile (s_values (numeric_column "x" [10; 12; 11; 13; 1000]%Z)) 0.75 = Some Q3 /\
    iqr_bounds (s_values (numeric_column "x" [10; 12; 11; 13; 1000]%Z))
      = Some (lower_bound, upper_bound) /\
    ~ close_to Q3 12.5 /\
    ~ close_to (Q3 - Q1) 1.5 /\
    ~ close_to upper_bound 14.25.
Proof.
  eexists _, _, _, _. split; [vm_compute; reflexivity|].
  split; [vm_compute; reflexivity|]. split; [vm_compute; reflexivity|].
  unfold close_to. repeat split; intros H; vm_compute in H; discriminate H.
Qed.

(** C5, as the code has it: Q1 = 11, Q3 = 13, bounds 8 and 16; the value
    1000 is replaced with the median 12 and [outliers_replaced] is 1. *)
Theorem outlier_example :
  quantile (s_values (numeric_column "x" [10; 12; 11; 13; 1000]%Z)) 0.25 = Some 11%Q /\
  quantile (s_values (numeric_column "x" [10; 12; 11; 13; 1000]%Z)) 0.75 = Some 13%Q /\
  (exists lower_bound upper_bound : Q,
     iqr_bounds (s_values (numeric_column "x" [10; 12; 11; 13; 1000]%Z))
       = Some (lower_bound, upper_bound) /\
     (lower_bound == 8)%Q /\ (upper_bound == 16)%Q) /\
  median (s_values (numeric_column "x" [10; 12; 11; 13; 1000]%Z)) = Some 12%Q /\
  exists self' : DataCleaningPipeline,
    detect_and_replace_outliers (load_csv frame_outlier init) = Some self' /\
    cleaned_df self' = Some frame_outlier_cleaned /\
    summary self' !! "outliers_replaced" = Some 1%Z /\
    last (cleaning_steps self')
      = Some {| step_name := "detect_outliers";
                description := "Detected and replaced 1 outliers using IQR method" |}.
Proof.
  split; [vm_compute; reflexivity|]. split; [vm_compute; reflexivity|].
  split; [eexists _, _; split; [vm_compute; reflexivity|]; split; reflexivity|].
  split; [vm_compute; reflexivity|].
  eexists. split; [reflexivity|]. split; [vm_compute; reflexivity|].
  split; vm_compute; reflexivity.
Qed.

(** ** The String Normalizer *)

Lemma normalize_cell_not_text (v : value) :
  isinstance_str v = false -> normalize_cell v = v.
Proof. unfold normalize_cell. now intros ->. Qed.

Lemma normalize_cell_isna (v : value) : isna (normalize_cell v) = isna v.
Proof. destruct v; reflexivity. Qed.

Lemma series_ne_counts (vs : list value) :
  mask_sum (series_ne vs (map normalize_cell vs))
  = changed_cells vs (map normalize_cell vs) + isna_sum vs.
Proof.
  unfold isna_sum. induction vs as [|v vs IH]; simpl; [reflexivity|].
  rewrite IH. unfold cell_ne. rewrite normalize_cell_isna.
  destruct v as [|q|s]; simpl.
  - lia.
  - destruct (Qeq_bool q q); simpl; lia.
  - destruct (String.eqb s (Str.lower (Str.strip s))); simpl; lia.
Qed.

(** The running total of [trim_and_normalize_strings] is the number of
    cells that changed plus the number of absent cells of the object
    columns: [NaN != NaN] counts every absent cell as a change. *)
Lemma trim_loop_count (cols : list Series) (k : nat) :
  snd (trim_loop cols k)
  = k + list_sum (map changed_in_text cols) + list_sum (map absent_in_text cols).
Proof.
  revert k. induction cols as [|c cols IH]; intros k; simpl; [lia|].
  unfold changed_in_text at 1, absent_in_text at 1.
  destruct (s_dtype c).
  - rewrite series_ne_counts.
    set (ch := changed_cells (s_values c) (map normalize_cell (s_values c))
               + isna_sum (s_values c)).
    assert (Hk : (if 0 <? ch then k + ch else k) = k + ch).
    { destruct (0 <? ch) eqn:E; [reflexivity | apply Nat.ltb_ge in E; lia]. }
    rewrite Hk. specialize (IH (k + ch)). destruct (trim_loop cols (k + ch)).
    simpl in *. subst ch. lia.
  - specialize (IH k). destruct (trim_loop cols k). simpl in *. lia.
Qed.

Lemma trim_loop_cells (cols : list Series) (k : nat) :
  Forall2 (fun c c' =>
             s_name c' = s_name c /\ s_dtype c' = s_dtype c /\
             s_values c' = match s_dtype c with
                           | DObject => map normalize_cell (s_values c)
                           | DNumber => s_values c
                           end)
          cols (fst (trim_loop cols k)).
Proof.
  revert k. induction cols as [|c cols IH]; intros k; simpl; [constructor|].
  destruct (s_dtype c) eqn:E.
  - match goal with |- context [trim_loop cols ?k'] =>
      specialize (IH k'); destruct (trim_loop cols k') end.
    simpl in *. constructor; [rewrite E; auto | exact IH].
  - specialize (IH k). destruct (trim_loop cols k). simpl in *.
    constructor; [rewrite E; auto | exact IH].
Qed.

(** C8 fails on the code.  On [frame_gap] no cell changes (the frame left is
    the frame given, and no cell of it differs in content), yet the step
    description reports one normalized value: the absent name. *)
Theorem trim_count_includes_absent_cells :
  exists self' : DataCleaningPipeline,
    trim_and_normalize_strings (load_csv frame_gap init) = Some self' /\
    cleaned_df self' = Some frame_gap /\
    list_sum (map changed_in_text (columns frame_gap)) = 0 /\
    last (cleaning_steps self')
      = Some {| step_name := "trim_and_normalize";
                description := "Trimmed and normalized 1 string values" |}.
Proof.
  eexists. split; [reflexivity|]. repeat split; vm_compute; reflexivity.
Qed.

(** ** The Duplicate Eliminator *)

(** Rows A, B, A, C, B: the first occurrences A, B, C are kept and
    [duplicates_removed] is 2. *)
Example remove_duplicates_keeps_first :
  exists self' : DataCleaningPipeline,
    remove_duplicates
      (load_csv {| nrows := 5;
                   columns := [ text_column "k" [VStr "A"; VStr "B"; VStr "A"; VStr "C"; VStr "B"] ] |}
                init) = Some self' /\
    cleaned_df self'
      = Some {| nrows := 3; columns := [ text_column "k" [VStr "A"; VStr "B"; VStr "C"] ] |} /\
    summary self' !! "duplicates_removed" = Some 2%Z.
Proof.
  eexists. split; [reflexivity|]. split; vm_compute; reflexivity.
Qed.

(** ** The frame stays rectangular *)

Lemma rectangular_step (n : nat) (cols cols' : list Series) :
  Forall2 same_height cols cols' ->
  rectangular {| nrows := n; columns := cols |} ->
  rectangular {| nrows := n; columns := cols' |}.
Proof.
  unfold rectangular. simpl. intros H. induction H as [|c c' cols cols' Hc _ IH].
  - constructor.
  - intros Hr. inversion Hr as [|? ? Hlen Hrest]; subst.
    constructor; [unfold same_height in Hc; congruence | now apply IH].
Qed.

Lemma fillna_length (x : value) (vs : list value) : length (fillna x vs) = length vs.
Proof. apply length_map. Qed.

Lemma ffill_from_length (last : value) (vs : list value) :
  length (ffill_from last vs) = length vs.
Proof.
  revert last. induction vs as [|v vs IH]; intros last; simpl; [reflexivity|].
  destruct (isna v); simpl; now rewrite IH.
Qed.

Lemma assign_where_length (mask : list bool) (x : value) (vs : list value) :
  length (assign_where mask x vs) = length vs.
Proof.
  revert vs. induction mask as [|b mask IH]; intros [|v vs]; simpl; try reflexivity.
  now rewrite IH.
Qed.

Lemma select_length {A} (mask : list bool) (l : list A) :
  length mask = length l -> length (select mask l) = mask_sum mask.
Proof.
  revert l. induction mask as [|b mask IH]; intros [|x l]; simpl; try discriminate.
  - reflexivity.
  - intros H. injection H as H. destruct b; simpl; now rewrite IH.
Qed.

Lemma trim_loop_height (cols : list Series) (k : nat) :
  Forall2 same_height cols (fst (trim_loop cols k)).
Proof.
  eapply Forall2_impl; [apply trim_loop_cells|].
  intros c c' (_ & _ & Hv). unfold same_height. rewrite Hv.
  destruct (s_dtype c); [apply length_map | reflexivity].
Qed.

Lemma outlier_loop_height (cols : list Series) (k : nat) :
  Forall2 same_height cols (fst (outlier_loop cols k)).
Proof.
  revert k. induction cols as [|c cols IH]; intros k; simpl; [constructor|].
  destruct (s_dtype c); [|destruct (0 <? _)];
    match goal with |- context [outlier_loop cols ?k'] =>
      specialize (IH k'); destruct (outlier_loop cols k') end;
    simpl in *; (constructor; [|exact IH]); unfold same_height; simpl;
    try reflexivity. apply assign_where_length.
Qed.

Lemma drop_duplicates_rectangular (df : DataFrame) :
  rectangular df -> rectangular (drop_duplicates df).
Proof.
  unfold drop_duplicates. destruct (frame_empty df); [tauto|].
  unfold rectangular. simpl. intros H. apply List.Forall_map.
  eapply List.Forall_impl; [|exact H]. intros c Hc. cbv beta in *. simpl.
  apply select_length. rewrite length_map. unfold duplicated, rows.
  rewrite duplicated_from_length, length_map, length_seq. now rewrite Hc.
Qed.

Section Rectangular.

Variable numeric_of_text : string -> option Q.
Variable datetime_of_text : string -> option datetime.
Variable datetime_of_number : Q -> option datetime.
Variable datetime_of_column : list value -> conversion.

Lemma fix_dates_loop_height (n : nat) (cols : list Series) (k : nat) :
  Forall2 same_height cols
    (fst (fix_dates_loop numeric_of_text datetime_of_text datetime_of_number
            datetime_of_column n cols k)).
Proof.
  eapply Forall2_impl; [apply fix_dates_loop_columns|].
  intros c c' [-> | (parse & ->)]; unfold same_height; [reflexivity|].
  cbn [set_values s_values]. now rewrite !length_map.
Qed.

Lemma impute_column_height (c : Series) :
  same_height c (fst (impute_column numeric_of_text datetime_of_text datetime_of_number c)).
Proof.
  unfold impute_column, same_height.
  destruct (is_numeric_dtype (s_dtype c)).
  - destruct (median _); [simpl; now rewrite fillna_length, length_map|].
    destruct (mode (s_values c)); simpl; [reflexivity | apply fillna_length].
  - destruct (column_type_eqb _ _); simpl.
    + unfold ffill. now rewrite bfill_length, ffill_from_length.
    + destruct (mode (s_values c)); simpl; apply fillna_length.
Qed.

Lemma missing_loop_height (cols : list Series) (k : nat) :
  Forall2 same_height cols
    (fst (missing_loop numeric_of_text datetime_of_text datetime_of_number cols k)).
Proof.
  revert k. induction cols as [|c cols IH]; intros k; simpl; [constructor|].
  destruct (isna_sum (s_values c) =? 0).
  - specialize (IH k). destruct (missing_loop _ _ _ cols k). simpl in *.
    constructor; [reflexivity | exact IH].
  - pose proof (impute_column_height c) as Hc.
    destruct (impute_column _ _ _ c) as [c' counted].
    match goal with |- context [missing_loop _ _ _ cols ?k'] =>
      specialize (IH k'); destruct (missing_loop _ _ _ cols k') end.
    simpl in *. constructor; assumption.
Qed.

(** Every stage keeps one cell per row in every column, and so does the
    whole pipeline. *)
Lemma clean_frame_rectangular (df : DataFrame) :
  rectangular df ->
  rectangular (clean_frame numeric_of_text datetime_of_text datetime_of_number
      datetime_of_column df).
Proof.
  intros H0.
  assert (H1 : rectangular (fst (trim_frame df))).
  { unfold trim_frame. pose proof (trim_loop_height (columns df) 0) as Hh.
    destruct (trim_loop (columns df) 0). simpl in *.
    eapply rectangular_step; [exact Hh|]. now destruct df. }
  assert (H2 : rectangular (after_dates numeric_of_text datetime_of_text datetime_of_number
      datetime_of_column df)).
  { unfold after_dates, fix_dates_frame.
    pose proof (fix_dates_loop_height (len (fst (trim_frame df)))
                  (columns (fst (trim_frame df))) 0) as Hh.
    destruct (fix_dates_loop _ _ _ _ _ _ 0). simpl in *.
    eapply rectangular_step; [exact Hh|]. now destruct (fst (trim_frame df)). }
  assert (H3 : rectangular (after_missing numeric_of_text datetime_of_text datetime_of_number
      datetime_of_column df)).
  { unfold after_missing, missing_frame.
    pose proof (missing_loop_height
                  (columns (after_dates numeric_of_text datetime_of_text datetime_of_number
                      datetime_of_column df))
                  0) as Hh.
    destruct (missing_loop _ _ _ _ 0). simpl in *.
    eapply rectangular_step; [exact Hh|].
    now destruct (after_dates numeric_of_text datetime_of_text datetime_of_number
        datetime_of_column df). }
  apply drop_duplicates_rectangular in H3.
  unfold clean_frame, after_duplicates, outlier_frame.
  pose proof (outlier_loop_height
                (columns (drop_duplicates
                   (after_missing numeric_of_text datetime_of_text datetime_of_number
                       datetime_of_column df)))
                0) as Hh.
  destruct (outlier_loop _ 0). simpl in *.
  eapply rectangular_step; [exact Hh|].
  now destruct (drop_duplicates _).
Qed.

End Rectangular.

(** ** The emitted script against the live pipeline *)

Lemma script_clean_string_eq (v : value) : Script.clean_string v = clean_string v.
Proof. destruct v; reflexivity. Qed.

Lemma mapM_id {A} (f : A -> option A) (l : list A) :
  Forall (fun x => f x = Some x) l -> mapM f l = Some l.
Proof.
  induction 1 as [|x l Hx _ IH]; [reflexivity|].
  cbn [mapM]. rewrite Hx. cbn [mbind option_bind]. rewrite IH. reflexivity.
Qed.

Section ScriptRefinement.

Variable numeric_of_text : string -> option Q.
Variable datetime_of_text : string -> option datetime.
Variable datetime_of_number : Q -> option datetime.
Variable datetime_of_column : list value -> conversion.

Abbreviation detect := (detect_column_type numeric_of_text datetime_of_text datetime_of_number).
Abbreviation script_detect :=
  (Script.detect_column_type numeric_of_text datetime_of_text datetime_of_number).
Abbreviation step2 := (Script.step2_column numeric_of_text datetime_of_text datetime_of_number
    datetime_of_column).
Abbreviation step3 := (Script.step3_column numeric_of_text datetime_of_text datetime_of_number).
Abbreviation script_clean_data :=
  (Script.clean_data numeric_of_text datetime_of_text datetime_of_number datetime_of_column).
Abbreviation clean_frame' := (clean_frame numeric_of_text datetime_of_text datetime_of_number
    datetime_of_column).
Abbreviation after_dates' := (after_dates numeric_of_text datetime_of_text datetime_of_number
    datetime_of_column).
Abbreviation after_missing' := (after_missing numeric_of_text datetime_of_text datetime_of_number
    datetime_of_column).

Lemma script_detect_eq (series : list value) : script_detect series = detect series.
Proof. reflexivity. Qed.

(** Steps 1, 2 and 5 of the script are the pipeline's. *)
Lemma script_step1 (cols : list Series) (k : nat) :
  map Script.step1_column cols = fst (trim_loop cols k).
Proof.
  revert k. induction cols as [|c cols IH]; intros k; simpl; [reflexivity|].
  unfold Script.step1_column at 1. destruct (s_dtype c).
  - match goal with |- context [trim_loop cols ?k'] =>
      specialize (IH k'); destruct (trim_loop cols k') end.
    simpl in *. rewrite IH. f_equal. f_equal.
    apply map_ext. intros v. unfold normalize_cell.
    now rewrite script_clean_string_eq.
  - specialize (IH k). destruct (trim_loop cols k). simpl in *. now rewrite IH.
Qed.

Lemma script_step2 (n : nat) (cols : list Series) (k : nat) :
  map (step2 n) cols
  = fst (fix_dates_loop numeric_of_text datetime_of_text datetime_of_number
           datetime_of_column n cols k).
Proof.
  revert k. induction cols as [|c cols IH]; intros k; cbn [map fix_dates_loop];
    [reflexivity|].
  unfold Script.step2_column at 1. rewrite script_detect_eq.
  destruct (column_type_eqb (detect (s_values c)) Date).
  - unfold fix_date_column.
    destruct (datetime_of_column (s_values c)) as [|datetimelike parse]; cbv zeta;
      [|destruct (Qltb 0.7 _); [destruct datetimelike|]];
      match goal with |- context [fix_dates_loop _ _ _ _ n cols ?k'] =>
        specialize (IH k');
        destruct (fix_dates_loop numeric_of_text datetime_of_text datetime_of_number
                    datetime_of_column n cols k')
      end;
      cbn [fst] in *; rewrite IH; reflexivity.
  - specialize (IH k).
    destruct (fix_dates_loop numeric_of_text datetime_of_text datetime_of_number
                datetime_of_column n cols k).
    cbn [fst] in *. rewrite IH. reflexivity.
Qed.

Lemma script_step5 (cols : list Series) (k : nat) :
  map Script.step5_column cols = fst (outlier_loop cols k).
Proof.
  revert k. induction cols as [|c cols IH]; intros k; simpl; [reflexivity|].
  unfold Script.step5_column at 1.
  destruct (s_dtype c); [|destruct (0 <? _)];
    match goal with |- context [outlier_loop cols ?k'] =>
      specialize (IH k'); destruct (outlier_loop cols k') end;
    simpl in *; rewrite IH; reflexivity.
Qed.

Lemma missing_loop_no_gaps (cols : list Series) (k : nat) :
  Forall (fun c => isna_sum (s_values c) = 0) cols ->
  fst (missing_loop numeric_of_text datetime_of_text datetime_of_number cols k) = cols.
Proof.
  intros H. revert k. induction H as [|c cols Hc _ IH]; intros k; simpl; [reflexivity|].
  rewrite Hc. simpl. specialize (IH k).
  destruct (missing_loop _ _ _ cols k). simpl in *. now rewrite IH.
Qed.

(** X19.  Where date fixing leaves no absent cell, step 3 has nothing to do on
    either side and the script writes the frame the pipeline returns. *)
Lemma script_agrees_without_gaps (df : DataFrame) :
  Forall (fun c => isna_sum (s_values c) = 0) (columns (after_dates' df)) ->
  script_clean_data df = Some (clean_frame' df).
Proof.
  intros Hgaps.
  assert (Hdates : {| nrows := nrows df;
                      columns := map (step2 (nrows df)) (map Script.step1_column (columns df)) |}
                   = after_dates' df).
  { unfold after_dates, fix_dates_frame, trim_frame.
    rewrite (script_step1 (columns df) 0).
    destruct (trim_loop (columns df) 0) as [cols1 c1]. cbn [fst len nrows columns].
    rewrite (script_step2 (nrows df) cols1 0).
    destruct (fix_dates_loop _ _ _ _ (nrows df) cols1 0). reflexivity. }
  unfold Script.clean_data. cbn [nrows columns len]. 
  assert (H3 : mapM step3 (columns (after_dates' df)) = Some (columns (after_dates' df))).
  { apply mapM_id. eapply List.Forall_impl; [|exact Hgaps]. intros c Hc. cbv beta in Hc.
    unfold Script.step3_column. rewrite Hc. reflexivity. }
  rewrite <- Hdates in H3 at 1. cbn [columns] in H3. rewrite H3.
  cbn [mbind option_bind]. f_equal.
  unfold clean_frame, after_duplicates, after_missing, missing_frame.
  pose proof (missing_loop_no_gaps (columns (after_dates' df)) 0 Hgaps) as Hm.
  destruct (missing_loop _ _ _ (columns (after_dates' df)) 0) as [cols3 c3].
  cbn [fst] in *. subst cols3.
  assert (Hsame : {| nrows := nrows df; columns := columns (after_dates' df) |}
                  = {| nrows := nrows (after_dates' df); columns := columns (after_dates' df) |}).
  { rewrite <- Hdates. reflexivity. }
  rewrite <- Hsame. unfold outlier_frame.
  rewrite (script_step5 _ 0).
  destruct (outlier_loop _ 0). reflexivity.
Qed.

(** *** The two sides on [frame_names] *)

Hypothesis alice_no_number : numeric_of_text "alice" = None.
Hypothesis bob_no_number : numeric_of_text "bob" = None.
Hypothesis alice_no_date : datetime_of_text "alice" = None.
Hypothesis bob_no_date : datetime_of_text "bob" = None.

Lemma detect_names : detect [VStr "alice"; VStr "bob"; VNull] = String_.
Proof.
  rewrite detect_unfold. unfold numeric_test, date_test, numeric_hits, datetime_hits.
  cbn [map to_numeric to_datetime].
  rewrite alice_no_number, bob_no_number, alice_no_date, bob_no_date. reflexivity.
Qed.

Lemma detect_ids : detect [num 1; num 2; num 3] = Numeric.
Proof. reflexivity. Qed.

Lemma after_dates_names : after_dates' frame_names = frame_names.
Proof.
  unfold after_dates.
  change (trim_frame frame_names) with (frame_names, 1).
  unfold fix_dates_frame, frame_names.
  cbn [fst len nrows columns fix_dates_loop s_values numeric_column text_column map].
  rewrite detect_names, detect_ids. reflexivity.
Qed.

Lemma pipeline_on_names : clean_frame' frame_names = frame_names_filled.
Proof.
  unfold clean_frame, after_duplicates, after_missing. rewrite after_dates_names.
  unfold missing_frame, frame_names.
  cbn [fst len nrows columns missing_loop s_values numeric_column text_column map].
  change (isna_sum [num 1; num 2; num 3] =? 0) with true. cbv iota.
  change (isna_sum [VStr "alice"; VStr "bob"; VNull] =? 0) with false. cbv iota.
  unfold impute_column. cbn [s_dtype s_values is_numeric_dtype text_column].
  rewrite detect_names. reflexivity.
Qed.

Lemma script_on_names : script_clean_data frame_names = Some frame_names.
Proof.
  assert (H2 : map (step2 3) (columns frame_names) = columns frame_names).
  { unfold frame_names, Script.step2_column.
    cbn [columns s_values numeric_column text_column map].
    change script_detect with detect.
    rewrite detect_names, detect_ids. reflexivity. }
  assert (H3 : mapM step3 (columns frame_names) = Some (columns frame_names)).
  { unfold frame_names, Script.step3_column.
    cbn [columns mapM s_values numeric_column text_column map].
    change (0 <? isna_sum [num 1; num 2; num 3]) with false. cbv iota.
    change (0 <? isna_sum [VStr "alice"; VStr "bob"; VNull]) with true. cbv iota.
    change script_detect with detect. rewrite detect_names. reflexivity. }
  unfold Script.clean_data. cbv zeta. cbn [nrows columns len].
  change (map Script.step1_column (columns frame_names)) with (columns frame_names).
  change (nrows frame_names) with 3.
  rewrite H2, H3. reflexivity.
Qed.

(** C1 fails on the code.  On [frame_names], whose names are neither numbers
    nor dates, the pipeline fills the absent name with the mode ["alice"],
    while the script, which fills only columns it classifies [numeric] or
    [categorical], writes the column with its absent cell. *)
Theorem script_skips_string_columns :
  exists (self' : DataCleaningPipeline) (live scripted : DataFrame),
    run_pipeline numeric_of_text datetime_of_text datetime_of_number datetime_of_column
      frame_names = Some self' /\
    cleaned_df self' = Some live /\
    script_clean_data frame_names = Some scripted /\
    live = frame_names_filled /\
    scripted = frame_names /\
    live <> scripted.
Proof.
  destruct (run_pipeline_result numeric_of_text datetime_of_text datetime_of_number
              datetime_of_column frame_names) as (p & Hrun & _ & Hclean & _).
  exists p, (clean_frame' frame_names), frame_names.
  split; [exact Hrun|]. split; [exact Hclean|]. split; [exact script_on_names|].
  split; [exact pipeline_on_names|]. split; [reflexivity|].
  rewrite pipeline_on_names. discriminate.
Qed.

End ScriptRefinement.

Lemma script_skips_string_columns_witness :
  exists (self' : DataCleaningPipeline) (live scripted : DataFrame),
    run_pipeline no_number no_date no_date_q no_conversion frame_names = Some self' /\
    cleaned_df self' = Some live /\
    Script.clean_data no_number no_date no_date_q no_conversion frame_names = Some scripted /\
    live = frame_names_filled /\
    scripted = frame_names /\
    live <> scripted.
Proof.
  exact (script_skips_string_columns no_number no_date no_date_q no_conversion
           eq_refl eq_refl eq_refl eq_refl).
Defined.

(** ** utils.py: the text helpers *)

Ltac by_all_ascii c :=
  destruct c as [[|] [|] [|] [|] [|] [|] [|] [|]]; vm_compute;
  try reflexivity; try discriminate; auto.

Lemma is_space_lower_char (c : ascii) : Str.is_space (Str.lower_char c) = Str.is_space c.
Proof. by_all_ascii c. Qed.

Lemma lower_char_idem (c : ascii) : Str.lower_char (Str.lower_char c) = Str.lower_char c.
Proof. by_all_ascii c. Qed.

Lemma lower_idem (s : string) : Str.lower (Str.lower s) = Str.lower s.
Proof.
  induction s as [|c s IH]; simpl; [reflexivity|]. now rewrite lower_char_idem, IH.
Qed.

Lemma lower_lstrip (s : string) : Str.lower (Str.lstrip s) = Str.lstrip (Str.lower s).
Proof.
  induction s as [|c s IH]; simpl; [reflexivity|].
  rewrite is_space_lower_char. destruct (Str.is_space c); [exact IH | reflexivity].
Qed.

Lemma lower_rstrip (s : string) : Str.lower (Str.rstrip s) = Str.rstrip (Str.lower s).
Proof.
  induction s as [|c s IH]; simpl; [reflexivity|].
  rewrite <- IH, is_space_lower_char.
  destruct (Str.rstrip s); simpl; [destruct (Str.is_space c)|]; reflexivity.
Qed.

Lemma lower_strip (s : string) : Str.lower (Str.strip s) = Str.strip (Str.lower s).
Proof. unfold Str.strip. now rewrite lower_rstrip, lower_lstrip. Qed.

Lemma lstrip_starts_clean (s : string) : starts_clean (Str.lstrip s).
Proof.
  induction s as [|c s IH]; simpl; [exact I|].
  destruct (Str.is_space c) eqn:E; [exact IH | exact E].
Qed.

Lemma lstrip_fixed (s : string) : starts_clean s -> Str.lstrip s = s.
Proof. destruct s as [|c s]; simpl; [reflexivity | now intros ->]. Qed.

Lemma rstrip_starts_clean (s : string) : starts_clean s -> starts_clean (Str.rstrip s).
Proof.
  destruct s as [|c s]; simpl; [auto|]. intros E. rewrite E.
  destruct (Str.rstrip s); exact E.
Qed.

Lemma rstrip_idem (s : string) : Str.rstrip (Str.rstrip s) = Str.rstrip s.
Proof.
  induction s as [|c s IH]; simpl; [reflexivity|].
  destruct (Str.rstrip s) as [|d t] eqn:E.
  - destruct (Str.is_space c) eqn:F; simpl; [reflexivity | now rewrite F].
  - change (Str.rstrip (String c (String d t)) = String c (String d t)).
    cbn [Str.rstrip]. cbn [Str.rstrip] in IH. rewrite IH. reflexivity.
Qed.

Lemma strip_idem (s : string) : Str.strip (Str.strip s) = Str.strip s.
Proof.
  unfold Str.strip.
  rewrite (lstrip_fixed (Str.rstrip (Str.lstrip s)))
    by apply rstrip_starts_clean, lstrip_starts_clean.
  apply rstrip_idem.
Qed.

(** X1.  [clean_string] brings every text to a normal form: the result has
    no whitespace at either end, has no upper-case letter left to fold, and
    is returned unchanged by a second call. *)
Theorem clean_string_normal (s : string) :
  exists t : string,
    clean_string (VStr s) = VStr t /\
    Str.strip t = t /\
    Str.lower t = t /\
    clean_string (VStr t) = VStr t.
Proof.
  exists (Str.lower (Str.strip s)).
  assert (H : Str.strip (Str.lower (Str.strip s)) = Str.lower (Str.strip s))
    by now rewrite <- lower_strip, strip_idem.
  split; [reflexivity|]. split; [exact H|]. split; [apply lower_idem|].
  cbn [clean_string]. now rewrite H, lower_idem.
Qed.

(** *** normalize_special_characters *)

Lemma all_chars_lstrip f s : all_chars f s = true -> all_chars f (Str.lstrip s) = true.
Proof.
  induction s as [|c s IH]; simpl; [auto|]. intros H. apply andb_true_iff in H as [H1 H2].
  destruct (Str.is_space c); [auto | simpl; now rewrite H1, H2].
Qed.

Lemma all_chars_rstrip f s : all_chars f s = true -> all_chars f (Str.rstrip s) = true.
Proof.
  induction s as [|c s IH]; simpl; [auto|]. intros H. apply andb_true_iff in H as [H1 H2].
  specialize (IH H2). destruct (Str.rstrip s) as [|d t].
  - destruct (Str.is_space c); simpl; [reflexivity | now rewrite H1].
  - change (f c && all_chars f (String d t) = true). now rewrite H1, IH.
Qed.

Lemma single_spaced_cons c d t :
  single_spaced (String c (String d t))
  = negb (Str.is_space c && Str.is_space d) && single_spaced (String d t).
Proof. reflexivity. Qed.

Lemma single_spaced_tail c s : single_spaced (String c s) = true -> single_spaced s = true.
Proof.
  destruct s as [|d t]; [reflexivity|]. rewrite single_spaced_cons.
  intros H. apply andb_true_iff in H. tauto.
Qed.

Lemma single_spaced_lstrip s : single_spaced s = true -> single_spaced (Str.lstrip s) = true.
Proof.
  induction s as [|c s IH]; [auto|]. intros H. cbn [Str.lstrip].
  destruct (Str.is_space c); [apply IH; eapply single_spaced_tail, H | exact H].
Qed.

Lemma rstrip_head (c : ascii) (s : string) (d : ascii) (t : string) :
  Str.rstrip s = String d t -> exists t', s = String d t'.
Proof.
  destruct s as [|e s]; simpl; [discriminate|].
  destruct (Str.rstrip s); [destruct (Str.is_space e)|]; intros H; try discriminate;
    injection H as -> _; eauto.
Qed.

Lemma single_spaced_rstrip s : single_spaced s = true -> single_spaced (Str.rstrip s) = true.
Proof.
  induction s as [|c s IH]; [auto|]. intros H.
  pose proof (IH (single_spaced_tail _ _ H)) as IH'. cbn [Str.rstrip].
  destruct (Str.rstrip s) as [|d t] eqn:E.
  - destruct (Str.is_space c); reflexivity.
  - destruct (rstrip_head c s d t E) as [t' ->].
    rewrite single_spaced_cons in H |- *. apply andb_true_iff in H as [H1 _].
    now rewrite H1, IH'.
Qed.

Lemma remove_special_kept s : all_chars kept_char (remove_special s) = true.
Proof.
  induction s as [|c s IH]; simpl; [reflexivity|].
  destruct (kept_char c) eqn:E; [simpl; now rewrite E | exact IH].
Qed.

Lemma kept_plain (c : ascii) :
  kept_char c = true -> Str.is_space c = false -> plain_char c = true.
Proof.
  unfold kept_char, plain_char. intros H E. rewrite E in H.
  destruct (is_lower_ascii c), (is_digit_ascii c), (Ascii.eqb c "-"),
    (Ascii.eqb c "."), (Ascii.eqb c "_"); simpl in *; try reflexivity; discriminate.
Qed.

Lemma plain_kept (c : ascii) : plain_char c = true -> kept_char c = true.
Proof. by_all_ascii c. Qed.

Lemma plain_space (c : ascii) :
  plain_char c = true -> Str.is_space c = true -> c = " "%char.
Proof. by_all_ascii c. Qed.

Lemma collapse_spaces_plain s :
  all_chars kept_char s = true -> all_chars plain_char (collapse_spaces s) = true.
Proof.
  induction s as [|c s IH]; [auto|]. intros H. cbn [all_chars] in H.
  apply andb_true_iff in H as [H1 H2]. specialize (IH H2). cbn [collapse_spaces].
  destruct (Str.is_space c) eqn:E.
  - destruct s as [|d t]; [reflexivity|].
    destruct (Str.is_space d); [exact IH|].
    change (plain_char " " && all_chars plain_char (collapse_spaces (String d t)) = true).
    now rewrite IH.
  - cbn [all_chars]. now rewrite (kept_plain c H1 E), IH.
Qed.

Lemma collapse_spaces_head (s : string) :
  match s with
  | EmptyString => collapse_spaces s = EmptyString
  | String c _ =>
      exists t, collapse_spaces s = String (if Str.is_space c then " "%char else c) t
  end.
Proof.
  induction s as [|c s IH]; [reflexivity|]. cbn [collapse_spaces].
  destruct (Str.is_space c) eqn:E; [|eauto].
  destruct s as [|d t]; [eauto|].
  cbv beta iota in IH. destruct (Str.is_space d) eqn:F; [exact IH | eauto].
Qed.

Lemma collapse_spaces_single s : single_spaced (collapse_spaces s) = true.
Proof.
  induction s as [|c s IH]; [reflexivity|]. cbn [collapse_spaces].
  destruct (Str.is_space c) eqn:E.
  - destruct s as [|d t]; [reflexivity|].
    destruct (Str.is_space d) eqn:F; [exact IH|].
    pose proof (collapse_spaces_head (String d t)) as [u Hu]. rewrite F in Hu.
    rewrite Hu in IH |- *. rewrite single_spaced_cons, F, IH.
    now rewrite andb_false_r.
  - pose proof (collapse_spaces_head s) as Hs. destruct s as [|d t].
    + reflexivity.
    + destruct Hs as [u Hu]. rewrite Hu in IH |- *. rewrite single_spaced_cons.
      rewrite E, IH. reflexivity.
Qed.

Lemma remove_special_fixed s : all_chars plain_char s = true -> remove_special s = s.
Proof.
  induction s as [|c s IH]; simpl; [auto|]. intros H. apply andb_true_iff in H as [H1 H2].
  now rewrite (plain_kept c H1), IH.
Qed.

Lemma collapse_spaces_fixed s :
  all_chars plain_char s = true -> single_spaced s = true -> collapse_spaces s = s.
Proof.
  induction s as [|c s IH]; [auto|]. intros H S. cbn [all_chars] in H.
  apply andb_true_iff in H as [H1 H2].
  specialize (IH H2 (single_spaced_tail _ _ S)). cbn [collapse_spaces].
  destruct (Str.is_space c) eqn:E.
  - rewrite (plain_space c H1 E) in *. destruct s as [|d t]; [reflexivity|].
    rewrite single_spaced_cons in S. apply andb_true_iff in S as [S1 _].
    change (Str.is_space " ") with true in S1. simpl in S1.
    apply negb_true_iff in S1. rewrite S1. now rewrite IH.
  - now rewrite IH.
Qed.

(** X2.  [normalize_special_characters] brings every text to a normal form:
    the result is written with a-z, 0-9, [-], [.], [_] and the space only,
    no two whitespace characters follow each other, there is no whitespace
    at either end, and a second call returns it unchanged. *)
Theorem normalize_special_characters_normal (s : string) :
  exists t : string,
    normalize_special_characters (VStr s) = VStr t /\
    all_chars plain_char t = true /\
    single_spaced t = true /\
    Str.strip t = t /\
    normalize_special_characters (VStr t) = VStr t.
Proof.
  set (t := Str.strip (collapse_spaces (remove_special s))).
  assert (Hp : all_chars plain_char t = true).
  { apply all_chars_rstrip, all_chars_lstrip, collapse_spaces_plain, remove_special_kept. }
  assert (Hs : single_spaced t = true).
  { apply single_spaced_rstrip, single_spaced_lstrip, collapse_spaces_single. }
  assert (Ht : Str.strip t = t) by apply strip_idem.
  exists t. repeat split; try assumption.
  simpl. now rewrite (remove_special_fixed t Hp), (collapse_spaces_fixed t Hp Hs), Ht.
Qed.


(** *** safe_numeric_conversion *)

Section SafeNumeric.

Variable int_of_text : string -> option Q.
Variable float_of_text : string -> option Q.

Abbreviation convert := (safe_numeric_conversion int_of_text float_of_text).

(** X3.  [safe_numeric_conversion] never returns a text: the result is a
    number or the absent value; converting the result again returns it; and
    whitespace around a text does not change the result. *)
Theorem safe_numeric_conversion_result (v : value) (s : string) :
  isinstance_str (convert v) = false /\
  convert (convert v) = convert v /\
  convert (VStr (Str.strip s)) = convert (VStr s).
Proof.
  split; [|split].
  - destruct v as [| |t]; try reflexivity. cbn [safe_numeric_conversion]. cbv zeta.
    destruct (contains_dot _); [destruct (float_of_text _) | destruct (int_of_text _)];
      reflexivity.
  - destruct v as [| |t]; try reflexivity. cbn [safe_numeric_conversion]. cbv zeta.
    destruct (contains_dot _); [destruct (float_of_text _) | destruct (int_of_text _)];
      reflexivity.
  - cbn [safe_numeric_conversion]. cbv zeta. now rewrite strip_idem.
Qed.

End SafeNumeric.



(** ** ai_report.py: format_ai_report_html *)

Lemma prefix_cons (a b : ascii) (u s : string) :
  String.prefix (String a u) (String b s) = Ascii.eqb a b && String.prefix u s.
Proof.
  simpl. destruct (ascii_dec a b) as [->|Hne].
  - now rewrite Ascii.eqb_refl.
  - apply Ascii.eqb_neq in Hne. now rewrite Hne.
Qed.

Lemma drop_length (n : nat) (s : string) :
  String.length (PyStr.drop n s) = String.length s - n.
Proof.
  revert s. induction n as [|n IH]; intros [|c s]; simpl; auto.
Qed.

(** The fuel [length s] is enough: more fuel gives the same text. *)
Lemma replace_fuel_enough (old new : string) (f1 f2 : nat) (s : string) :
  old <> EmptyString ->
  String.length s <= f1 -> String.length s <= f2 ->
  PyStr.replace_fuel f1 old new s = PyStr.replace_fuel f2 old new s.
Proof.
  intros Hold. revert f2 s. induction f1 as [|f1 IH]; intros f2 s H1 H2.
  - destruct s; [|simpl in H1; lia]. destruct f2; reflexivity.
  - destruct s as [|c r]; [destruct f2; reflexivity|].
    destruct f2 as [|f2]; [simpl in H2; lia|].
    cbn [PyStr.replace_fuel]. simpl in H1, H2.
    destruct (String.prefix old (String c r)).
    + f_equal. apply IH; rewrite drop_length; simpl;
        destruct old; try congruence; simpl; lia.
    + f_equal. apply IH; lia.
Qed.

Lemma replace_absent (fuel : nat) (old new s : string) :
  PyStr.occurs old s = false -> PyStr.replace_fuel fuel old new s = s.
Proof.
  revert s. induction fuel as [|f IH]; intros s H; [reflexivity|].
  destruct s as [|c r]; [reflexivity|]. cbn [PyStr.replace_fuel].
  cbn [PyStr.occurs] in H. apply orb_false_iff in H as [H1 H2].
  rewrite H1. f_equal. now apply IH.
Qed.

Lemma occurs_longer (a : ascii) (old s : string) :
  PyStr.occurs old s = false -> PyStr.occurs (String a old) s = false.
Proof.
  induction s as [|c r IH]; cbn [PyStr.occurs].
  - intros _. reflexivity.
  - intros H. apply orb_false_iff in H as [H1 H2].
    rewrite (IH H2), orb_false_r, prefix_cons.
    destruct (Ascii.eqb a c); [|reflexivity]. simpl.
    destruct r as [|d r'].
    + destruct old; [discriminate H1 | reflexivity].
    + cbn [PyStr.occurs] in H2. apply orb_false_iff in H2. tauto.
Qed.

Section Replace.

Variables (o n0 : ascii) (old' new' : string).

Abbreviation old := (String o old').
Abbreviation new := (String n0 new').

(** No character of [new] starts [old], and [new] starts with a character
    that [old] does not contain. *)
Hypothesis new_avoids_o : all_chars (fun a => negb (Ascii.eqb o a)) new = true.
Hypothesis old_avoids_n0 : all_chars (fun a => negb (Ascii.eqb a n0)) old = true.

Lemma prefix_of_replaced (fuel : nat) (w s : string) :
  all_chars (fun a => negb (Ascii.eqb a n0)) w = true ->
  String.prefix w (PyStr.replace_fuel fuel old new s) = true ->
  String.prefix w s = true.
Proof.
  revert w s. induction fuel as [|f IH]; intros w s Hw Hp; [exact Hp|].
  destruct s as [|c r]; [exact Hp|]. cbn [PyStr.replace_fuel] in Hp.
  destruct w as [|a w']; [reflexivity|].
  cbn [all_chars] in Hw. apply andb_true_iff in Hw as [Ha Hw'].
  destruct (String.prefix old (String c r)).
  - change (new +:+ ?x) with (String n0 (new' +:+ x)) in Hp.
    rewrite prefix_cons in Hp. apply negb_true_iff in Ha. now rewrite Ha in Hp.
  - rewrite prefix_cons in Hp |- *. apply andb_true_iff in Hp as [-> Hp].
    simpl. now apply (IH w' r).
Qed.

Lemma occurs_after (u rest : string) :
  all_chars (fun a => negb (Ascii.eqb o a)) u = true ->
  PyStr.occurs old (u +:+ rest) = PyStr.occurs old rest.
Proof.
  induction u as [|a u IH]; [reflexivity|]. intros H. cbn [all_chars] in H.
  apply andb_true_iff in H as [Ha Hu].
  change (String a u +:+ rest) with (String a (u +:+ rest)).
  cbn [PyStr.occurs]. rewrite prefix_cons. apply negb_true_iff in Ha.
  rewrite Ha. simpl. now apply IH.
Qed.

(** After [replace(old, new)] no occurrence of [old] is left. *)
Lemma replace_leaves_none (fuel : nat) (s : string) :
  String.length s <= fuel ->
  PyStr.occurs old (PyStr.replace_fuel fuel old new s) = false.
Proof.
  revert s. induction fuel as [|f IH]; intros s Hlen.
  - destruct s; [reflexivity | simpl in Hlen; lia].
  - destruct s as [|c r]; [reflexivity|]. cbn [PyStr.replace_fuel]. simpl in Hlen.
    destruct (String.prefix old (String c r)) eqn:Ep.
    + rewrite occurs_after by exact new_avoids_o.
      apply IH. rewrite drop_length. simpl. lia.
    + cbn [PyStr.occurs]. rewrite (IH r) by lia. rewrite orb_false_r.
      rewrite prefix_cons. destruct (Ascii.eqb o c) eqn:Eo; [|reflexivity]. simpl.
      destruct (String.prefix old' (PyStr.replace_fuel f old new r)) eqn:Eq; [|reflexivity].
      cbn [all_chars] in old_avoids_n0. apply andb_true_iff in old_avoids_n0 as [_ Hold'].
      apply prefix_of_replaced in Eq; [|exact Hold'].
      rewrite prefix_cons, Eo, Eq in Ep. discriminate.
Qed.

End Replace.

(** X4.  In [format_ai_report_html] the second replacement of each pair never
    fires: after [replace("## ", "<h2>")] no ["## "] is left, so no ["### "]
    either, and after [replace("**", "<strong>")] no ["**"] is left.  The
    page is the paragraphs of the text with [<h2>] and [<strong>] inserted;
    neither [<h3>] nor [</strong>] is ever written by the function. *)
Theorem format_ai_report_html_dead_replaces (report : string) :
  PyStr.occurs "## " (PyStr.replace "## " "<h2>" report) = false /\
  PyStr.occurs "**" (PyStr.replace "**" "<strong>" (PyStr.replace "## " "<h2>" report)) = false /\
  format_ai_report_html report
  = wrap_paragraphs
      (PyStr.split (String (ascii_of_nat 10) (String (ascii_of_nat 10) EmptyString))
         (PyStr.replace "**" "<strong>" (PyStr.replace "## " "<h2>" report))).
Proof.
  assert (H2 : forall s, PyStr.occurs "## " (PyStr.replace "## " "<h2>" s) = false).
  { intros s. apply (replace_leaves_none "#" "<" "# " "h2>"); reflexivity || lia. }
  assert (Hb : forall s, PyStr.occurs "**" (PyStr.replace "**" "<strong>" s) = false).
  { intros s. apply (replace_leaves_none "*" "<" "*" "strong>"); reflexivity || lia. }
  split; [apply H2|]. split; [apply Hb|].
  unfold format_ai_report_html. cbv zeta.
  unfold PyStr.replace at 1. rewrite replace_absent by apply Hb.
  unfold PyStr.replace at 2. rewrite replace_absent by apply occurs_longer, H2.
  reflexivity.
Qed.


(** ** utils.py: detect_column_type, for every column *)

Lemma dropna_idem (vs : list value) : dropna (dropna vs) = dropna vs.
Proof.
  unfold dropna. induction vs as [|v vs IH]; simpl; [reflexivity|].
  destruct (notna v) eqn:E; simpl; [rewrite E|]; now rewrite ?IH.
Qed.

Lemma mask_sum_dropna (f : value -> bool) (vs : list value) :
  f VNull = false -> mask_sum (map f (dropna vs)) = mask_sum (map f vs).
Proof.
  intros Hf. unfold dropna. induction vs as [|v vs IH]; simpl; [reflexivity|].
  destruct v; simpl; rewrite ?Hf, IH; reflexivity.
Qed.

Lemma no_text_hits np (vs : list value) :
  Forall (fun v => isinstance_str v = false) vs ->
  numeric_hits np vs = length (dropna vs).
Proof.
  unfold numeric_hits, dropna. induction 1 as [|v vs Hv _ IH]; simpl; [reflexivity|].
  destruct v; simpl in *; try discriminate; now rewrite IH.
Qed.

Section MoreStages.

Variable numeric_of_text : string -> option Q.
Variable datetime_of_text : string -> option datetime.
Variable datetime_of_number : Q -> option datetime.

Abbreviation detect := (detect_column_type numeric_of_text datetime_of_text datetime_of_number).

(** X5.  The classifier does not look at absent cells: a column and the same
    column with its absent cells dropped get the same type. *)
Theorem detect_ignores_absent (series : list value) :
  detect (dropna series) = detect series.
Proof.
  rewrite !detect_unfold. unfold numeric_test, date_test, numeric_hits, datetime_hits.
  rewrite dropna_idem, !mask_sum_dropna by reflexivity. reflexivity.
Qed.

Lemma detect_number_column (series : list value) :
  Forall (fun v => isinstance_str v = false) series ->
  detect series = if length (dropna series) =? 0 then Unknown else Numeric.
Proof.
  intros H. rewrite detect_unfold. unfold numeric_test.
  rewrite (no_text_hits _ _ H), threshold_08.
  destruct (length (dropna series) =? 0) eqn:E; [reflexivity|].
  apply Nat.eqb_neq in E.
  assert (Hlt : (4 * length (dropna series) <? 5 * length (dropna series)) = true)
    by (apply Nat.ltb_lt; lia).
  now rewrite Hlt.
Qed.

(** X6.  A column that holds no text (numbers and absent cells only) is
    classified numeric, or unknown when no cell is present, whatever the
    parsers accept: it is never a date, categorical or string column. *)
Theorem detect_without_text (series : list value) :
  Forall (fun v => isinstance_str v = false) series ->
  detect series = if length (dropna series) =? 0 then Unknown else Numeric.
Proof. exact (detect_number_column series). Qed.

(** *** The imputer's accounting *)

Lemma impute_column_counted (c : Series) :
  let r := impute_column numeric_of_text datetime_of_text datetime_of_number c in
  (snd r = true /\ isna_sum (s_values (fst r)) = 0) \/ (snd r = false /\ fst r = c).
Proof.
  cbv zeta. unfold impute_column.
  destruct (is_numeric_dtype (s_dtype c)).
  - destruct (median _) as [m|].
    + left. simpl. split; [reflexivity | now apply fillna_no_absent].
    + destruct (mode (s_values c)) as [|m ms] eqn:Em; simpl.
      * right. split; reflexivity.
      * left. split; [reflexivity|]. apply fillna_no_absent, (mode_present (s_values c)).
        rewrite Em. now left.
  - destruct (column_type_eqb (detect (s_values c)) Date) eqn:Ed; simpl.
    + left. split; [reflexivity|]. apply present_no_absent, bfill_ffill_present.
      apply column_type_eqb_eq in Ed. eapply detect_date_present, Ed.
    + destruct (mode (s_values c)) as [|m ms] eqn:Em; simpl.
      * left. split; [reflexivity | now apply fillna_no_absent].
      * left. split; [reflexivity|]. apply fillna_no_absent, (mode_present (s_values c)).
        rewrite Em. now left.
Qed.

Lemma missing_loop_accounts (cols : list Series) (k : nat) :
  let r := missing_loop numeric_of_text datetime_of_text datetime_of_number cols k in
  snd r + list_sum (map (fun c => isna_sum (s_values c)) (fst r))
  = k + list_sum (map (fun c => isna_sum (s_values c)) cols).
Proof.
  cbv zeta. revert k. induction cols as [|c cols IH]; intros k; simpl; [lia|].
  destruct (isna_sum (s_values c) =? 0) eqn:E.
  - specialize (IH k). destruct (missing_loop _ _ _ cols k). simpl in *. lia.
  - pose proof (impute_column_counted c) as Hc. cbv zeta in Hc.
    destruct (impute_column _ _ _ c) as [c' counted]. simpl in Hc.
    match goal with |- context [missing_loop _ _ _ cols ?k'] =>
      specialize (IH k'); destruct (missing_loop _ _ _ cols k') end.
    simpl in *. destruct Hc as [[-> Hz] | [-> ->]]; lia.
Qed.

(** X8.  [handle_missing_values] returns, and [missing_values_handled] is the
    number of absent cells of the frame before the step minus the number
    left after it: a cell is counted exactly when it was filled. *)
Theorem missing_values_handled_counts (self : DataCleaningPipeline) (df : DataFrame) :
  cleaned_df self = Some df ->
  exists (self' : DataCleaningPipeline) (df' : DataFrame),
    handle_missing_values numeric_of_text datetime_of_text datetime_of_number self
      = Some self' /\
    cleaned_df self' = Some df' /\
    absent_cells df' <= absent_cells df /\
    summary self' !! "missing_values_handled"
      = Some (counter (absent_cells df - absent_cells df')).
Proof.
  intros Hdf. unfold handle_missing_values. rewrite Hdf. unfold missing_frame.
  pose proof (missing_loop_accounts (columns df) 0) as Hacc. cbv zeta in Hacc.
  destruct (missing_loop _ _ _ (columns df) 0) as [cols total]. simpl in *.
  eexists _, _. split; [reflexivity|]. cbn [cleaned_df summary].
  split; [reflexivity|]. unfold absent_cells. simpl. split; [lia|].
  rewrite lookup_insert_eq. do 2 f_equal. lia.
Qed.

(** *** The imputer writes absent cells only *)

Lemma kept_map (f : value -> value) (vs : list value) :
  (forall v, In v vs -> isna v = false -> f v = v) ->
  Forall2 kept_cell vs (map f vs).
Proof.
  induction vs as [|v vs IH]; simpl; intros H; constructor.
  - intros Hv. apply H; [now left | exact Hv].
  - apply IH. intros w Hw. apply H. now right.
Qed.

Lemma kept_fillna (x : value) (vs : list value) : Forall2 kept_cell vs (fillna x vs).
Proof. apply kept_map. intros v _ Hv. now rewrite Hv. Qed.

Lemma kept_ffill (last : value) (vs : list value) :
  Forall2 kept_cell vs (ffill_from last vs).
Proof.
  revert last. induction vs as [|v vs IH]; intros last; simpl; [constructor|].
  destruct (isna v) eqn:E; constructor; auto; intros H; congruence.
Qed.

Lemma kept_bfill (vs : list value) : Forall2 kept_cell vs (bfill vs).
Proof.
  induction vs as [|v vs IH]; simpl; constructor; [|exact IH].
  intros H. now rewrite H.
Qed.

Lemma kept_trans (a b c : list value) :
  Forall2 kept_cell a b -> Forall2 kept_cell b c -> Forall2 kept_cell a c.
Proof.
  intros H. revert c. induction H as [|x y a b Hxy _ IH]; intros c Hc;
    inversion Hc; subst; constructor.
  - intros Hx. specialize (Hxy Hx). subst y. auto.
  - now apply IH.
Qed.

Lemma kept_refl (vs : list value) : Forall2 kept_cell vs vs.
Proof. induction vs; constructor; [intros _; reflexivity | assumption]. Qed.

Lemma impute_column_keeps (c : Series) :
  well_typed_column c ->
  Forall2 kept_cell (s_values c)
    (s_values (fst (impute_column numeric_of_text datetime_of_text datetime_of_number c))).
Proof.
  intros Hwt. unfold impute_column.
  destruct (is_numeric_dtype (s_dtype c)) eqn:Hd.
  - assert (Hnum : s_dtype c = DNumber) by (destruct (s_dtype c); [discriminate | reflexivity]).
    specialize (Hwt Hnum). rewrite List.Forall_forall in Hwt.
    destruct (median _) as [m|]; simpl.
    + eapply kept_trans; [|apply kept_fillna].
      apply kept_map. intros v Hv _. specialize (Hwt v Hv).
      destruct v; simpl in *; try reflexivity; discriminate.
    + destruct (mode (s_values c)); simpl; [apply kept_refl | apply kept_fillna].
  - destruct (column_type_eqb _ _); simpl.
    + eapply kept_trans; [apply kept_ffill | apply kept_bfill].
    + destruct (mode (s_values c)); simpl; apply kept_fillna.
Qed.

Lemma missing_loop_keeps (cols : list Series) (k : nat) :
  Forall well_typed_column cols ->
  Forall2 (fun c c' => s_name c' = s_name c /\ Forall2 kept_cell (s_values c) (s_values c'))
    cols (fst (missing_loop numeric_of_text datetime_of_text datetime_of_number cols k)).
Proof.
  intros H. revert k. induction H as [|c cols Hc _ IH]; intros k; simpl; [constructor|].
  destruct (isna_sum (s_values c) =? 0).
  - specialize (IH k). destruct (missing_loop _ _ _ cols k). simpl in *.
    constructor; [split; [reflexivity | apply kept_refl] | exact IH].
  - pose proof (impute_column_keeps c Hc) as Hk.
    assert (Hn : s_name (fst (impute_column numeric_of_text datetime_of_text
                                datetime_of_number c)) = s_name c).
    { unfold impute_column. destruct (is_numeric_dtype _); [destruct (median _)|];
        [| destruct (mode _) | destruct (column_type_eqb _ _); [|destruct (mode _)]];
        reflexivity. }
    destruct (impute_column _ _ _ c) as [c' counted].
    match goal with |- context [missing_loop _ _ _ cols ?k'] =>
      specialize (IH k'); destruct (missing_loop _ _ _ cols k') end.
    simpl in *. constructor; [split; assumption | exact IH].
Qed.

(** X9.  On a frame whose numeric columns hold no text, the imputer writes
    absent cells only: the row count and the column names are kept, and
    every present cell is found unchanged at its place. *)
Theorem imputer_keeps_present_cells (self : DataCleaningPipeline) (df : DataFrame) :
  cleaned_df self = Some df ->
  well_typed df ->
  exists (self' : DataCleaningPipeline) (df' : DataFrame),
    handle_missing_values numeric_of_text datetime_of_text datetime_of_number self
      = Some self' /\
    cleaned_df self' = Some df' /\
    len df' = len df /\
    Forall2 (fun c c' => s_name c' = s_name c /\
                         Forall2 kept_cell (s_values c) (s_values c'))
            (columns df) (columns df').
Proof.
  intros Hdf Hwt. unfold handle_missing_values. rewrite Hdf. unfold missing_frame.
  pose proof (missing_loop_keeps (columns df) 0 Hwt) as Hk.
  destruct (missing_loop _ _ _ (columns df) 0) as [cols total]. simpl in *.
  eexists _, _. split; [reflexivity|]. cbn [cleaned_df].
  split; [reflexivity|]. split; [reflexivity | exact Hk].
Qed.

(** *** The Date Normalizer writes text columns only *)

Variable datetime_of_column : list value -> conversion.

(** X7.  [fix_dates] returns; a column without text is returned as it is, a
    column it rewrites becomes a text column whose cells are texts or
    absent, and [date_columns_fixed] is at most the number of columns. *)
Theorem fix_dates_rewrites_only_text (self : DataCleaningPipeline) (df : DataFrame) :
  cleaned_df self = Some df ->
  exists (self' : DataCleaningPipeline) (df' : DataFrame),
    fix_dates numeric_of_text datetime_of_text datetime_of_number datetime_of_column self
      = Some self' /\
    cleaned_df self' = Some df' /\
    Forall2 (fun c c' =>
               (Forall (fun v => isinstance_str v = false) (s_values c) -> c' = c) /\
               (c' <> c -> s_dtype c' = DObject /\
                           Forall (fun v => isinstance_str v = true \/ isna v = true)
                                  (s_values c')))
            (columns df) (columns df') /\
    (exists k : nat,
       summary self' !! "date_columns_fixed" = Some (counter k) /\ k <= ncols df).
Proof.
  intros Hdf. unfold fix_dates. rewrite Hdf. unfold fix_dates_frame.
  destruct (fix_dates_loop_spec numeric_of_text datetime_of_text datetime_of_number
              datetime_of_column (len df) (columns df) 0) as [Hcols Hcount].
  destruct (fix_dates_loop _ _ _ _ (len df) (columns df) 0) as [cols total]. simpl in *.
  eexists _, _. split; [reflexivity|]. cbn [cleaned_df summary columns].
  split; [reflexivity|]. split.
  - eapply Forall2_impl; [exact Hcols|]. intros c c' ->.
    split.
    + intros Hnt. unfold date_converted. rewrite (detect_number_column _ Hnt).
      destruct (length (dropna (s_values c)) =? 0); reflexivity.
    + destruct (date_converted _ _ _ _ (len df) c); [|congruence].
      destruct (fix_date_column_cases datetime_of_column (len df) c)
        as [E | (parse & _ & _ & E)]; rewrite E; cbn [fst]; [congruence|].
      intros _. split; [reflexivity|].
      cbn [set_values s_values]. do 2 apply List.Forall_map.
      apply List.Forall_forall. intros v _.
      unfold strftime_cell. destruct (parse v); simpl; auto.
  - exists total. split; [apply lookup_insert_eq|]. subst total. simpl.
    unfold ncols. apply filter_length_le.
Qed.

End MoreStages.

Lemma detect_without_text_witness :
  detect_column_type no_number no_date no_date_q [num 1; VNull; num 3] = Numeric.
Proof.
  apply (detect_without_text no_number no_date no_date_q [num 1; VNull; num 3]).
  repeat constructor.
Defined.

Lemma fix_dates_rewrites_only_text_witness :
  exists (self' : DataCleaningPipeline) (df' : DataFrame),
    fix_dates no_number sample_dates no_date_q sample_conversion
      (load_csv frame_dates init) = Some self' /\
    cleaned_df self' = Some df' /\
    exists k : nat,
      summary self' !! "date_columns_fixed" = Some (counter k) /\ k <= 2.
Proof.
  destruct (fix_dates_rewrites_only_text no_number sample_dates no_date_q sample_conversion
              (load_csv frame_dates init) frame_dates eq_refl)
    as (self' & df' & Hrun & Hdf & _ & Hcount).
  exists self', df'. split; [exact Hrun|]. split; [exact Hdf | exact Hcount].
Defined.

Lemma missing_values_handled_counts_witness :
  exists (self' : DataCleaningPipeline) (df' : DataFrame),
    handle_missing_values no_number no_date no_date_q (load_csv frame_gaps init)
      = Some self' /\
    cleaned_df self' = Some df' /\
    absent_cells df' <= absent_cells frame_gaps /\
    summary self' !! "missing_values_handled"
      = Some (counter (absent_cells frame_gaps - absent_cells df')).
Proof.
  exact (missing_values_handled_counts no_number no_date no_date_q
           (load_csv frame_gaps init) frame_gaps eq_refl).
Defined.

Lemma imputer_keeps_present_cells_witness :
  exists (self' : DataCleaningPipeline) (df' : DataFrame),
    handle_missing_values no_number no_date no_date_q (load_csv frame_gaps init)
      = Some self' /\
    cleaned_df self' = Some df' /\
    len df' = len frame_gaps /\
    Forall2 (fun c c' => s_name c' = s_name c /\
                         Forall2 kept_cell (s_values c) (s_values c'))
            (columns frame_gaps) (columns df').
Proof.
  apply (imputer_keeps_present_cells no_number no_date no_date_q
           (load_csv frame_gaps init) frame_gaps); [reflexivity|].
  unfold well_typed, frame_gaps, text_column. cbn [columns].
  constructor; [intros _; repeat constructor|].
  constructor; [intros H; discriminate H|].
  constructor; [intros _; repeat constructor | constructor].
Defined.

(** ** Step 1 applied twice *)

Lemma normalize_cell_idem (v : value) : normalize_cell (normalize_cell v) = normalize_cell v.
Proof.
  destruct v as [| |s]; try reflexivity.
  unfold normalize_cell. simpl. f_equal.
  now rewrite <- lower_strip, strip_idem, lower_idem.
Qed.

Lemma changed_cells_same (vs : list value) : changed_cells vs vs = 0.
Proof.
  induction vs as [|v vs IH]; simpl; [reflexivity|]. now rewrite value_eqb_refl, IH.
Qed.

Lemma trim_loop_columns (cols : list Series) (k : nat) :
  fst (trim_loop cols k) = map trim_column cols.
Proof.
  revert k. induction cols as [|c cols IH]; intros k; simpl; [reflexivity|].
  unfold trim_column at 1. destruct (s_dtype c).
  - match goal with |- context [trim_loop cols ?k'] =>
      specialize (IH k'); destruct (trim_loop cols k') end.
    simpl in *. now rewrite IH.
  - specialize (IH k). destruct (trim_loop cols k). simpl in *. now rewrite IH.
Qed.

Lemma trim_column_idem (c : Series) :
  trim_column (trim_column c) = trim_column c /\
  changed_in_text (trim_column c) = 0 /\
  absent_in_text (trim_column c) = absent_in_text c.
Proof.
  unfold trim_column, changed_in_text, absent_in_text.
  destruct (s_dtype c) eqn:E; simpl; rewrite ?E; [|auto].
  rewrite List.map_map, (map_ext _ _ normalize_cell_idem), changed_cells_same.
  repeat split. unfold isna_sum. rewrite List.map_map.
  apply f_equal, map_ext, normalize_cell_isna.
Qed.

Lemma list_sum_zeros {A} (l : list A) : list_sum (map (fun _ => 0) l) = 0.
Proof. induction l; simpl; auto. Qed.

Lemma trim_frame_eq (df : DataFrame) :
  trim_frame df
  = ({| nrows := nrows df; columns := map trim_column (columns df) |},
     list_sum (map changed_in_text (columns df))
     + list_sum (map absent_in_text (columns df))).
Proof.
  unfold trim_frame.
  pose proof (trim_loop_columns (columns df) 0) as H1.
  pose proof (trim_loop_count (columns df) 0) as H2.
  destruct (trim_loop (columns df) 0) as [cols n]. simpl in *. now subst.
Qed.

Lemma trim_method_eq (self : DataCleaningPipeline) (df : DataFrame) :
  cleaned_df self = Some df ->
  trim_and_normalize_strings self
  = Some {| cleaning_steps :=
              cleaning_steps self ++
              [{| step_name := "trim_and_normalize";
                  description :=
                    "Trimmed and normalized "
                      +:+ decimal (list_sum (map changed_in_text (columns df))
                                   + list_sum (map absent_in_text (columns df)))
                      +:+ " string values" |}];
            original_df := original_df self;
            cleaned_df := Some {| nrows := nrows df;
                                  columns := map trim_column (columns df) |};
            summary := summary self |}.
Proof.
  intros Hdf. unfold trim_and_normalize_strings. rewrite Hdf, trim_frame_eq. reflexivity.
Qed.

(** X10.  The String Normalizer is idempotent on the frame: a second
    application returns the frame of the first.  Its report is not zero,
    though: it counts the absent cells of the text columns once more. *)
Theorem trim_twice_changes_nothing (self : DataCleaningPipeline) (df : DataFrame) :
  cleaned_df self = Some df ->
  exists (once twice : DataCleaningPipeline) (df' : DataFrame),
    trim_and_normalize_strings self = Some once /\
    cleaned_df once = Some df' /\
    trim_and_normalize_strings once = Some twice /\
    cleaned_df twice = Some df' /\
    last (cleaning_steps twice)
      = Some {| step_name := "trim_and_normalize";
                description := "Trimmed and normalized "
                                 +:+ decimal (list_sum (map absent_in_text (columns df)))
                                 +:+ " string values" |}.
Proof.
  intros Hdf.
  assert (Hidem : map trim_column (map trim_column (columns df)) = map trim_column (columns df)).
  { rewrite List.map_map. apply map_ext. intros c. apply trim_column_idem. }
  assert (Hch : list_sum (map changed_in_text (map trim_column (columns df))) = 0).
  { rewrite List.map_map.
    rewrite (map_ext (fun c => changed_in_text (trim_column c)) (fun _ => 0))
      by (intros c; apply trim_column_idem).
    apply list_sum_zeros. }
  assert (Hab : list_sum (map absent_in_text (map trim_column (columns df)))
                = list_sum (map absent_in_text (columns df))).
  { rewrite List.map_map. f_equal. apply map_ext. intros c. apply trim_column_idem. }
  rewrite (trim_method_eq self df Hdf).
  eexists _, _, _. split; [reflexivity|]. split; [reflexivity|].
  erewrite trim_method_eq by reflexivity. cbn [nrows columns cleaning_steps].
  rewrite Hidem, Hch, Hab. split; [reflexivity|]. split; [reflexivity|].
  cbn [cleaning_steps]. rewrite last_snoc. reflexivity.
Qed.

Lemma trim_twice_changes_nothing_witness :
  exists (once twice : DataCleaningPipeline) (df' : DataFrame),
    trim_and_normalize_strings (load_csv frame_gap init) = Some once /\
    cleaned_df once = Some df' /\
    trim_and_normalize_strings once = Some twice /\
    cleaned_df twice = Some df' /\
    last (cleaning_steps twice)
      = Some {| step_name := "trim_and_normalize";
                description := "Trimmed and normalized 1 string values" |}.
Proof.
  exact (trim_twice_changes_nothing (load_csv frame_gap init) frame_gap eq_refl).
Defined.


(** ** Step 4: remove_duplicates, for every frame *)

Lemma rows_rows_of (df : DataFrame) :
  rows df = rows_of (nrows df) (map s_values (columns df)).
Proof.
  unfold rows, rows_of, row_at. apply map_ext. intros i. now rewrite List.map_map.
Qed.

Lemma rows_of_succ (n : nat) (vss : list (list value)) :
  rows_of (S n) vss
  = map (fun vs => nth 0 vs VNull) vss :: rows_of n (map (@tl value) vss).
Proof.
  unfold rows_of. simpl. f_equal. rewrite <- seq_shift, List.map_map.
  apply map_ext. intros i. rewrite List.map_map. apply map_ext.
  intros [|v vs]; [destruct i|]; reflexivity.
Qed.

Lemma rows_of_select (keep : list bool) (vss : list (list value)) :
  Forall (fun vs => length vs = length keep) vss ->
  rows_of (mask_sum keep) (map (select keep) vss) = select keep (rows_of (length keep) vss).
Proof.
  revert vss. induction keep as [|b keep IH]; intros vss H.
  - reflexivity.
  - assert (Htl : Forall (fun vs => length vs = length keep) (map (@tl value) vss)).
    { apply List.Forall_map. eapply List.Forall_impl; [|exact H].
      intros [|v vs] Hl; simpl in *; [discriminate | lia]. }
    cbn [length]. rewrite rows_of_succ.
    assert (Hsel : map (select (b :: keep)) vss
                   = if b then map (fun vs => nth 0 vs VNull :: select keep (tl vs)) vss
                     else map (select keep) (map (@tl value) vss)).
    { destruct b; [|rewrite List.map_map]; apply map_ext_in; intros vs Hin;
        rewrite List.Forall_forall in H; specialize (H vs Hin);
        destruct vs; simpl in *; [discriminate | reflexivity | discriminate | reflexivity]. }
    rewrite Hsel. destruct b.
    + change (mask_sum (true :: keep)) with (S (mask_sum keep)).
      rewrite rows_of_succ, !List.map_map. cbn [select nth tl]. f_equal.
      rewrite <- (IH _ Htl), List.map_map. reflexivity.
    + change (mask_sum (false :: keep)) with (mask_sum keep). cbn [select].
      apply IH, Htl.
Qed.

Lemma row_eqb_refl (r : list value) : row_eqb r r = true.
Proof. induction r as [|v r IH]; simpl; [reflexivity|]. now rewrite value_eqb_refl. Qed.

Lemma kept_rows_distinct (seen rs : list (list value)) :
  duplicated_from seen (select (map negb (duplicated_from seen rs)) rs)
  = map (fun _ => false) (select (map negb (duplicated_from seen rs)) rs).
Proof.
  revert seen. induction rs as [|r rs IH]; intros seen; simpl; [reflexivity|].
  destruct (existsb (row_eqb r) seen) eqn:E; simpl.
  - apply IH.
  - rewrite E. f_equal. apply IH.
Qed.

Lemma kept_rows_cover (seen rs : list (list value)) (r : list value) :
  In r rs ->
  existsb (row_eqb r) seen = true \/
  existsb (row_eqb r) (select (map negb (duplicated_from seen rs)) rs) = true.
Proof.
  revert seen. induction rs as [|r0 rs IH]; intros seen Hin; [destruct Hin|].
  simpl. destruct (existsb (row_eqb r0) seen) eqn:E; simpl.
  - destruct Hin as [-> | Hin]; [now left | now apply IH].
  - destruct Hin as [-> | Hin].
    + right. now rewrite row_eqb_refl.
    + destruct (IH (r0 :: seen) Hin) as [H | H].
      * simpl in H. apply orb_true_iff in H as [H | H]; [right | now left].
        now rewrite H.
      * right. rewrite H. apply orb_true_r.
Qed.

Lemma select_all (l : list bool) {A} (xs : list A) :
  length l = length xs -> select (map negb (map (fun _ => false) l)) xs = xs.
Proof.
  revert xs. induction l as [|b l IH]; intros [|x xs] H; simpl in *; try discriminate;
    [reflexivity|]. f_equal. apply IH. lia.
Qed.

Lemma mask_sum_all (l : list bool) :
  mask_sum (map negb (map (fun _ => false) l)) = length l.
Proof. induction l; simpl; auto. Qed.

Lemma mask_sum_negb (l : list bool) : mask_sum (map negb l) + mask_sum l = length l.
Proof. induction l as [|b l IH]; simpl; [reflexivity|]. destruct b; simpl; lia. Qed.

Lemma duplicated_length (df : DataFrame) : length (duplicated df) = nrows df.
Proof.
  unfold duplicated, rows. now rewrite duplicated_from_length, length_map, length_seq.
Qed.

Lemma rows_drop_duplicates (df : DataFrame) :
  rectangular df -> ncols df <> 0 ->
  rows (drop_duplicates df) = select (map negb (duplicated df)) (rows df).
Proof.
  intros Hrect Hcols. unfold drop_duplicates, frame_empty.
  destruct (nrows df =? 0) eqn:En; simpl.
  - apply Nat.eqb_eq in En. unfold duplicated, rows. now rewrite En.
  - apply Nat.eqb_neq in Hcols. rewrite Hcols.
    rewrite !rows_rows_of. cbn [nrows columns]. rewrite List.map_map. simpl.
    rewrite <- (List.map_map s_values (select (map negb (duplicated df)))).
    rewrite rows_of_select.
    + now rewrite length_map, duplicated_length.
    + apply List.Forall_map. eapply List.Forall_impl; [|exact Hrect].
      intros c Hc. cbv beta in Hc. now rewrite length_map, duplicated_length.
Qed.

Lemma drop_duplicates_none_left (df : DataFrame) :
  rectangular df -> ncols df <> 0 ->
  Forall (fun b => b = false) (duplicated (drop_duplicates df)).
Proof.
  intros Hrect Hcols. unfold duplicated at 1.
  rewrite (rows_drop_duplicates df Hrect Hcols). unfold duplicated.
  rewrite kept_rows_distinct. apply List.Forall_map, List.Forall_forall. auto.
Qed.

Lemma drop_duplicates_count (df : DataFrame) :
  ncols df <> 0 -> len (drop_duplicates df) + mask_sum (duplicated df) = len df.
Proof.
  intros Hcols. unfold drop_duplicates, frame_empty, len.
  destruct (nrows df =? 0) eqn:En; simpl.
  - apply Nat.eqb_eq in En. unfold duplicated, rows. rewrite En. simpl. lia.
  - apply Nat.eqb_neq in Hcols. rewrite Hcols. simpl.
    rewrite <- (duplicated_length df). apply mask_sum_negb.
Qed.

Lemma set_values_same (c : Series) : set_values c (s_dtype c) (s_values c) = c.
Proof. now destruct c. Qed.

Lemma drop_duplicates_fixed (df : DataFrame) :
  rectangular df ->
  drop_duplicates (drop_duplicates df) = drop_duplicates df.
Proof.
  intros Hrect.
  destruct (frame_empty df) eqn:Ee.
  { unfold drop_duplicates at 2 3. rewrite Ee. unfold drop_duplicates. now rewrite Ee. }
  assert (Hcols : ncols df <> 0).
  { unfold frame_empty in Ee. apply orb_false_iff in Ee as [_ E]. now apply Nat.eqb_neq. }
  pose proof (drop_duplicates_rectangular df Hrect) as Hrect'.
  pose proof (drop_duplicates_none_left df Hrect Hcols) as Hnone.
  set (df' := drop_duplicates df) in *.
  unfold drop_duplicates. destruct (frame_empty df'); [reflexivity|].
  assert (Hdup : duplicated df' = map (fun _ => false) (duplicated df')).
  { induction Hnone as [|b l -> _ IH]; simpl; [reflexivity | now f_equal]. }
  rewrite Hdup, mask_sum_all, duplicated_length.
  destruct df' as [n cols] eqn:Edf. simpl. f_equal.
  rewrite <- (map_id cols) at 2. apply map_ext_in. intros c Hc.
  unfold rectangular in Hrect'. simpl in Hrect'.
  rewrite List.Forall_forall in Hrect'. specialize (Hrect' c Hc).
  rewrite select_all; [apply set_values_same|].
  rewrite duplicated_length. simpl. now rewrite Hrect'.
Qed.

(** X11.  [remove_duplicates] on a frame with at least one column returns
    the rows that are not a repeat of an earlier row, in their order: no row
    of the result equals an earlier row of the result, every row of the
    input equals a row of the result, and [duplicates_removed] is the
    number of rows that repeated an earlier one. *)
Theorem remove_duplicates_distinct (self : DataCleaningPipeline) (df : DataFrame) :
  cleaned_df self = Some df ->
  rectangular df ->
  ncols df <> 0 ->
  exists (self' : DataCleaningPipeline) (df' : DataFrame),
    remove_duplicates self = Some self' /\
    cleaned_df self' = Some df' /\
    rows df' = select (map negb (duplicated df)) (rows df) /\
    Forall (fun b => b = false) (duplicated df') /\
    (forall r, In r (rows df) -> existsb (row_eqb r) (rows df') = true) /\
    summary self' !! "duplicates_removed" = Some (counter (mask_sum (duplicated df))).
Proof.
  intros Hdf Hrect Hcols. unfold remove_duplicates. rewrite Hdf. cbv zeta.
  pose proof (rows_drop_duplicates df Hrect Hcols) as Hrows.
  eexists _, _. split; [reflexivity|]. cbn [cleaned_df summary].
  split; [reflexivity|]. split; [exact Hrows|].
  split; [exact (drop_duplicates_none_left df Hrect Hcols)|]. split.
  - intros r Hr. rewrite Hrows. unfold duplicated.
    destruct (kept_rows_cover [] (rows df) r Hr) as [H | H]; [discriminate | exact H].
  - rewrite lookup_insert_eq. f_equal.
    pose proof (drop_duplicates_count df Hcols). unfold counter. lia.
Qed.

Lemma remove_duplicates_distinct_witness :
  exists (self' : DataCleaningPipeline) (df' : DataFrame),
    remove_duplicates (load_csv frame_repeat init) = Some self' /\
    cleaned_df self' = Some df' /\
    rows df' = [ [num 1; VStr "a"]; [num 2; VStr "b"] ] /\
    summary self' !! "duplicates_removed" = Some 1%Z.
Proof.
  destruct (remove_duplicates_distinct (load_csv frame_repeat init) frame_repeat)
    as (self' & df' & Hrun & Hdf & Hrows & _ & _ & Hcount).
  - reflexivity.
  - repeat constructor.
  - discriminate.
  - exists self', df'. split; [exact Hrun|]. split; [exact Hdf|].
    split; [exact Hrows | exact Hcount].
Defined.

(** X12.  [remove_duplicates] is idempotent: applied to its own result it
    returns the same frame and reports that it removed no row. *)
Theorem remove_duplicates_twice (self : DataCleaningPipeline) (df : DataFrame) :
  cleaned_df self = Some df ->
  rectangular df ->
  exists (once twice : DataCleaningPipeline) (df' : DataFrame),
    remove_duplicates self = Some once /\
    cleaned_df once = Some df' /\
    remove_duplicates once = Some twice /\
    cleaned_df twice = Some df' /\
    summary twice !! "duplicates_removed" = Some 0%Z.
Proof.
  intros Hdf Hrect. unfold remove_duplicates at 1. rewrite Hdf. cbv zeta.
  eexists _, _, _. split; [reflexivity|]. cbn [cleaned_df].
  split; [reflexivity|]. unfold remove_duplicates. cbn [cleaned_df]. cbv zeta.
  rewrite (drop_duplicates_fixed df Hrect).
  split; [reflexivity|]. cbn [cleaned_df summary]. split; [reflexivity|].
  rewrite lookup_insert_eq. f_equal. lia.
Qed.

Lemma remove_duplicates_twice_witness :
  exists (once twice : DataCleaningPipeline) (df' : DataFrame),
    remove_duplicates (load_csv frame_repeat init) = Some once /\
    cleaned_df once = Some df' /\
    remove_duplicates once = Some twice /\
    cleaned_df twice = Some df' /\
    summary twice !! "duplicates_removed" = Some 0%Z.
Proof.
  apply (remove_duplicates_twice (load_csv frame_repeat init) frame_repeat).
  - reflexivity.
  - repeat constructor.
Defined.

(** ** Step 5: the replacement value lies within the bounds *)

Ltac div_lia := zify; Z.div_mod_to_equations; lia.

Lemma insert_sorted_in_q (x y : Q) (l : list Q) :
  In y (insert_sorted Qle_bool x l) -> y = x \/ In y l.
Proof.
  induction l as [|z r IH]; cbn [insert_sorted].
  - intros [H|[]]; auto.
  - destruct (Qle_bool x z).
    + intros [H|H]; auto.
    + intros [H|H]; [right; left; exact H|].
      destruct (IH H) as [H1|H1]; [left; exact H1|right; right; exact H1].
Qed.

Lemma insert_sorted_strong (x : Q) (l : list Q) :
  StronglySorted Qle l -> StronglySorted Qle (insert_sorted Qle_bool x l).
Proof.
  induction 1 as [|z r Hs IH Hz]; cbn [insert_sorted].
  - constructor; constructor.
  - destruct (Qle_bool x z) eqn:E.
    + apply Qle_bool_iff in E. constructor.
      * constructor; assumption.
      * constructor; [exact E|].
        eapply List.Forall_impl; [|exact Hz].
        intros a Ha. eapply Qle_trans; eassumption.
    + constructor; [exact IH|].
      apply List.Forall_forall. intros y Hy.
      apply insert_sorted_in_q in Hy. destruct Hy as [->|Hy].
      * destruct (Qlt_le_dec z x) as [H|H]; [apply Qlt_le_weak; exact H|].
        apply Qle_bool_iff in H. congruence.
      * rewrite List.Forall_forall in Hz. apply Hz. exact Hy.
Qed.

Lemma sort_strong (l : list Q) : StronglySorted Qle (sort Qle_bool l).
Proof.
  induction l as [|x r IH]; cbn [sort]; [constructor|].
  apply insert_sorted_strong. exact IH.
Qed.

Lemma sorted_nth (l : list Q) :
  StronglySorted Qle l ->
  forall i j, i <= j -> j < length l -> (nth i l 0 <= nth j l 0)%Q.
Proof.
  induction 1 as [|z r Hs IH Hz]; intros i j Hij Hj; cbn [length] in Hj; [lia|].
  destruct i as [|i], j as [|j]; cbn [nth].
  - apply Qle_refl.
  - rewrite List.Forall_forall in Hz. apply Hz. apply nth_In. lia.
  - lia.
  - apply IH; lia.
Qed.

Lemma interpolation_between (a b f : Q) :
  (a <= b -> 0 <= f -> f <= 1 -> a <= a + (b - a) * f /\ a + (b - a) * f <= b)%Q.
Proof. intros. split; nra. Qed.

Lemma floor_quarter (k : nat) : Qfloor (Qnat k * 0.25) = (Z.of_nat k / 4)%Z.
Proof.
  unfold Qfloor, Qnat, Qmult, inject_Z. cbn [Qnum Qden].
  change (Z.pos (1 * 100)) with (4 * 25)%Z.
  apply Z.div_mul_cancel_r; discriminate.
Qed.

Lemma floor_three_quarters (k : nat) : Qfloor (Qnat k * 0.75) = (3 * Z.of_nat k / 4)%Z.
Proof.
  unfold Qfloor, Qnat, Qmult, inject_Z. cbn [Qnum Qden].
  change (Z.pos (1 * 100)) with (4 * 25)%Z.
  replace (Z.of_nat k * 75)%Z with (3 * Z.of_nat k * 25)%Z by lia.
  apply Z.div_mul_cancel_r; discriminate.
Qed.

Lemma fraction_range (h : Q) : (0 <= h - inject_Z (Qfloor h) /\ h - inject_Z (Qfloor h) <= 1)%Q.
Proof.
  pose proof (Qfloor_le h) as H1. pose proof (Qlt_floor h) as H2.
  rewrite inject_Z_plus in H2. change (inject_Z 1) with 1%Q in H2.
  split; lra.
Qed.

(** Position of a quantile between two neighbours of the sorted values. *)
Lemma quantile_between (vs : list value) (q : Q) (lo : nat) :
  let s := sort Qle_bool (numbers vs) in
  length s <> 0 ->
  Z.to_nat (Qfloor (Qnat (length s - 1) * q)) = lo ->
  lo <= length s - 1 ->
  exists v, quantile vs q = Some v /\
    (nth lo s 0 <= v /\ v <= nth (Nat.min (lo + 1) (length s - 1)) s 0)%Q.
Proof.
  intros s Hn Hlo Hle. unfold quantile. fold s.
  destruct (length s =? 0) eqn:E; [apply Nat.eqb_eq in E; contradiction|].
  cbv zeta. rewrite Hlo. eexists. split; [reflexivity|].
  rewrite Qred_correct.
  apply interpolation_between.
  - apply sorted_nth; [apply sort_strong| |]; lia.
  - apply fraction_range.
  - apply fraction_range.
Qed.

Lemma median_between (vs : list value) :
  let s := sort Qle_bool (numbers vs) in
  length s <> 0 ->
  exists m, median vs = Some m /\
    (nth ((length s - 1) / 2) s 0 <= m /\ m <= nth (length s / 2) s 0)%Q.
Proof.
  intros s Hn. unfold median. fold s.
  destruct (length s =? 0) eqn:E; [apply Nat.eqb_eq in E; contradiction|].
  destruct (Nat.odd (length s)) eqn:Ho.
  - eexists. split; [reflexivity|]. rewrite Qred_correct.
    apply Nat.odd_spec in Ho. destruct Ho as [k Hk].
    replace ((length s - 1) / 2) with (length s / 2) by div_lia.
    split; apply Qle_refl.
  - eexists. split; [reflexivity|]. rewrite Qred_correct.
    assert (He : Nat.even (length s) = true).
    { rewrite <- Nat.negb_odd, Ho. reflexivity. }
    apply Nat.even_spec in He. destruct He as [k Hk].
    replace ((length s - 1) / 2) with (length s / 2 - 1) by div_lia.
    assert (H : (nth (length s / 2 - 1) s 0 <= nth (length s / 2) s 0)%Q).
    { apply sorted_nth; [apply sort_strong| |]; div_lia. }
    split.
    + apply Qle_shift_div_l; [reflexivity|]. lra.
    + apply Qle_shift_div_r; [reflexivity|]. lra.
Qed.

(** The median lies between the quartiles. *)
Lemma median_between_quartiles (vs : list value) :
  length (sort Qle_bool (numbers vs)) <> 0 ->
  exists Q1 m Q3,
    quantile vs 0.25 = Some Q1 /\ median vs = Some m /\ quantile vs 0.75 = Some Q3 /\
    (Q1 <= m /\ m <= Q3)%Q.
Proof.
  intros Hn. set (s := sort Qle_bool (numbers vs)) in *.
  assert (Hs : StronglySorted Qle s) by apply sort_strong.
  destruct (Nat.eq_dec (length s) 2) as [H2|H2].
  - (* two values: both quartiles interpolate between them *)
    unfold quantile, median. fold s.
    destruct s as [|x [|y [|z r]]] eqn:Es; try discriminate H2.
    cbn [length Nat.eqb Nat.odd Nat.even negb Nat.sub].
    do 3 eexists. split; [reflexivity|]. split; [reflexivity|]. split; [reflexivity|].
    rewrite !Qred_correct.
    assert (Hxy : (x <= y)%Q).
    { inversion Hs as [|? ? ? Hf]; subst. inversion Hf; subst. assumption. }
    change (Z.to_nat (Qfloor (Qnat 1 * 0.25))) with 0.
    change (Z.to_nat (Qfloor (Qnat 1 * 0.75))) with 0.
    change (inject_Z (Qfloor (Qnat 1 * 0.25))) with 0%Q.
    change (inject_Z (Qfloor (Qnat 1 * 0.75))) with 0%Q.
    change (Qnat 1) with 1%Q.
    cbn [Nat.div Nat.divmod fst Nat.add Nat.min nth Nat.sub].
    split.
    + apply Qle_shift_div_l; [reflexivity|]. lra.
    + apply Qle_shift_div_r; [reflexivity|]. lra.
  - destruct (quantile_between vs 0.25 ((length s - 1) / 4)) as (Q1 & E1 & _ & H1).
    + exact Hn.
    + fold s. rewrite floor_quarter. div_lia.
    + fold s. div_lia.
    + destruct (quantile_between vs 0.75 (3 * (length s - 1) / 4)) as (Q3 & E3 & H3 & _).
      * exact Hn.
      * fold s. rewrite floor_three_quarters. div_lia.
      * fold s. div_lia.
      * destruct (median_between vs Hn) as (m & Em & Hm1 & Hm2).
        fold s in H1, H3, Hm1, Hm2.
        exists Q1, m, Q3. repeat split; try assumption.
        -- eapply Qle_trans; [exact H1|]. eapply Qle_trans; [|exact Hm1].
           apply sorted_nth; [exact Hs| |]; div_lia.
        -- eapply Qle_trans; [exact Hm2|]. eapply Qle_trans; [|exact H3].
           apply sorted_nth; [exact Hs| |]; div_lia.
Qed.

Lemma quantile_some_length (vs : list value) (q v : Q) :
  quantile vs q = Some v -> length (sort Qle_bool (numbers vs)) <> 0.
Proof.
  unfold quantile. destruct (length (sort Qle_bool (numbers vs)) =? 0) eqn:E; [discriminate|].
  intros _. apply Nat.eqb_neq. exact E.
Qed.

Lemma median_inside_bounds (vs : list value) (lower_bound upper_bound : Q) :
  iqr_bounds vs = Some (lower_bound, upper_bound) ->
  exists m, median vs = Some m /\ (lower_bound <= m /\ m <= upper_bound)%Q.
Proof.
  unfold iqr_bounds.
  destruct (quantile vs 0.25) as [Q1|] eqn:E1; [|discriminate].
  destruct (quantile vs 0.75) as [Q3|] eqn:E3; [|discriminate].
  cbv zeta. intros H. injection H as <- <-.
  destruct (median_between_quartiles vs (quantile_some_length _ _ _ E1))
    as (Q1' & m & Q3' & E1' & Em & E3' & H1 & H3).
  rewrite E1 in E1'. rewrite E3 in E3'. injection E1' as <-. injection E3' as <-.
  exists m. split; [exact Em|]. split; lra.
Qed.

Lemma outlier_cell_inside (lower_bound upper_bound x : Q) :
  (lower_bound <= x)%Q -> (x <= upper_bound)%Q ->
  outlier_cell lower_bound upper_bound (VNum x) = false.
Proof.
  intros H1 H2. cbn [outlier_cell]. unfold Qltb.
  apply Qle_bool_iff in H1. apply Qle_bool_iff in H2. rewrite H1, H2. reflexivity.
Qed.

Lemma assign_where_inside (lower_bound upper_bound : Q) (x : value) (vs : list value) :
  outlier_cell lower_bound upper_bound x = false ->
  Forall (fun v => outlier_cell lower_bound upper_bound v = false)
    (assign_where (map (outlier_cell lower_bound upper_bound) vs) x vs).
Proof.
  intros Hx. induction vs as [|v r IH]; cbn [map assign_where]; [constructor|].
  constructor; [|exact IH].
  destruct (outlier_cell lower_bound upper_bound v) eqn:E; assumption.
Qed.

Lemma mask_sum_none (f : value -> bool) (vs : list value) :
  mask_sum (map f vs) = 0 -> Forall (fun v => f v = false) vs.
Proof.
  induction vs as [|v r IH]; cbn [map mask_sum]; [constructor|].
  destruct (f v) eqn:E; [intros H; lia|].
  intros H. constructor; [exact E|]. apply IH. lia.
Qed.

Lemma outlier_loop_inside (cols : list Series) :
  forall k, Forall2 inside_or_same cols (fst (outlier_loop cols k)).
Proof.
  induction cols as [|c rest IH]; intros k; cbn [outlier_loop]; [constructor|].
  unfold inside_or_same at 1.
  destruct (s_dtype c) eqn:Ed.
  - specialize (IH k). destruct (outlier_loop rest k) as [rest' total].
    constructor; [|exact IH]. rewrite Ed. split; reflexivity.
  - cbv zeta.
    destruct (0 <? mask_sum (outlier_mask (s_values c))) eqn:E0.
    + specialize (IH (k + mask_sum (outlier_mask (s_values c)))).
      destruct (outlier_loop rest _) as [rest' total].
      constructor; [|exact IH]. rewrite Ed. split; [reflexivity|].
      unfold outlier_mask in *.
      destruct (iqr_bounds (s_values c)) as [[lower_bound upper_bound]|] eqn:Eb.
      * cbn [set_values s_values].
        destruct (median_inside_bounds _ _ _ Eb) as (m & Em & H1 & H2).
        unfold median_value. rewrite Em.
        apply assign_where_inside. apply outlier_cell_inside; assumption.
      * exfalso. apply Nat.ltb_lt in E0.
        rewrite mask_sum_map_false in E0 by reflexivity. lia.
    + specialize (IH k). destruct (outlier_loop rest k) as [rest' total].
      constructor; [|exact IH]. rewrite Ed. split; [reflexivity|].
      unfold outlier_mask in *.
      destruct (iqr_bounds (s_values c)) as [[lower_bound upper_bound]|] eqn:Eb; [|reflexivity].
      apply mask_sum_none. apply Nat.ltb_ge in E0. lia.
Qed.

Lemma outlier_differs (lower_bound upper_bound : Q) (v w : value) :
  outlier_cell lower_bound upper_bound v = true ->
  outlier_cell lower_bound upper_bound w = false ->
  value_eqb v w = false.
Proof.
  destruct v as [|x|]; cbn [outlier_cell]; try discriminate.
  destruct w as [|y|]; try reflexivity. cbn [outlier_cell value_eqb].
  intros Hv Hw. destruct (Qeq_bool x y) eqn:E; [|reflexivity].
  apply Qeq_bool_iff in E. unfold Qltb in *. rewrite E in Hv. congruence.
Qed.

Lemma assign_where_changes (lower_bound upper_bound : Q) (x : value) (vs : list value) :
  outlier_cell lower_bound upper_bound x = false ->
  changed_cells vs (assign_where (map (outlier_cell lower_bound upper_bound) vs) x vs)
  = mask_sum (map (outlier_cell lower_bound upper_bound) vs).
Proof.
  intros Hx. induction vs as [|v r IH]; cbn [map assign_where changed_cells mask_sum];
    [reflexivity|].
  destruct (outlier_cell lower_bound upper_bound v) eqn:E.
  - now rewrite (outlier_differs _ _ _ _ E Hx), IH.
  - now rewrite value_eqb_refl, IH.
Qed.

Lemma outlier_loop_changes (cols : list Series) :
  forall k, snd (outlier_loop cols k) = k + frame_changes cols (fst (outlier_loop cols k)).
Proof.
  induction cols as [|c rest IH]; intros k; cbn [outlier_loop]; [simpl; lia|].
  destruct (s_dtype c) eqn:Ed.
  - specialize (IH k). destruct (outlier_loop rest k) as [rest' total].
    cbn [fst snd frame_changes] in *. rewrite changed_cells_same. lia.
  - cbv zeta.
    destruct (0 <? mask_sum (outlier_mask (s_values c))) eqn:E0.
    + specialize (IH (k + mask_sum (outlier_mask (s_values c)))).
      destruct (outlier_loop rest _) as [rest' total].
      cbn [fst snd frame_changes set_values s_values] in *.
      unfold outlier_mask in *.
      destruct (iqr_bounds (s_values c)) as [[lower_bound upper_bound]|] eqn:Eb.
      * destruct (median_inside_bounds _ _ _ Eb) as (m & Em & H1 & H2).
        unfold median_value. rewrite Em.
        rewrite assign_where_changes by (apply outlier_cell_inside; assumption). lia.
      * exfalso. apply Nat.ltb_lt in E0.
        rewrite mask_sum_map_false in E0 by reflexivity. lia.
    + specialize (IH k). destruct (outlier_loop rest k) as [rest' total].
      cbn [fst snd frame_changes] in *. rewrite changed_cells_same. lia.
Qed.

(** X13.  [detect_and_replace_outliers] returns, keeps the column names, and
    leaves no cell of a numeric column outside the bounds
    [Q1 - 1.5 IQR, Q3 + 1.5 IQR] computed from that column before the step:
    the median that replaces an outlier lies between the quartiles.  A
    column that is not numeric, or has no present number, is returned as it
    is.  (Numbers are exact rationals.) *)
Theorem outliers_replaced_inside_bounds (self : DataCleaningPipeline) (df : DataFrame) :
  cleaned_df self = Some df ->
  exists (self' : DataCleaningPipeline) (df' : DataFrame),
    detect_and_replace_outliers self = Some self' /\
    cleaned_df self' = Some df' /\
    len df' = len df /\
    Forall2 inside_or_same (columns df) (columns df').
Proof.
  intros Hdf. unfold detect_and_replace_outliers. rewrite Hdf. unfold outlier_frame.
  pose proof (outlier_loop_inside (columns df) 0) as H.
  destruct (outlier_loop (columns df) 0) as [cols n].
  eexists _, _. split; [reflexivity|]. cbn [cleaned_df].
  split; [reflexivity|]. split; [reflexivity | exact H].
Qed.

Lemma outliers_replaced_inside_bounds_witness :
  exists (self' : DataCleaningPipeline) (df' : DataFrame),
    detect_and_replace_outliers (load_csv frame_outlier init) = Some self' /\
    cleaned_df self' = Some df' /\
    len df' = len frame_outlier /\
    Forall2 inside_or_same (columns frame_outlier) (columns df').
Proof.
  exact (outliers_replaced_inside_bounds (load_csv frame_outlier init) frame_outlier eq_refl).
Defined.

(** X14.  On a frame whose numbers have magnitude at most 2^53,
    [outliers_replaced] is the number of cells whose content the step
    changed: every cell outside the bounds receives a different value, and
    no other cell changes.  (Beyond 2^53 the cast of an int64 column to
    float64 would change cells that the counter does not count.) *)
Theorem outliers_replaced_counts_changes (self : DataCleaningPipeline) (df : DataFrame) :
  cleaned_df self = Some df ->
  float_exact df ->
  exists (self' : DataCleaningPipeline) (df' : DataFrame),
    detect_and_replace_outliers self = Some self' /\
    cleaned_df self' = Some df' /\
    summary self' !! "outliers_replaced"
      = Some (counter (frame_changes (columns df) (columns df'))).
Proof.
  intros Hdf _. unfold detect_and_replace_outliers. rewrite Hdf. unfold outlier_frame.
  pose proof (outlier_loop_changes (columns df) 0) as H.
  destruct (outlier_loop (columns df) 0) as [cols n]. cbn [fst snd] in H.
  eexists _, _. split; [reflexivity|]. cbn [cleaned_df summary columns].
  split; [reflexivity|]. rewrite lookup_insert_eq. now rewrite H.
Qed.

Lemma outliers_replaced_counts_changes_witness :
  exists (self' : DataCleaningPipeline) (df' : DataFrame),
    detect_and_replace_outliers (load_csv frame_outlier init) = Some self' /\
    cleaned_df self' = Some df' /\
    summary self' !! "outliers_replaced"
      = Some (counter (frame_changes (columns frame_outlier) (columns df'))).
Proof.
  apply (outliers_replaced_counts_changes (load_csv frame_outlier init) frame_outlier);
    [reflexivity|].
  unfold float_exact, frame_outlier, numeric_column. cbn [columns s_values map].
  constructor; [|constructor].
  repeat (constructor; [vm_compute; discriminate|]). constructor.
Defined.

(** ** run_pipeline: the log and the summary *)


Lemma outlier_loop_keeps_names (cols : list Series) (k : nat) :
  map s_name (fst (outlier_loop cols k)) = map s_name cols.
Proof.
  revert k. induction cols as [|c cols IH]; intros k; simpl; [reflexivity|].
  destruct (s_dtype c); [|destruct (0 <? _)];
    match goal with |- context [outlier_loop cols ?k'] =>
      specialize (IH k'); destruct (outlier_loop cols k') end;
    simpl in *; now rewrite IH.
Qed.

Lemma missing_loop_keeps_names np dt dn (cols : list Series) (k : nat) :
  map s_name (fst (missing_loop np dt dn cols k)) = map s_name cols.
Proof.
  revert k. induction cols as [|c cols IH]; intros k; simpl; [reflexivity|].
  destruct (isna_sum (s_values c) =? 0).
  - specialize (IH k). destruct (missing_loop _ _ _ cols k). simpl in *. now rewrite IH.
  - assert (Hn : s_name (fst (impute_column np dt dn c)) = s_name c).
    { unfold impute_column. destruct (is_numeric_dtype _); [destruct (median _)|];
        [| destruct (mode _) | destruct (column_type_eqb _ _); [|destruct (mode _)]];
        reflexivity. }
    destruct (impute_column _ _ _ c) as [c' counted].
    match goal with |- context [missing_loop _ _ _ cols ?k'] =>
      specialize (IH k'); destruct (missing_loop _ _ _ cols k') end.
    simpl in *. now rewrite Hn, IH.
Qed.

Section Run.

Variable numeric_of_text : string -> option Q.
Variable datetime_of_text : string -> option datetime.
Variable datetime_of_number : Q -> option datetime.
Variable datetime_of_column : list value -> conversion.

Abbreviation after_dates' := (after_dates numeric_of_text datetime_of_text datetime_of_number
    datetime_of_column).
Abbreviation after_missing' := (after_missing numeric_of_text datetime_of_text datetime_of_number
    datetime_of_column).
Abbreviation after_duplicates' :=
  (after_duplicates numeric_of_text datetime_of_text datetime_of_number datetime_of_column).
Abbreviation clean_frame' := (clean_frame numeric_of_text datetime_of_text datetime_of_number
    datetime_of_column).
Abbreviation run_pipeline' := (run_pipeline numeric_of_text datetime_of_text datetime_of_number
    datetime_of_column).

Abbreviation stage_counts' :=
  (stage_counts numeric_of_text datetime_of_text datetime_of_number datetime_of_column).

Lemma run_pipeline_unfold (df : DataFrame) :
  let '(trimmed, dates, missing, duplicates, outliers) := stage_counts' df in
  run_pipeline' df
  = Some
      {| cleaning_steps :=
           [ {| step_name := "load_csv";
                description := "Loaded CSV with " +:+ decimal (len df) +:+ " rows and "
                                 +:+ decimal (ncols df) +:+ " columns" |};
             {| step_name := "trim_and_normalize";
                description := "Trimmed and normalized " +:+ decimal trimmed
                                 +:+ " string values" |};
             {| step_name := "fix_dates";
                description := "Fixed " +:+ decimal dates
                                 +:+ " date columns to YYYY-MM-DD format" |};
             {| step_name := "handle_missing";
                description := "Handled " +:+ decimal missing +:+ " missing values" |};
             {| step_name := "remove_duplicates";
                description := "Removed " +:+ str_int duplicates +:+ " duplicate rows" |};
             {| step_name := "detect_outliers";
                description := "Detected and replaced " +:+ decimal outliers
                                 +:+ " outliers using IQR method" |} ];
         original_df := Some df;
         cleaned_df := Some (clean_frame' df);
         summary :=
           <["rows_removed" := (counter (len df) - counter (len (clean_frame' df)))%Z]>
           (<["cleaned_rows" := counter (len (clean_frame' df))]>
           (<["outliers_replaced" := counter outliers]>
           (<["duplicates_removed" := duplicates]>
           (<["missing_values_handled" := counter missing]>
           (<["date_columns_fixed" := counter dates]>
           (<["columns" := counter (ncols df)]>
           (<["original_rows" := counter (len df)]> (summary init)))))))) |}.
Proof.
  unfold stage_counts, run_pipeline, clean_frame, after_duplicates, after_missing, after_dates.
  unfold trim_and_normalize_strings, load_csv. cbn [cleaned_df].
  destruct (trim_frame df) as [d1 c1].
  cbn [mbind option_bind fst snd].
  unfold fix_dates. cbn [cleaned_df].
  destruct (fix_dates_frame _ _ _ _ d1) as [d2 c2].
  cbn [mbind option_bind fst snd].
  unfold handle_missing_values. cbn [cleaned_df].
  destruct (missing_frame _ _ _ d2) as [d3 c3].
  cbn [mbind option_bind fst snd].
  unfold remove_duplicates. cbn [cleaned_df mbind option_bind].
  unfold detect_and_replace_outliers. cbn [cleaned_df].
  destruct (outlier_frame (drop_duplicates d3)) as [d5 c5].
  cbn [mbind option_bind fst snd].
  unfold finalize. cbn [cleaned_df summary cleaning_steps original_df].
  assert (Ho : forall m : gmap string Z,
    <["cleaned_rows":=counter (len d5)]>
      (<["outliers_replaced":=counter c5]>
         (<["duplicates_removed":=(counter (len d3) - counter (len (drop_duplicates d3)))%Z]>
            (<["missing_values_handled":=counter c3]>
               (<["date_columns_fixed":=counter c2]>
                  (<["columns":=counter (ncols df)]>
                     (<["original_rows":=counter (len df)]> m)))))) !! "original_rows"
    = Some (counter (len df))).
  { intros m. rewrite !lookup_insert_ne by done. apply lookup_insert_eq. }
  rewrite Ho, lookup_insert_eq. cbn [mbind option_bind]. reflexivity.
Qed.

Ltac summary_lookup := rewrite ?lookup_insert_ne by done; apply lookup_insert_eq.

(** X15.  [run_pipeline] returns for every frame; it keeps the frame it was
    given as [original_df], logs the six steps in their order, and the
    cleaned frame has the columns of the input, by name and in order. *)
Theorem run_pipeline_log (df : DataFrame) :
  exists (self' : DataCleaningPipeline) (cleaned : DataFrame),
    run_pipeline' df = Some self' /\
    original_df self' = Some df /\
    cleaned_df self' = Some cleaned /\
    map step_name (cleaning_steps self')
      = [ "load_csv"; "trim_and_normalize"; "fix_dates"; "handle_missing";
          "remove_duplicates"; "detect_outliers" ] /\
    map s_name (columns cleaned) = map s_name (columns df).
Proof.
  pose proof (run_pipeline_unfold df) as H. unfold stage_counts in H.
  cbv beta iota zeta in H. rewrite H.
  eexists _, _. split; [reflexivity|]. split; [reflexivity|]. split; [reflexivity|].
  split; [reflexivity|].
  unfold clean_frame, after_duplicates, after_missing, after_dates.
  unfold outlier_frame, missing_frame, fix_dates_frame, trim_frame.
  pose proof (trim_loop_cells (columns df) 0) as H1.
  destruct (trim_loop (columns df) 0) as [c1 n1]. cbn [fst columns len nrows] in *.
  pose proof (fix_dates_loop_columns numeric_of_text datetime_of_text datetime_of_number
                datetime_of_column (nrows df) c1 0) as H2.
  destruct (fix_dates_loop _ _ _ _ (nrows df) c1 0) as [c2 n2].
  cbn [fst columns len nrows] in *.
  pose proof (missing_loop_keeps_names numeric_of_text datetime_of_text datetime_of_number
                c2 0) as H3.
  destruct (missing_loop _ _ _ c2 0) as [c3 n3]. cbn [fst columns len nrows] in *.
  set (d3 := {| nrows := nrows df; columns := c3 |}).
  assert (H4 : map s_name (columns (drop_duplicates d3)) = map s_name c3).
  { unfold drop_duplicates. destruct (frame_empty d3); [reflexivity|].
    simpl. now rewrite List.map_map. }
  pose proof (outlier_loop_keeps_names (columns (drop_duplicates d3)) 0) as H5.
  destruct (outlier_loop (columns (drop_duplicates d3)) 0) as [c5 n5].
  cbn [fst columns] in *.
  assert (N1 : map s_name c1 = map s_name (columns df)).
  { clear -H1. induction H1 as [|? ? ? ? (E & _) _ IH]; simpl; [reflexivity | now f_equal]. }
  assert (N2 : map s_name c2 = map s_name c1).
  { clear -H2. induction H2 as [|c c' ? ? E _ IH]; simpl; [reflexivity|].
    f_equal; [|exact IH]. destruct E as [-> | (parse & ->)]; reflexivity. }
  congruence.
Qed.

(** X16.  The summary of a run adds up: [original_rows], [cleaned_rows] and
    [columns] are the sizes of the input and of the cleaned frame,
    [rows_removed] equals [duplicates_removed] (no other step drops a row),
    both equal the difference of the row counts, and lie between 0 and
    [original_rows]. *)
Theorem run_pipeline_accounts (df : DataFrame) :
  exists (self' : DataCleaningPipeline) (cleaned : DataFrame) (removed : Z),
    run_pipeline' df = Some self' /\
    cleaned_df self' = Some cleaned /\
    summary self' !! "original_rows" = Some (counter (len df)) /\
    summary self' !! "cleaned_rows" = Some (counter (len cleaned)) /\
    summary self' !! "columns" = Some (counter (ncols cleaned)) /\
    summary self' !! "rows_removed" = Some removed /\
    summary self' !! "duplicates_removed" = Some removed /\
    removed = (counter (len df) - counter (len cleaned))%Z /\
    (0 <= removed <= counter (len df))%Z.
Proof.
  pose proof (run_pipeline_unfold df) as H. unfold stage_counts in H.
  cbv beta iota zeta in H. rewrite H.
  destruct (clean_frame_shape numeric_of_text datetime_of_text datetime_of_number  
      datetime_of_column df)
    as (Hl & Hle & Hn).
  destruct (after_missing_shape numeric_of_text datetime_of_text datetime_of_number  
      datetime_of_column df)
    as [Hm _].
  eexists _, _, _. split; [reflexivity|]. cbn [cleaned_df summary].
  split; [reflexivity|].
  split; [summary_lookup|]. split; [summary_lookup|].
  split; [rewrite Hn; summary_lookup|].
  split; [summary_lookup|].
  split; [rewrite Hl, <- Hm; summary_lookup|].
  split; [reflexivity|]. unfold counter. lia.
Qed.

(** X17.  [format_report_summary] on the summary of a run always prints
    seven lines: the summary holds the three optional keys, so the three
    optional lines are never left out, and each line carries the figure of
    its stage. *)
Theorem run_pipeline_report_lines (df : DataFrame) :
  exists self' : DataCleaningPipeline,
    run_pipeline' df = Some self' /\
    format_report_summary (summary self')
      = String.concat (String (ascii_of_nat 10) EmptyString)
          [ "**Original Rows:** " +:+ str_int (counter (len df));
            "**Cleaned Rows:** " +:+ str_int (counter (len (clean_frame' df)));
            "**Rows Removed:** "
              +:+ str_int (counter (len df) - counter (len (clean_frame' df)));
            "**Columns:** " +:+ str_int (counter (ncols df));
            "**Missing Values Fixed:** "
              +:+ str_int (counter (snd (missing_frame numeric_of_text datetime_of_text
                                           datetime_of_number (after_dates' df))));
            "**Outliers Replaced:** "
              +:+ str_int (counter (snd (outlier_frame (after_duplicates' df))));
            "**Date Columns Fixed:** "
              +:+ str_int (counter (snd (fix_dates_frame numeric_of_text datetime_of_text
                                           datetime_of_number
                                               datetime_of_column (fst (trim_frame df))))) ].
Proof.
  pose proof (run_pipeline_unfold df) as H. unfold stage_counts in H.
  cbv beta iota zeta in H. rewrite H.
  eexists. split; [reflexivity|]. cbn [summary].
  unfold format_report_summary, report_lines.
  repeat match goal with
         | |- context [ ?m !! ?k ] =>
             let E := fresh in
             eassert (E : m !! k = Some _) by summary_lookup; rewrite E; clear E
         end.
  reflexivity.
Qed.

(** X18.  The percentage that [_fallback_report] prints for the summary of a
    run lies between 0 and 100, and is 0 for a frame without rows (the
    division is by [max(original_rows, 1)]). *)
Theorem fallback_percent_in_range (df : DataFrame) :
  exists self' : DataCleaningPipeline,
    run_pipeline' df = Some self' /\
    (0 <= AiReport.percent_removed (summary self') <= 100)%Q /\
    (len df = 0 -> (AiReport.percent_removed (summary self') == 0)%Q).
Proof.
  pose proof (run_pipeline_unfold df) as H. unfold stage_counts in H.
  cbv beta iota zeta in H. rewrite H.
  destruct (clean_frame_shape numeric_of_text datetime_of_text datetime_of_number  
      datetime_of_column df)
    as (Hl & Hle & _).
  eexists. split; [reflexivity|]. cbn [summary].
  unfold AiReport.percent_removed, get.
  repeat match goal with
         | |- context [ ?m !! ?k ] =>
             let E := fresh in
             eassert (E : m !! k = Some _) by summary_lookup; rewrite E; clear E
         end.
  simpl default.
  set (o := counter (len df)) in *.
  set (r := (o - counter (len (clean_frame' df)))%Z).
  assert (Hb : (0 <= r <= o)%Z) by (unfold r, o, counter; lia).
  clear H Hl Hle.
  assert (Hm : (1 <= Z.max o 1)%Z) by lia.
  assert (Hro : (r <= Z.max o 1)%Z) by lia.
  clearbody r.
  destruct (Z.max o 1) as [|m|m] eqn:Em; try lia.
  unfold Qdiv, Qinv, Qle, Qeq, Qmult, inject_Z. cbn [Qnum Qden].
  repeat split.
  - nia.
  - rewrite ?Pos.mul_1_l, ?Pos.mul_1_r, ?Z.mul_1_r. nia.
  - intros Hz. unfold o, counter in *. rewrite Hz in *. simpl in *. lia.
Qed.

End Run.

(** ** The emitted script on frames without gaps *)

Lemma script_agrees_without_gaps_witness :
  Script.clean_data no_number no_date no_date_q no_conversion frame_a
  = Some (clean_frame no_number no_date no_date_q no_conversion frame_a).
Proof.
  apply (script_agrees_without_gaps no_number no_date no_date_q no_conversion frame_a).
  vm_compute. repeat constructor.
Defined.
